(** * safe-chain: the interception engine, embedded in Rocq

    A shallow embedding of the registry proxy of safe-chain: the
    interceptor builder, the npm and pip interceptors, the npm metadata
    rewriter, the proxy controller's bookkeeping and the wrapper's [main].

    Conventions of the embedding.
    - JavaScript strings are [string]; a character is one code unit.
    - [undefined] is [None] where a value is "string | undefined", and
      [JS.VUndefined] inside object literals.
    - Module-level mutable state of the program (CLI arguments, audit
      counters, blocked requests, the suppressed-versions flag, the
      clock) lives in one record [World], threaded by the monad [M].
    - Node built-ins (JSON, Date, URL, zlib) and the modules of the
      repository that the proxy only imports (the npm URL parser, the
      malware database) are the fields of the classes [Runtime] and
      [Collaborators].
    - Logging through [ui] has no effect on any value and is left out. *)

From Stdlib Require Import ZArith Ascii String List Bool Lia DecimalString.
From stdpp Require Import base option list strings gmap.

Set Default Proof Using "Type".

(** ** JavaScript primitives used by the sources *)
Module JS.

(** Values stored in object literals. *)
Inductive value :=
| VUndefined
| VNumber (n : Z)
| VString (s : string).

Definition of_option (o : option string) : value :=
  match o with
  | Some s => VString s
  | None => VUndefined
  end.

(** An object literal, in property order. *)
Abbreviation obj := (list (string * value)).

(** [o[k]]: a missing property reads as [undefined]. *)
Fixpoint get (o : obj) (k : string) : value :=
  match o with
  | [] => VUndefined
  | (k', v) :: o' => if String.eqb k' k then v else get o' k
  end.

(** Truthiness of a string and of a "string | undefined". *)
Definition truthy (s : string) : bool :=
  match s with
  | EmptyString => false
  | String _ _ => true
  end.

Definition truthy_opt (o : option string) : bool :=
  match o with
  | Some s => truthy s
  | None => false
  end.

(** [c.toLowerCase()] on one code unit: A-Z, and the Latin-1 capitals.
    A string of [string] has 8-bit code units, so this is
    [String.prototype.toLowerCase] for strings of ASCII characters, and
    for nothing above U+00FF; a statement that depends on what
    [toLowerCase] does to other characters assumes [isAscii]. *)
Definition lower_char (c : ascii) : ascii :=
  let n := nat_of_ascii c in
  if ((65 <=? n) && (n <=? 90))%nat then ascii_of_nat (n + 32)
  else if ((192 <=? n) && (n <=? 222) && negb (n =? 215))%nat
       then ascii_of_nat (n + 32)
  else c.

Fixpoint toLowerCase (s : string) : string :=
  match s with
  | EmptyString => EmptyString
  | String c s' => String (lower_char c) (toLowerCase s')
  end.

(** Every code unit of [s] is an ASCII character. *)
Fixpoint isAscii (s : string) : bool :=
  match s with
  | EmptyString => true
  | String c s' => (nat_of_ascii c <? 128)%nat && isAscii s'
  end.

(** [s.startsWith(p)] *)
Definition startsWith (s p : string) : bool := String.prefix p s.

(** [s.includes(needle)] *)
Fixpoint includes (s needle : string) : bool :=
  String.prefix needle s ||
  match s with
  | EmptyString => false
  | String _ s' => includes s' needle
  end.

(** [s.endsWith(suffix)] *)
Fixpoint endsWith (s suffix : string) : bool :=
  String.eqb s suffix ||
  match s with
  | EmptyString => false
  | String _ s' => endsWith s' suffix
  end.

(** [s.indexOf(c)] for a one-character needle; [-1] when absent. *)
Fixpoint indexOf (s : string) (c : ascii) : Z :=
  match s with
  | EmptyString => (-1)%Z
  | String a s' =>
      if Ascii.eqb a c then 0%Z
      else let i := indexOf s' c in
           if (i <? 0)%Z then (-1)%Z else (i + 1)%Z
  end.

(** [s.lastIndexOf(c)] for a one-character needle; [-1] when absent. *)
Fixpoint lastIndexOf (s : string) (c : ascii) : Z :=
  match s with
  | EmptyString => (-1)%Z
  | String a s' =>
      let i := lastIndexOf s' c in
      if (0 <=? i)%Z then (i + 1)%Z
      else if Ascii.eqb a c then 0%Z else (-1)%Z
  end.

Definition len (s : string) : Z := Z.of_nat (String.length s).

(** Index normalisation of [slice]: negative counts from the end,
    and the result is clamped to [0, length]. *)
Definition clamp (s : string) (i : Z) : nat :=
  let l := len s in
  Z.to_nat (if (i <? 0)%Z then Z.max 0 (l + i) else Z.min i l).

(** [s.slice(start, end)] *)
Definition slice (s : string) (start stop : Z) : string :=
  let a := clamp s start in
  let b := clamp s stop in
  String.substring a (b - a) s.

(** [s.slice(start)] *)
Definition slice_from (s : string) (start : Z) : string :=
  slice s start (len s).

(** [s.split(sep)] for a one-character separator. *)
Fixpoint split (s : string) (sep : ascii) : list string :=
  match s with
  | EmptyString => [EmptyString]
  | String a s' =>
      if Ascii.eqb a sep then EmptyString :: split s' sep
      else match split s' sep with
           | [] => [String a EmptyString]
           | w :: ws => String a w :: ws
           end
  end.

(** [xs.join(sep)] *)
Definition join (xs : list string) (sep : string) : string :=
  String.concat sep xs.

End JS.

(** ** config/cliArguments.js *)
Module CliArguments.

Record State := {
  loggingLevel : option string;
  skipMinimumPackageAge : option bool;
  minimumPackageAgeHours : option string;
  includePython : bool;
}.

(** The module's initial [state]. *)
Definition initial : State :=
  {| loggingLevel := Some "silent";
     skipMinimumPackageAge := None;
     minimumPackageAgeHours := None;
     includePython := false |}.

Definition SAFE_CHAIN_ARG_PREFIX : string := "--safe-chain-".

(** Scans [args] from the last to the first. *)
Definition getLastArgEqualsValue (args : list string) (prefix : string)
  : option string :=
  match List.find (fun arg => JS.startsWith (JS.toLowerCase arg) prefix)
                  (List.rev args) with
  | Some arg => Some (JS.slice_from arg (JS.len prefix))
  | None => None
  end.

Definition hasFlagArg (args : list string) (flagName : string) : bool :=
  List.existsb
    (fun arg => String.eqb (JS.toLowerCase arg) (JS.toLowerCase flagName))
    args.

Definition setLoggingLevel (args : list string) (st : State) : State :=
  let level := getLastArgEqualsValue args (SAFE_CHAIN_ARG_PREFIX ++ "logging=") in
  match level with
  | Some l =>
      if JS.truthy l
      then {| loggingLevel := Some (JS.toLowerCase l);
              skipMinimumPackageAge := skipMinimumPackageAge st;
              minimumPackageAgeHours := minimumPackageAgeHours st;
              includePython := includePython st |}
      else st
  | None => st
  end.

Definition setSkipMinimumPackageAge (args : list string) (st : State) : State :=
  if hasFlagArg args (SAFE_CHAIN_ARG_PREFIX ++ "skip-minimum-package-age")
  then {| loggingLevel := loggingLevel st;
          skipMinimumPackageAge := Some true;
          minimumPackageAgeHours := minimumPackageAgeHours st;
          includePython := includePython st |}
  else st.

Definition setMinimumPackageAgeHours (args : list string) (st : State) : State :=
  let value :=
    getLastArgEqualsValue args (SAFE_CHAIN_ARG_PREFIX ++ "minimum-package-age-hours=") in
  if JS.truthy_opt value
  then {| loggingLevel := loggingLevel st;
          skipMinimumPackageAge := skipMinimumPackageAge st;
          minimumPackageAgeHours := value;
          includePython := includePython st |}
  else st.

Definition setIncludePython (args : list string) (st : State) : State :=
  {| loggingLevel := loggingLevel st;
     skipMinimumPackageAge := skipMinimumPackageAge st;
     minimumPackageAgeHours := minimumPackageAgeHours st;
     includePython := hasFlagArg args "--include-python" |}.

Definition isSafeChainArg (arg : string) : bool :=
  JS.startsWith (JS.toLowerCase arg) SAFE_CHAIN_ARG_PREFIX.

(** Returns the remaining arguments and the new module state. *)
Definition initializeCliArguments (args : list string) (st : State)
  : list string * State :=
  let st0 := {| loggingLevel := Some "silent";
                skipMinimumPackageAge := None;
                minimumPackageAgeHours := None;
                includePython := includePython st |} in
  let safeChainArgs := List.filter isSafeChainArg args in
  let remainingArgs := List.filter (fun a => negb (isSafeChainArg a)) args in
  let st1 := setLoggingLevel safeChainArgs st0 in
  let st2 := setSkipMinimumPackageAge safeChainArgs st1 in
  let st3 := setMinimumPackageAgeHours safeChainArgs st2 in
  let st4 := setIncludePython args st3 in
  (remainingArgs, st4).

Definition getLoggingLevel (st : State) := loggingLevel st.
Definition getSkipMinimumPackageAge (st : State) := skipMinimumPackageAge st.
Definition getMinimumPackageAgeHours (st : State) := minimumPackageAgeHours st.

End CliArguments.

(** ** config/settings.js *)
Module Settings.

Definition ECOSYSTEM_JS : string := "js".
Definition ECOSYSTEM_PY : string := "py".

Definition defaultMinimumPackageAge : Z := 24.

(** The source returns the default and reads nothing else. *)
Definition getMinimumPackageAgeHours : Z := defaultMinimumPackageAge.

Definition defaultSkipMinimumPackageAge : bool := false.

Definition skipMinimumPackageAge (cli : CliArguments.State) : bool :=
  match CliArguments.getSkipMinimumPackageAge cli with
  | Some true => true
  | _ => defaultSkipMinimumPackageAge
  end.

Definition LOGGING_SILENT : string := "silent".
Definition LOGGING_NORMAL : string := "normal".
Definition LOGGING_VERBOSE : string := "verbose".

Definition getLoggingLevel (cli : CliArguments.State) : string :=
  match CliArguments.getLoggingLevel cli with
  | Some level =>
      if String.eqb level LOGGING_SILENT then LOGGING_SILENT
      else if String.eqb level LOGGING_VERBOSE then LOGGING_VERBOSE
      else LOGGING_NORMAL
  | None => LOGGING_NORMAL
  end.

End Settings.

(** ** Process-wide state and the state monad *)

Record AuditStats := {
  totalPackages : Z;
  safePackages : Z;
  malwarePackages : Z;
}.

(** An entry of the proxy's [state.blockedRequests]. *)
Record BlockedRequest := {
  br_packageName : JS.value;
  br_version : JS.value;
  br_url : JS.value;
}.

Record World := {
  clock : Z;                              (* Date.now(), in milliseconds *)
  cli : CliArguments.State;               (* cliArguments.js: state *)
  ecoSystem : string;                     (* settings.js: ecosystemSettings *)
  auditStats : AuditStats;                (* audit/index.js: auditStats *)
  hasSuppressedVersions : bool;           (* modifyNpmInfo.js: state *)
  port : option Z;                        (* registryProxy.js: state.port *)
  blockedRequests : list BlockedRequest;  (* registryProxy.js: state *)
  emitted : list (string * JS.obj);       (* every EventEmitter.emit so far *)
  spawned : list (list string);           (* every child command run so far *)
}.

(** State and exceptions: a computation returns a value or throws an
    error message, and leaves a new world in both cases. *)
Inductive result (A : Type) :=
| Ok (a : A)
| Throw (message : string).
Arguments Ok {A} a.
Arguments Throw {A} message.

Definition M (A : Type) : Type := World -> result A * World.

Definition ret {A} (a : A) : M A := fun w => (Ok a, w).

Definition throw {A} (message : string) : M A := fun w => (Throw message, w).

Definition bind {A B} (m : M A) (k : A -> M B) : M B :=
  fun w =>
    match m w with
    | (Ok a, w') => k a w'
    | (Throw e, w') => (Throw e, w')
    end.

Definition gets {A} (f : World -> A) : M A := fun w => (Ok (f w), w).

Definition modify (f : World -> World) : M unit := fun w => (Ok tt, f w).

(** [try { m } catch (e) { handler(e) }] *)
Definition try_catch {A} (m : M A) (handler : string -> M A) : M A :=
  fun w =>
    match m w with
    | (Ok a, w') => (Ok a, w')
    | (Throw e, w') => handler e w'
    end.

(** [try { m } finally { cleanup }], for a [cleanup] that returns nothing. *)
Definition try_finally {A} (m : M A) (cleanup : M unit) : M A :=
  fun w =>
    match m w with
    | (r, w') =>
        match cleanup w' with
        | (Ok _, w'') => (r, w'')
        | (Throw e, w'') => (Throw e, w'')
        end
    end.

Declare Scope monad_scope.
Delimit Scope monad_scope with monad.
Notation "'let*' x ':=' m 'in' k" := (bind m (fun x => k))
  (at level 10, x pattern, m at level 100, k at level 200) : monad_scope.
Notation "m ';;' k" := (bind m (fun _ => k))
  (at level 100, k at level 200, right associativity) : monad_scope.
Local Open Scope monad_scope.

Definition set_cli (c : CliArguments.State) (w : World) : World :=
  {| clock := clock w; cli := c; ecoSystem := ecoSystem w;
     auditStats := auditStats w;
     hasSuppressedVersions := hasSuppressedVersions w; port := port w;
     blockedRequests := blockedRequests w; emitted := emitted w;
     spawned := spawned w |}.

Definition set_auditStats (s : AuditStats) (w : World) : World :=
  {| clock := clock w; cli := cli w; ecoSystem := ecoSystem w;
     auditStats := s;
     hasSuppressedVersions := hasSuppressedVersions w; port := port w;
     blockedRequests := blockedRequests w; emitted := emitted w;
     spawned := spawned w |}.

Definition set_hasSuppressedVersions (b : bool) (w : World) : World :=
  {| clock := clock w; cli := cli w; ecoSystem := ecoSystem w;
     auditStats := auditStats w;
     hasSuppressedVersions := b; port := port w;
     blockedRequests := blockedRequests w; emitted := emitted w;
     spawned := spawned w |}.

Definition set_port (p : option Z) (w : World) : World :=
  {| clock := clock w; cli := cli w; ecoSystem := ecoSystem w;
     auditStats := auditStats w;
     hasSuppressedVersions := hasSuppressedVersions w; port := p;
     blockedRequests := blockedRequests w; emitted := emitted w;
     spawned := spawned w |}.

Definition set_blockedRequests (l : list BlockedRequest) (w : World) : World :=
  {| clock := clock w; cli := cli w; ecoSystem := ecoSystem w;
     auditStats := auditStats w;
     hasSuppressedVersions := hasSuppressedVersions w; port := port w;
     blockedRequests := l; emitted := emitted w;
     spawned := spawned w |}.

Definition set_emitted (l : list (string * JS.obj)) (w : World) : World :=
  {| clock := clock w; cli := cli w; ecoSystem := ecoSystem w;
     auditStats := auditStats w;
     hasSuppressedVersions := hasSuppressedVersions w; port := port w;
     blockedRequests := blockedRequests w; emitted := l;
     spawned := spawned w |}.

Definition set_spawned (l : list (list string)) (w : World) : World :=
  {| clock := clock w; cli := cli w; ecoSystem := ecoSystem w;
     auditStats := auditStats w;
     hasSuppressedVersions := hasSuppressedVersions w; port := port w;
     blockedRequests := blockedRequests w; emitted := emitted w;
     spawned := l |}.

(** ** Data exchanged with the registry *)

(** Response and request headers: [NodeJS.Dict<string | string[]>]. *)
Inductive HeaderValue :=
| HString (s : string)
| HArray (l : list string).

Abbreviation Headers := (gmap string HeaderValue).

(** JSON values the rewriter carries along without looking inside. *)
#[warnings="-register-all"]
Inductive json :=
| JNull
| JBool (b : bool)
| JNumber (literal : string)
| JString (s : string)
| JArray (l : list json)
| JObject (l : list (string * json)).

(** A packument: the JSON document with the three objects the rewriter
    needs.  Objects are association lists in [Object.entries] order; the
    values of [time] and of [dist-tags] are strings. *)
Record Packument := {
  name : option string;
  time : list (string * string);
  versions : list (string * json);
  dist_tags : list (string * string);
  others : list (string * json);
}.

(** What [JSON.parse] produced, as far as [modifyNpmInfoResponse] tells
    documents apart.  [IsPackument p] is a document whose [time] and
    [dist-tags] are objects with string values and whose [versions] is
    an object.  [OtherJson] is a value that the rewriter returns as it
    came.  A document in which one of the three is truthy and of
    another type (an array, a string) is neither: what the rewriter
    does to it is not part of the model. *)
Inductive Parsed :=
| IsPackument (p : Packument)
| OtherJson.        (* [time], [dist-tags] or [versions] missing or falsy *)

(** Node built-ins.  [None] stands for a thrown exception, and for [NaN]
    in the case of [Date_parse]. *)
Class Runtime := {
  Buffer : Type;
  byteLength : Buffer -> Z;
  JSON_parse : Buffer -> option Parsed;      (* JSON.parse(body.toString("utf8")) *)
  JSON_stringify : Packument -> Buffer;      (* Buffer.from(JSON.stringify(json)) *)
  Date_parse : string -> option Z;           (* new Date(s).getTime() *)
  gunzipSync : Buffer -> option Buffer;
  gzipSync : Buffer -> Buffer;
  URL_pathname : string -> option string;    (* new URL(url).pathname *)
  URL_search : string -> string;             (* new URL(url).search *)
  URL_hash : string -> string;               (* new URL(url).hash *)
  decodeURIComponent : string -> option string;
}.

(** Modules of the repository that the proxy imports. *)
Class Collaborators := {
  (* malwareDatabase.js: (await openMalwareDatabase()).isMalware *)
  isMalware : string -> string -> bool;
  MALWARE_STATUS_MALWARE : string;
  (* interceptors/npm/parseNpmPackageUrl.js *)
  parseNpmPackageUrl : string -> string -> option string * option string;
}.

(** ** scanning/audit/index.js *)
Module Audit.
Section Audit.
Context `{Collaborators}.

Record PackageChange := {
  pc_name : string;
  pc_version : string;
  pc_type : string;
}.

Record MalwarePackage := {
  mp_name : string;
  mp_version : string;
  mp_status : string;
}.

Record AuditResult := {
  allowedChanges : list PackageChange;
  disallowedChanges : list (PackageChange * string);   (* change, reason *)
  isAllowed : bool;
}.

Definition getAuditStats : M AuditStats := gets auditStats.

(** The database is taken as opened: [isMalware] stands for
    [(await openMalwareDatabase()).isMalware], and a rejection of
    [openMalwareDatabase()] is not part of the model.  What is stated
    of [auditChanges] and of its callers is stated of the runs in which
    the database answers. *)
Definition getPackagesWithMalware (changes : list PackageChange)
  : list MalwarePackage :=
  match changes with
  | [] => []
  | _ =>
      List.map
        (fun c => {| mp_name := pc_name c; mp_version := pc_version c;
                     mp_status := MALWARE_STATUS_MALWARE |})
        (List.filter (fun c => isMalware (pc_name c) (pc_version c)) changes)
  end.

Definition isAddOrChange (c : PackageChange) : bool :=
  String.eqb (pc_type c) "add" || String.eqb (pc_type c) "change".

(** One turn of the loop over [changes]. *)
Definition auditOne (found_malware : list MalwarePackage)
           (acc : list PackageChange * list (PackageChange * string))
           (change : PackageChange)
  : M (list PackageChange * list (PackageChange * string)) :=
  let (allowed, disallowed) := acc in
  let found :=
    List.find (fun pkg => String.eqb (mp_name pkg) (pc_name change)
                          && String.eqb (mp_version pkg) (pc_version change))
              found_malware in
  let* acc' :=
    match found with
    | Some pkg =>
        modify (fun w =>
          let s := auditStats w in
          set_auditStats {| totalPackages := totalPackages s;
                            safePackages := safePackages s;
                            malwarePackages := (malwarePackages s + 1)%Z |} w) ;;
        ret (allowed, disallowed ++ [(change, mp_status pkg)])
    | None =>
        modify (fun w =>
          let s := auditStats w in
          set_auditStats {| totalPackages := totalPackages s;
                            safePackages := (safePackages s + 1)%Z;
                            malwarePackages := malwarePackages s |} w) ;;
        ret (allowed ++ [change], disallowed)
    end in
  modify (fun w =>
    let s := auditStats w in
    set_auditStats {| totalPackages := (totalPackages s + 1)%Z;
                      safePackages := safePackages s;
                      malwarePackages := malwarePackages s |} w) ;;
  ret acc'.

Fixpoint auditLoop (found_malware : list MalwarePackage)
         (changes : list PackageChange)
         (acc : list PackageChange * list (PackageChange * string))
  : M (list PackageChange * list (PackageChange * string)) :=
  match changes with
  | [] => ret acc
  | c :: cs =>
      let* acc' := auditOne found_malware acc c in
      auditLoop found_malware cs acc'
  end.

Definition auditChanges (changes : list PackageChange) : M AuditResult :=
  let found_malware :=
    getPackagesWithMalware (List.filter isAddOrChange changes) in
  let* acc := auditLoop found_malware changes ([], []) in
  ret {| allowedChanges := fst acc;
         disallowedChanges := snd acc;
         isAllowed := (Z.of_nat (List.length (snd acc)) =? 0)%Z |}.

Definition isMalwarePackage (name version : option string) : M bool :=
  match name, version with
  | Some n, Some v =>
      if negb (JS.truthy n) || negb (JS.truthy v) then ret false
      else
        let* auditResult :=
          auditChanges [ {| pc_name := n; pc_version := v; pc_type := "add" |} ] in
        ret (negb (isAllowed auditResult))
  | _, _ => ret false
  end.

End Audit.
End Audit.

(** ** registryProxy/http-utils.js *)
Module HttpUtils.

Definition getHeaderValueAsString (headers : option Headers) (headerName : string)
  : option string :=
  match headers with
  | None => None
  | Some h =>
      match h !! headerName with
      | Some (HArray l) => Some (JS.join l ", ")
      | Some (HString s) => Some s
      | None => None
      end
  end.

End HttpUtils.

(** ** registryProxy/interceptors/interceptorBuilder.js *)
Module InterceptorBuilder.
Section Builder.
Context `{Runtime}.

Record BlockResponse := {
  statusCode : Z;
  message : string;
}.

(** A header modifier works on the object it is given. *)
Definition HeaderFn := Headers -> Headers.

(** A body modifier returns the new body; the headers object it was
    given may have been changed in place, so it is returned as well. *)
Definition BodyFn := Buffer -> option Headers -> M (Buffer * option Headers).

(** Node's [EventEmitter]: listeners in registration order. *)
Record EventEmitter := {
  listeners : list (string * (JS.obj -> M unit));
}.

Definition newEventEmitter : EventEmitter := {| listeners := [] |}.

Definition emitter_on (e : EventEmitter) (event : string)
           (listener : JS.obj -> M unit) : EventEmitter :=
  {| listeners := listeners e ++ [(event, listener)] |}.

Fixpoint callListeners (ls : list (string * (JS.obj -> M unit)))
         (event : string) (payload : JS.obj) : M unit :=
  match ls with
  | [] => ret tt
  | (ev, f) :: ls' =>
      if String.eqb ev event
      then f payload ;; callListeners ls' event payload
      else callListeners ls' event payload
  end.

(** [eventEmitter.emit(event, payload)]; the emission is also recorded
    in [emitted]. *)
Definition emitter_emit (e : EventEmitter) (event : string) (payload : JS.obj)
  : M unit :=
  modify (fun w => set_emitted (emitted w ++ [(event, payload)]) w) ;;
  callListeners (listeners e) event payload.

(** The variables that [createRequestContext] closes over. *)
Record RequestInterceptionContext := {
  targetUrl : string;
  eventEmitter : EventEmitter;
  ctx_blockResponse : option BlockResponse;
  reqheaderModificationFuncs : list HeaderFn;
  modifyBodyFuncs : list BodyFn;
}.

Record RequestInterceptionHandler := {
  blockResponse : option BlockResponse;
  modifyRequestHeaders : option Headers -> option Headers;
  modifiesResponse : unit -> bool;
  modifyBody : Buffer -> option Headers -> M (Buffer * option Headers);
}.

Definition createRequestContext (targetUrl : string) (eventEmitter : EventEmitter)
  : RequestInterceptionContext :=
  {| targetUrl := targetUrl;
     eventEmitter := eventEmitter;
     ctx_blockResponse := None;
     reqheaderModificationFuncs := [];
     modifyBodyFuncs := [] |}.

Definition blockMalwareSetup (ctx : RequestInterceptionContext)
           (packageName version : option string)
  : M RequestInterceptionContext :=
  let ctx' :=
    {| targetUrl := targetUrl ctx;
       eventEmitter := eventEmitter ctx;
       ctx_blockResponse :=
         Some {| statusCode := 403;
                 message := "Forbidden - blocked by safe-chain" |};
       reqheaderModificationFuncs := reqheaderModificationFuncs ctx;
       modifyBodyFuncs := modifyBodyFuncs ctx |} in
  let* now := gets clock in
  emitter_emit (eventEmitter ctx) "malwareBlocked"
    [ ("packageName", JS.of_option packageName);
      ("version", JS.of_option version);
      ("targetUrl", JS.VString (targetUrl ctx));
      ("timestamp", JS.VNumber now) ] ;;
  ret ctx'.

(** [reqContext.modifyRequestHeaders(func)] *)
Definition ctx_modifyRequestHeaders (ctx : RequestInterceptionContext)
           (func : HeaderFn) : RequestInterceptionContext :=
  {| targetUrl := targetUrl ctx;
     eventEmitter := eventEmitter ctx;
     ctx_blockResponse := ctx_blockResponse ctx;
     reqheaderModificationFuncs := reqheaderModificationFuncs ctx ++ [func];
     modifyBodyFuncs := modifyBodyFuncs ctx |}.

(** [reqContext.modifyBody(func)] *)
Definition ctx_modifyBody (ctx : RequestInterceptionContext)
           (func : BodyFn) : RequestInterceptionContext :=
  {| targetUrl := targetUrl ctx;
     eventEmitter := eventEmitter ctx;
     ctx_blockResponse := ctx_blockResponse ctx;
     reqheaderModificationFuncs := reqheaderModificationFuncs ctx;
     modifyBodyFuncs := modifyBodyFuncs ctx ++ [func] |}.

(** The loop of the handler's [modifyBody]: every [func] is called with
    [body], and [modifiedBody] keeps the result of the last call. *)
Fixpoint modifyBodyLoop (funcs : list BodyFn) (body modifiedBody : Buffer)
         (headers : option Headers) : M (Buffer * option Headers) :=
  match funcs with
  | [] => ret (modifiedBody, headers)
  | func :: funcs' =>
      let* r := func body headers in
      modifyBodyLoop funcs' body (fst r) (snd r)
  end.

Definition build (ctx : RequestInterceptionContext) : RequestInterceptionHandler :=
  {| blockResponse := ctx_blockResponse ctx;
     modifyRequestHeaders := fun headers =>
       match headers with
       | Some h =>
           Some (List.fold_left (fun h func => func h)
                                (reqheaderModificationFuncs ctx) h)
       | None => None
       end;
     modifiesResponse := fun _ =>
       (0 <? Z.of_nat (List.length (modifyBodyFuncs ctx)))%Z;
     modifyBody := fun body headers =>
       modifyBodyLoop (modifyBodyFuncs ctx) body body headers |}.

Definition Setup := RequestInterceptionContext -> M RequestInterceptionContext.

Record Interceptor := {
  requestHandlers : list Setup;
  interceptorEmitter : EventEmitter;
}.

Fixpoint runHandlers (handlers : list Setup) (ctx : RequestInterceptionContext)
  : M RequestInterceptionContext :=
  match handlers with
  | [] => ret ctx
  | handler :: handlers' =>
      let* ctx' := handler ctx in
      runHandlers handlers' ctx'
  end.

Definition handleRequest (i : Interceptor) (targetUrl : string)
  : M RequestInterceptionHandler :=
  let requestContext := createRequestContext targetUrl (interceptorEmitter i) in
  let* ctx := runHandlers (requestHandlers i) requestContext in
  ret (build ctx).

(** [interceptor.on(event, listener)] *)
Definition on (i : Interceptor) (event : string) (listener : JS.obj -> M unit)
  : Interceptor :=
  {| requestHandlers := requestHandlers i;
     interceptorEmitter := emitter_on (interceptorEmitter i) event listener |}.

Definition buildInterceptor (requestHandlers : list Setup) : Interceptor :=
  {| requestHandlers := requestHandlers;
     interceptorEmitter := newEventEmitter |}.

Definition interceptRequests (requestInterceptionFunc : Setup) : Interceptor :=
  buildInterceptor [requestInterceptionFunc].

End Builder.
End InterceptorBuilder.

(** ** Objects as association lists *)
Module Obj.
Section Obj.
Context {V : Type}.

(** [o[k]] *)
Fixpoint lookup (o : list (string * V)) (k : string) : option V :=
  match o with
  | [] => None
  | (k', v) :: o' => if String.eqb k' k then Some v else lookup o' k
  end.

(** [delete o[k]] *)
Definition remove (o : list (string * V)) (k : string) : list (string * V) :=
  List.filter (fun kv => negb (String.eqb (fst kv) k)) o.

(** [o[k] = v]: an existing property keeps its place, a new one is last. *)
Fixpoint set (o : list (string * V)) (k : string) (v : V) : list (string * V) :=
  match o with
  | [] => [(k, v)]
  | (k', v') :: o' =>
      if String.eqb k' k then (k', v) :: o' else (k', v') :: set o' k v
  end.

End Obj.
End Obj.

(** ** registryProxy/interceptors/npm/modifyNpmInfo.js *)
Module ModifyNpmInfo.
Section ModifyNpmInfo.
Context `{Runtime}.

Definition allowedBasePackages : list string :=
  [ "@brightspace-hmc";
    "@brightspace-ui";
    "@brightspace-ui-labs";
    "d2l-hypermedia-constants";
    "d2l-license-checker";
    "d2l-npm-login";
    "d2l-test-reporting";
    "eslint-config-brightspace";
    "frau-publisher";
    "messageformat-validator" ].

Definition basePackageName (packageName : string) : string :=
  if JS.startsWith packageName "@"
  then List.hd packageName (JS.split packageName "/")
  else packageName.

Definition isPackageExemptFromAgeCheck (packageName : option string) : bool :=
  match packageName with
  | None => false
  | Some n =>
      if List.existsb (String.eqb (basePackageName n)) allowedBasePackages
      then true
      else false
  end.

Definition modifyNpmInfoRequestHeaders (headers : Headers) : Headers :=
  match HttpUtils.getHeaderValueAsString (Some headers) "accept" with
  | Some accept =>
      if JS.includes accept "application/vnd.npm.install-v1+json"
      then <["accept" := HString "application/json"]> headers
      else headers
  | None => headers
  end.

Definition isPackageInfoUrl (url : string) : bool :=
  let urlWithoutParams :=
    List.hd url (JS.split (List.hd url (JS.split url "?")) "#") in
  if JS.endsWith urlWithoutParams ".tgz" then false
  else if JS.includes urlWithoutParams "/-/" then false
  else true.

(** The entries of [time] that name a version. *)
Definition isVersionEntry (version : string) : bool :=
  negb (String.eqb version "created") && negb (String.eqb version "modified").

(** [new Date(timestamp) > cutOff]; an invalid date compares false. *)
Definition isNewerThan (cutOff : Z) (timestamp : string) : bool :=
  match Date_parse timestamp with
  | Some t => (cutOff <? t)%Z
  | None => false
  end.

(** On the objects of a [Packument] a [delete] removes the property,
    or does nothing when there is none, and does not throw. *)
Definition deleteVersionFromJson (json : Packument) (version : string)
  : M Packument :=
  modify (set_hasSuppressedVersions true) ;;
  ret {| name := name json;
         time := Obj.remove (time json) version;
         versions := Obj.remove (versions json) version;
         dist_tags :=
           List.filter (fun entry => negb (String.eqb version (snd entry)))
                       (dist_tags json);
         others := others json |}.

Definition deleteCachingHeaders (headers : option Headers) : option Headers :=
  match headers with
  | Some h => Some (delete "cache-control" (delete "last-modified" (delete "etag" h)))
  | None => None
  end.

(** The loop over the (version, timestamp) pairs read from [time] before
    the first deletion. *)
Fixpoint removeTooYoung (isExempt : bool) (cutOff : Z)
         (versionList : list (string * string))
         (bodyJson : Packument) (headers : option Headers)
  : M (Packument * option Headers) :=
  match versionList with
  | [] => ret (bodyJson, headers)
  | (version, timestamp) :: rest =>
      if negb isExempt && isNewerThan cutOff timestamp
      then
        let* bodyJson' := deleteVersionFromJson bodyJson version in
        removeTooYoung isExempt cutOff rest bodyJson' (deleteCachingHeaders headers)
      else removeTooYoung isExempt cutOff rest bodyJson headers
  end.

(** One turn of the loop of [getMostRecentTag], on (current, currentDate). *)
Definition mostRecentStep (acc : option string * option string)
           (entry : string * string) : option string * option string :=
  let (current, currentDate) := acc in
  let (version, timestamp) := entry in
  if negb (JS.truthy_opt currentDate)
     || match currentDate with
        | Some d => String.ltb d timestamp
        | None => false
        end
  then (Some version, Some timestamp)
  else (current, currentDate).

Definition getMostRecentTag (tagList : list (string * string)) : option string :=
  fst (List.fold_left mostRecentStep tagList (None, None)).

Definition isPrerelease (version : string) : bool := JS.includes version "-".

Definition calculateLatestTag (tagList : list (string * string)) : option string :=
  let entries := List.filter (fun e => isVersionEntry (fst e)) tagList in
  let latestFullRelease :=
    getMostRecentTag (List.filter (fun e => negb (isPrerelease (fst e))) entries) in
  if JS.truthy_opt latestFullRelease then latestFullRelease
  else getMostRecentTag (List.filter (fun e => isPrerelease (fst e)) entries).

(** [bodyJson["dist-tags"]["latest"] = calculateLatestTag(bodyJson.time)].
    When the computed tag is [undefined] the property holds [undefined],
    and [JSON.stringify] leaves such a property out. *)
Definition assignLatest (bodyJson : Packument) : Packument :=
  match calculateLatestTag (time bodyJson) with
  | Some v =>
      {| name := name bodyJson;
         time := time bodyJson;
         versions := versions bodyJson;
         dist_tags := Obj.set (dist_tags bodyJson) "latest" v;
         others := others bodyJson |}
  | None => bodyJson
  end.

Definition cutOffAt (now : Z) : Z :=
  (now - Settings.getMinimumPackageAgeHours * 3600 * 1000)%Z.

Definition hasJsonContentType (headers : option Headers) : bool :=
  match HttpUtils.getHeaderValueAsString headers "content-type" with
  | Some contentType => JS.includes (JS.toLowerCase contentType) "application/json"
  | None => false
  end.

(** The rewriting of a parsed packument: everything between [JSON.parse]
    and [JSON.stringify]. *)
Definition rewritePackument (bodyJson : Packument) (headers : option Headers)
  : M (Packument * option Headers) :=
  let* now := gets clock in
  let cutOff := cutOffAt now in
  let hasLatestTag := JS.truthy_opt (Obj.lookup (dist_tags bodyJson) "latest") in
  let versionList := List.filter (fun e => isVersionEntry (fst e)) (time bodyJson) in
  let isExempt := isPackageExemptFromAgeCheck (name bodyJson) in
  let* r := removeTooYoung isExempt cutOff versionList bodyJson headers in
  let bodyJson' := fst r in
  if hasLatestTag && negb (JS.truthy_opt (Obj.lookup (dist_tags bodyJson') "latest"))
  then ret (assignLatest bodyJson', snd r)
  else ret (bodyJson', snd r).

Definition modifyNpmInfoResponse (body : Buffer) (headers : option Headers)
  : M (Buffer * option Headers) :=
  if negb (hasJsonContentType headers) then ret (body, headers)
  else if (byteLength body =? 0)%Z then ret (body, headers)
  else
    match JSON_parse body with
    | None => ret (body, headers)                 (* SyntaxError, caught *)
    | Some OtherJson => ret (body, headers)
    | Some (IsPackument bodyJson) =>
        let* r := rewritePackument bodyJson headers in
        ret (JSON_stringify (fst r), snd r)
    end.

Definition getHasSuppressedVersions : M bool := gets hasSuppressedVersions.

End ModifyNpmInfo.
End ModifyNpmInfo.

(** ** registryProxy/interceptors/npm/npmInterceptor.js *)
Module NpmInterceptor.
Section NpmInterceptor.
Context `{Runtime} `{Collaborators}.
Import InterceptorBuilder.

Definition knownJsRegistries : list string :=
  [ "registry.npmjs.org"; "registry.yarnpkg.com" ].

(** The function given to [interceptRequests]. *)
Definition npmSetup (registry : string) : Setup := fun reqContext =>
  let (packageName, version) :=
    parseNpmPackageUrl (targetUrl reqContext) registry in
  let* malware := Audit.isMalwarePackage packageName version in
  let* reqContext1 :=
    (if malware then blockMalwareSetup reqContext packageName version
     else ret reqContext) in
  let* skip := gets (fun w => Settings.skipMinimumPackageAge (cli w)) in
  if negb skip && ModifyNpmInfo.isPackageInfoUrl (targetUrl reqContext1)
  then ret (ctx_modifyBody
              (ctx_modifyRequestHeaders reqContext1
                 ModifyNpmInfo.modifyNpmInfoRequestHeaders)
              ModifyNpmInfo.modifyNpmInfoResponse)
  else ret reqContext1.

Definition buildNpmInterceptor (registry : string) : Interceptor :=
  interceptRequests (npmSetup registry).

Definition npmInterceptorForUrl (url : string) : option Interceptor :=
  match List.find (fun reg => JS.includes url reg) knownJsRegistries with
  | Some registry => Some (buildNpmInterceptor registry)
  | None => None
  end.

End NpmInterceptor.
End NpmInterceptor.

(** ** registryProxy/interceptors/pipInterceptor.js *)
Module PipInterceptor.
Section PipInterceptor.
Context `{Runtime} `{Collaborators}.
Import InterceptorBuilder.

Definition knownPipRegistries : list string :=
  [ "files.pythonhosted.org"; "pypi.org"; "pypi.python.org"; "pythonhosted.org" ].

(** [urlObj.pathname.split("/").filter(Boolean).pop()] *)
Definition lastSegmentOf (pathname : string) : option string :=
  List.last (List.map Some (List.filter JS.truthy (JS.split pathname "/"))) None.

Definition sdistExtensions : list string :=
  [ ".tar.gz"; ".zip"; ".tar.bz2"; ".tar.xz" ].

(** [filename.match(/\.(tar\.gz|zip|tar\.bz2|tar\.xz)$/i)]: the matched
    text, whose letters may be in either case. *)
Definition sdistExtMatch (filename : string) : option string :=
  match List.find (fun ext => JS.endsWith (JS.toLowerCase filename) ext)
                  sdistExtensions with
  | Some ext => Some (JS.slice_from filename (JS.len filename - JS.len ext))
  | None => None
  end.

Definition undefinedPackage : option string * option string := (None, None).

(** The source-distribution branch. *)
Definition parseSdist (filename : string) : option string * option string :=
  match sdistExtMatch filename with
  | Some matched =>
      let base := JS.slice filename 0 (- JS.len matched) in
      let lastDash := JS.lastIndexOf base "-" in
      if ((0 <? lastDash) && (lastDash <? JS.len base - 1))%Z
      then
        let packageName := JS.slice base 0 lastDash in
        let version := JS.slice_from base (lastDash + 1) in
        if String.eqb version "latest"
           || negb (JS.truthy packageName) || negb (JS.truthy version)
        then undefinedPackage
        else (Some packageName, Some version)
      else undefinedPackage
  | None => undefinedPackage
  end.

(** The part of [parsePipPackageFromUrl] that works on the decoded
    file name: the wheel branch, then the source-distribution branch. *)
Definition parsePipFilename (filename : string) : option string * option string :=
  let wheel : option (option string * option string) :=
    if JS.endsWith filename ".whl"
    then
      let base := JS.slice filename 0 (-4) in
      let firstDash := JS.indexOf base "-" in
      if (0 <? firstDash)%Z
      then
        let dist := JS.slice base 0 firstDash in
        let rest := JS.slice_from base (firstDash + 1) in
        let secondDash := JS.indexOf rest "-" in
        let rawVersion :=
          if (0 <=? secondDash)%Z then JS.slice rest 0 secondDash else rest in
        if String.eqb rawVersion "latest"
           || negb (JS.truthy dist) || negb (JS.truthy rawVersion)
        then Some undefinedPackage
        else Some (Some dist, Some rawVersion)
      else None
    else None in
  match wheel with
  | Some r => r
  | None => parseSdist filename
  end.

(** [decodeURIComponent] is called outside any [try], so its exception
    leaves the function. *)
Definition parsePipPackageFromUrl (url registry : string)
  : M (option string * option string) :=
  if negb (JS.truthy registry) then ret undefinedPackage
  else
    match URL_pathname url with
    | None => ret undefinedPackage                (* invalid URL, caught *)
    | Some pathname =>
        match lastSegmentOf pathname with
        | None => ret undefinedPackage
        | Some lastSegment =>
            match decodeURIComponent lastSegment with
            | None => throw "URI malformed"
            | Some filename => ret (parsePipFilename filename)
            end
        end
    end.

Definition pipSetup (registry : string) : Setup := fun reqContext =>
  let* parsed := parsePipPackageFromUrl (targetUrl reqContext) registry in
  let (packageName, version) := parsed : option string * option string in
  let* malware := Audit.isMalwarePackage packageName version in
  if malware then blockMalwareSetup reqContext packageName version
  else ret reqContext.

Definition buildPipInterceptor (registry : string) : Interceptor :=
  interceptRequests (pipSetup registry).

Definition pipInterceptorForUrl (url : string) : option Interceptor :=
  match List.find (fun reg => JS.includes url reg) knownPipRegistries with
  | Some registry => Some (buildPipInterceptor registry)
  | None => None
  end.

End PipInterceptor.
End PipInterceptor.

(** ** registryProxy/interceptors/createInterceptorForEcoSystem.js *)
Module EcoSystem.
Section EcoSystem.
Context `{Runtime} `{Collaborators}.

Definition createInterceptorForUrl (url : string)
  : M (option InterceptorBuilder.Interceptor) :=
  let* ecosystem := gets ecoSystem in
  if String.eqb ecosystem Settings.ECOSYSTEM_JS
  then ret (NpmInterceptor.npmInterceptorForUrl url)
  else if String.eqb ecosystem Settings.ECOSYSTEM_PY
  then ret (PipInterceptor.pipInterceptorForUrl url)
  else ret None.

End EcoSystem.
End EcoSystem.

(** ** registryProxy/registryProxy.js *)
Module RegistryProxy.
Section RegistryProxy.
Context `{Runtime} `{Collaborators}.

Definition onMalwareBlocked (packageName version url : JS.value) : M unit :=
  modify (fun w =>
    set_blockedRequests
      (blockedRequests w ++
         [ {| br_packageName := packageName; br_version := version; br_url := url |} ])
      w).

(** The listener that [handleConnect] subscribes to [malwareBlocked]. *)
Definition malwareBlockedListener (event : JS.obj) : M unit :=
  onMalwareBlocked (JS.get event "packageName") (JS.get event "version")
                   (JS.get event "url").

(** What [handleConnect] hands the connection to. *)
Inductive Connection :=
| MitmConnect (interceptor : InterceptorBuilder.Interceptor)
| TunnelRequest.

Definition handleConnect (reqUrl : option string) : M Connection :=
  let* interceptor :=
    EcoSystem.createInterceptorForUrl (default EmptyString reqUrl) in
  match interceptor with
  | Some i =>
      ret (MitmConnect
             (InterceptorBuilder.on i "malwareBlocked" malwareBlockedListener))
  | None => ret TunnelRequest
  end.

(** The printed list does not change the result. *)
Definition verifyNoMaliciousPackages : M bool :=
  let* blocked := gets blockedRequests in
  if (Z.of_nat (List.length blocked) =? 0)%Z then ret true else ret false.

(** [listening] is the port the operating system assigned, if any. *)
Definition startServer (listening : option Z) : M unit :=
  match listening with
  | Some p => modify (set_port (Some p))
  | None => throw "Failed to start proxy server"
  end.

Definition stopServer : M unit := ret tt.

End RegistryProxy.
End RegistryProxy.

(** ** registryProxy/mitmRequestHandler.js *)
Module MitmRequestHandler.
Section MitmRequestHandler.
Context `{Runtime}.
Import InterceptorBuilder.

Definition getRequestPathAndQuery (url : string) : M string :=
  if JS.startsWith url "http://" || JS.startsWith url "https://"
  then
    match URL_pathname url with
    | Some pathname => ret (pathname ++ URL_search url ++ URL_hash url)%string
    | None => throw "Invalid URL"
    end
  else ret url.

(** What [handleRequest] does with a request of the TLS connection. *)
Inductive RequestOutcome :=
| Answered (statusCode : Z) (statusMessage body : string)
| Forwarded (targetUrl : string) (requestHandler : RequestInterceptionHandler).

Definition handleRequest (hostname : string) (interceptor : Interceptor)
           (reqUrl : option string) : M RequestOutcome :=
  match reqUrl with
  | None => ret (Answered 400 "Bad Request" "Bad Request: Missing URL")
  | Some url =>
      if negb (JS.truthy url)
      then ret (Answered 400 "Bad Request" "Bad Request: Missing URL")
      else
        let* pathAndQuery := getRequestPathAndQuery url in
        let targetUrl := ("https://" ++ hostname ++ pathAndQuery)%string in
        let* requestInterceptor := InterceptorBuilder.handleRequest interceptor targetUrl in
        match blockResponse requestInterceptor with
        | Some b => ret (Answered (statusCode b) (message b) (message b))
        | None => ret (Forwarded targetUrl requestInterceptor)
        end
  end.

Record UpstreamResponse := {
  up_statusCode : option Z;
  up_headers : Headers;
  up_body : Buffer;
}.

(** What reaches the client: [res.writeHead(statusCode, headers)] and the
    body.  The 500 answer carries a text and no headers. *)
Inductive ClientResponse :=
| Relayed (statusCode : Z) (headers : Headers) (body : Buffer)
| InternalServerError.

Definition isGzip (headers : Headers) : bool :=
  match headers !! "content-encoding" with
  | Some (HString "gzip") => true
  | _ => false
  end.

(** The response callback of [createProxyRequest].  [headers] and
    [proxyRes.headers] are one object: what [modifyBody] does to it is
    what [res.writeHead] sends. *)
Definition relayResponse (requestHandler : RequestInterceptionHandler)
           (proxyRes : UpstreamResponse) : M ClientResponse :=
  match up_statusCode proxyRes with
  | None => ret InternalServerError
  | Some statusCode =>
      let headers := up_headers proxyRes in
      if modifiesResponse requestHandler tt
      then
        let* buffer :=
          (if isGzip headers
           then match gunzipSync (up_body proxyRes) with
                | Some b => ret b
                | None => throw "incorrect header check"
                end
           else ret (up_body proxyRes)) in
        let* r := modifyBody requestHandler buffer (Some headers) in
        let headers' := default headers (snd r) in
        let buffer' := if isGzip headers' then gzipSync (fst r) else fst r in
        ret (Relayed statusCode headers' buffer')
      else ret (Relayed statusCode headers (up_body proxyRes))
  end.

End MitmRequestHandler.
End MitmRequestHandler.

(** ** scanning/index.js and main.js *)
Module Main.
Section Main.
Context `{Runtime} `{Collaborators}.

(** packagemanager/currentPackageManager.js: the selected manager. *)
Record PackageManager := {
  isSupportedCommand : list string -> bool;
  (* the resolver reads no state of the wrapper: it returns the changes
     or throws *)
  getDependencyUpdatesForCommand : list string -> result (list Audit.PackageChange);
  (* resolves to { status }; everything the proxy did while the child
     was running is part of the world it leaves *)
  runCommand : list string -> M Z;
}.

(** Which side of [Promise.race] settles first in [scanCommand]: the
    scan, or the timer of [getScanTimeout()] milliseconds.  When the
    timer wins, what the unfinished scan does later is not observed. *)
Inductive RaceWinner :=
| ScanFirst
| TimerFirst.

Variable packageManager : PackageManager.
Variable race : RaceWinner.
Variable listening : option Z.

Definition shouldScanCommand (args : list string) : bool :=
  if (Z.of_nat (List.length args) =? 0)%Z then false
  else isSupportedCommand packageManager args.

Definition scanCommand (args : list string) : M Z :=
  if negb (shouldScanCommand args) then ret 0%Z
  else
    match race with
    | TimerFirst => throw "Timeout exceeded while scanning npm install command."
    | ScanFirst =>
        match getDependencyUpdatesForCommand packageManager args with
        | Throw e => throw e
        | Ok changes =>
            let* audit := Audit.auditChanges changes in
            if Audit.isAllowed audit then ret 0%Z else ret 1%Z
        end
    end.

(** [getPackageManager().runCommand(args)], recorded in [spawned]. *)
Definition runChild (args : list string) : M Z :=
  modify (fun w => set_spawned (spawned w ++ [args]) w) ;;
  runCommand packageManager args.

Definition initializeCliArguments (args : list string) : M (list string) :=
  let* st := gets cli in
  let r := CliArguments.initializeCliArguments args st in
  modify (set_cli (snd r)) ;;
  ret (fst r).

(** The body of the [try] block of [main]. *)
Definition mainBody (args : list string) : M Z :=
  let* args := initializeCliArguments args in
  let* commandScanResult :=
    (if shouldScanCommand args then scanCommand args else ret 0%Z) in
  if negb (commandScanResult =? 0)%Z then ret commandScanResult
  else
    let* status := runChild args in
    let* clean := RegistryProxy.verifyNoMaliciousPackages in
    if negb clean then ret 1%Z
    else ret status.

Definition main (args : list string) : M Z :=
  RegistryProxy.startServer listening ;;
  try_finally
    (try_catch (mainBody args) (fun _ => ret 1%Z))
    RegistryProxy.stopServer.

End Main.
End Main.

(** ** A concrete runtime, for running the model on examples *)
Module Fixture.

(** Bytes, as far as JSON tells them apart: the serialisation of a
    packument, or any other text. *)
Inductive Bytes :=
| Serialized (p : Packument)
| Text (s : string).

Definition digit (c : ascii) : option Z :=
  let n := Z.of_nat (nat_of_ascii c) in
  if ((48 <=? n) && (n <=? 57))%Z then Some (n - 48)%Z else None.

Fixpoint number_from (acc : Z) (s : string) : option Z :=
  match s with
  | EmptyString => Some acc
  | String c s' =>
      match digit c with
      | Some d => number_from (acc * 10 + d) s'
      | None => None
      end
  end.

Definition number (s : string) : option Z :=
  match s with
  | EmptyString => None
  | _ => number_from 0 s
  end.

(** Days between 1970-01-01 and the given civil date. *)
Definition daysFromCivil (y m d : Z) : Z :=
  let y' := (if m <=? 2 then y - 1 else y)%Z in
  let era := (y' / 400)%Z in
  let yoe := (y' - era * 400)%Z in
  let mp := (if 2 <? m then m - 3 else m + 9)%Z in
  let doy := ((153 * mp + 2) / 5 + d - 1)%Z in
  let doe := (yoe * 365 + yoe / 4 - yoe / 100 + doy)%Z in
  (era * 146097 + doe - 719468)%Z.

(** Timestamps in the registry's format, [YYYY-MM-DDTHH:mm:ss.sssZ]. *)
Definition parseIsoDate (s : string) : option Z :=
  if negb (String.length s =? 24)%nat then None
  else if negb (String.eqb (String.substring 4 1 s) "-"
                && String.eqb (String.substring 7 1 s) "-"
                && String.eqb (String.substring 10 1 s) "T"
                && String.eqb (String.substring 13 1 s) ":"
                && String.eqb (String.substring 16 1 s) ":"
                && String.eqb (String.substring 19 1 s) "."
                && String.eqb (String.substring 23 1 s) "Z") then None
  else
    match number (String.substring 0 4 s), number (String.substring 5 2 s),
          number (String.substring 8 2 s), number (String.substring 11 2 s),
          number (String.substring 14 2 s), number (String.substring 17 2 s),
          number (String.substring 20 3 s) with
    | Some y, Some mo, Some d, Some h, Some mi, Some sec, Some ms =>
        if ((1 <=? mo) && (mo <=? 12) && (1 <=? d) && (d <=? 31)
            && (h <=? 23) && (mi <=? 59) && (sec <=? 59))%Z
        then Some ((((daysFromCivil y mo d * 24 + h) * 60 + mi) * 60 + sec) * 1000 + ms)%Z
        else None
    | _, _, _, _, _, _, _ => None
    end.

(** The text before, and from, the first character satisfying [stop]. *)
Fixpoint span (stop : ascii -> bool) (s : string) : string * string :=
  match s with
  | EmptyString => (EmptyString, EmptyString)
  | String c s' =>
      if stop c then (EmptyString, s)
      else let (a, b) := span stop s' in (String c a, b)
  end.

Definition is_char (c : ascii) : ascii -> bool := fun a => Ascii.eqb a c.

(** An absolute URL [scheme://host/path?search#hash], split in
    (pathname, search, hash). *)
Definition splitUrl (url : string) : option (string * string * string) :=
  let (scheme, afterScheme) := span (is_char ":") url in
  if negb (JS.truthy scheme) || negb (JS.startsWith afterScheme "://") then None
  else
    let (host, fromPath) :=
      span (fun c => is_char "/" c || is_char "?" c || is_char "#" c)
           (JS.slice_from afterScheme 3) in
    if negb (JS.truthy host) then None
    else
      let (path, fromQuery) :=
        span (fun c => is_char "?" c || is_char "#" c) fromPath in
      let (query, hash) := span (is_char "#") fromQuery in
      Some (if JS.truthy path then path else "/",
            if String.eqb query "?" then EmptyString else query,
            if String.eqb hash "#" then EmptyString else hash).

Definition hexDigit (c : ascii) : option Z :=
  let n := Z.of_nat (nat_of_ascii c) in
  if ((48 <=? n) && (n <=? 57))%Z then Some (n - 48)%Z
  else if ((65 <=? n) && (n <=? 70))%Z then Some (n - 55)%Z
  else if ((97 <=? n) && (n <=? 102))%Z then Some (n - 87)%Z
  else None.

(** Percent-decoding of the escapes below 0x80; other escapes are
    rejected here. *)
Fixpoint percentDecode (s : string) : option string :=
  match s with
  | EmptyString => Some EmptyString
  | String "%" (String a (String b s')) =>
      match hexDigit a, hexDigit b, percentDecode s' with
      | Some h, Some l, Some r =>
          if (h <? 8)%Z
          then Some (String (ascii_of_nat (Z.to_nat (h * 16 + l))) r)
          else None
      | _, _, _ => None
      end
  | String "%" _ => None
  | String c s' =>
      match percentDecode s' with
      | Some r => Some (String c r)
      | None => None
      end
  end.

#[export] Instance runtime : Runtime := {|
  Buffer := Bytes;
  byteLength := fun b =>
    match b with
    | Serialized _ => 2%Z
    | Text s => JS.len s
    end;
  JSON_parse := fun b =>
    match b with
    | Serialized p => Some (IsPackument p)
    | Text s => if String.eqb s "{}" then Some OtherJson else None
    end;
  JSON_stringify := Serialized;
  Date_parse := parseIsoDate;
  gunzipSync := Some;
  gzipSync := fun b => b;
  URL_pathname := fun url =>
    match splitUrl url with
    | Some (p, _, _) => Some p
    | None => None
    end;
  URL_search := fun url =>
    match splitUrl url with
    | Some (_, q, _) => q
    | None => EmptyString
    end;
  URL_hash := fun url =>
    match splitUrl url with
    | Some (_, _, h) => h
    | None => EmptyString
    end;
  decodeURIComponent := percentDecode;
|}.

(** Modelled from the spec: interceptors/npm/parseNpmPackageUrl.js is not
    part of the sources at hand.  Section 4.2.1 and property 8.1: a URL
    that does not end in [.tgz] parses to (undefined, undefined);
    otherwise the tarball file name is the last segment of the path
    [<name>/-/<file>.tgz].  The version is what follows the base name of
    the package and ["-"] in the file name, so that a prerelease or
    build suffix ([5.0.0-beta.1], [1.0.0-rc.1+build.123]) stays in the
    version; where the path does not name the package, the file name is
    split at its last ["-"].  When the segment before the base name
    starts with ["@"], the name is [@scope/<name>]. *)
Definition parseNpmTarballUrl (url registry : string)
  : option string * option string :=
  let path := List.hd url (JS.split (List.hd url (JS.split url "?")) "#") in
  if negb (JS.endsWith path ".tgz") then (None, None)
  else
    let segments := List.filter JS.truthy (JS.split path "/") in
    let filename := List.last segments EmptyString in
    let base := JS.slice filename 0 (-4) in
    let scoped (short : string) (before : list string) : string :=
      match before with
      | sc :: _ => if JS.startsWith sc "@" then (sc ++ "/" ++ short)%string else short
      | [] => short
      end in
    let atLastDash (before : list string) : option string * option string :=
      let lastDash := JS.lastIndexOf base "-" in
      if (lastDash <=? 0)%Z then (None, None)
      else (Some (scoped (JS.slice base 0 lastDash) before),
            Some (JS.slice_from base (lastDash + 1))) in
    match List.rev (List.removelast segments) with
    | marker :: package :: before =>
        if String.eqb marker "-"
        then
          if JS.startsWith base (package ++ "-")
             && (JS.len package + 1 <? JS.len base)%Z
          then (Some (scoped package before),
                Some (JS.slice_from base (JS.len package + 1)))
          else (None, None)
        else atLastDash (marker :: package :: before)
    | before => atLastDash before
    end.

(** A malware database with one entry. *)
#[export] Instance collaborators : Collaborators := {|
  isMalware := fun name version =>
    String.eqb name "malicious-package" && String.eqb version "1.0.0";
  MALWARE_STATUS_MALWARE := "malware";
  parseNpmPackageUrl := parseNpmTarballUrl;
|}.

Definition world0 : World :=
  {| clock := 1700000000000;
     cli := CliArguments.initial;
     ecoSystem := Settings.ECOSYSTEM_JS;
     auditStats := {| totalPackages := 0; safePackages := 0; malwarePackages := 0 |};
     hasSuppressedVersions := false;
     port := None;
     blockedRequests := [];
     emitted := [];
     spawned := [] |}.

End Fixture.

(** ** The stages of a run of [main], named for the statements about it *)
Module Wrapper.
Section Wrapper.
Context `{Runtime} `{Collaborators}.
Import Main.

Variable packageManager : PackageManager.
Variable listeningPort : Z.

(** The world in which the pre-scan starts: the proxy listens and the
    wrapper's flags have been taken out of [args]. *)
Definition remainingArgs (args : list string) (w : World) : list string :=
  fst (CliArguments.initializeCliArguments args (cli w)).

Definition scanWorld (args : list string) (w : World) : World :=
  set_cli (snd (CliArguments.initializeCliArguments args (cli w)))
          (set_port (Some listeningPort) w).

(** The pre-scan lets the command through and leaves the world [w2]:
    the command is not scanned, or the audit of its changes allows all
    of them. *)
Definition scanPasses (race : RaceWinner) (args : list string) (w w2 : World) : Prop :=
  (shouldScanCommand packageManager (remainingArgs args w) = false
   /\ w2 = scanWorld args w)
  \/
  (shouldScanCommand packageManager (remainingArgs args w) = true
   /\ race = ScanFirst
   /\ exists changes audit,
        getDependencyUpdatesForCommand packageManager (remainingArgs args w) = Ok changes
        /\ Audit.auditChanges changes (scanWorld args w) = (Ok audit, w2)
        /\ Audit.isAllowed audit = true).

End Wrapper.
End Wrapper.

(** ** Inputs used in the examples *)
Module Examples.
Section Examples.
Import InterceptorBuilder Fixture.

(** A body modifier that only computes on the body. *)
Definition pureBodyFn `{Runtime} (f : Buffer -> Buffer) : BodyFn :=
  fun body headers => ret (f body, headers).

Definition appendText (suffix : string) : Bytes -> Bytes := fun b =>
  match b with
  | Text s => Text (s ++ suffix)
  | Serialized p => Serialized p
  end.

(** The context after [modifyBody(f1); modifyBody(f2)] with
    [f1 = appendText "1"] and [f2 = appendText "2"]. *)
Definition twoModifiers : RequestInterceptionContext :=
  ctx_modifyBody
    (ctx_modifyBody (createRequestContext "https://registry.npmjs.org/lodash"
                                          newEventEmitter)
                    (pureBodyFn (appendText "1")))
    (pureBodyFn (appendText "2")).

(** The event of [blockMalwareSetup], as the source builds it. *)
Definition malwareBlockedEvent (packageName version : option string)
           (targetUrl : string) (now : Z) : string * JS.obj :=
  ("malwareBlocked",
   [ ("packageName", JS.of_option packageName);
     ("version", JS.of_option version);
     ("targetUrl", JS.VString targetUrl);
     ("timestamp", JS.VNumber now) ]).

Definition forbidden : BlockResponse :=
  {| statusCode := 403; message := "Forbidden - blocked by safe-chain" |}.

(** What one emission does to the world: it is recorded, and the
    listeners of the emitter run. *)
Definition afterEmit (e : EventEmitter) (event : string * JS.obj) (w : World)
  : result unit * World :=
  callListeners (listeners e) (fst event) (snd event)
                (set_emitted (emitted w ++ [event]) w).

(** The tarball of scenario S2, and the registry's CONNECT target. *)
Definition maliciousTarball : string :=
  "https://registry.npmjs.org/malicious-package/-/malicious-package-1.0.0.tgz".

Definition npmConnectTarget : string := "registry.npmjs.org:443".

Definition maliciousTarballPath : string :=
  "/malicious-package/-/malicious-package-1.0.0.tgz".

Definition maliciousSdist : string :=
  "https://files.pythonhosted.org/packages/xx/yy/malicious-package-1.0.0.tar.gz".

Definition jsonHeaders : Headers :=
  <["content-type" := HString "application/json"]>
  (<["etag" := HString "W/abc"]>
  (<["last-modified" := HString "Tue, 14 Nov 2023 20:00:00 GMT"]>
  (<["cache-control" := HString "public, max-age=300"]> empty))).

(** [world0] reads 2023-11-14T22:13:20.000Z on its clock.  Version 2.0.0
    of this packument is 30 hours old and version 3.0.0 is 2 hours old. *)
Definition lodash : Packument :=
  {| name := Some "lodash";
     time := [ ("created", "2020-01-01T00:00:00.000Z");
               ("modified", "2023-11-14T20:13:20.000Z");
               ("1.0.0", "2023-11-01T00:00:00.000Z");
               ("2.0.0", "2023-11-13T16:13:20.000Z");
               ("3.0.0", "2023-11-14T20:13:20.000Z") ];
     versions := [ ("1.0.0", JObject []); ("2.0.0", JObject []);
                   ("3.0.0", JObject []) ];
     dist_tags := [ ("latest", "3.0.0") ];
     others := [] |}.

(** A package manager that scans [install] commands, resolves
    [install malicious-package] to the malicious package, and whose child
    process exits with status 7; [blockingChild] is a child during
    whose run the proxy blocks one download. *)
Definition maliciousChange : Audit.PackageChange :=
  {| Audit.pc_name := "malicious-package"; Audit.pc_version := "1.0.0";
     Audit.pc_type := "add" |}.

Definition quietManager : Main.PackageManager :=
  {| Main.isSupportedCommand := fun args =>
       match args with
       | "install" :: _ => true
       | _ => false
       end;
     Main.getDependencyUpdatesForCommand := fun args =>
       if List.existsb (String.eqb "malicious-package") args
       then Ok [maliciousChange]
       else Ok [];
     Main.runCommand := fun _ => ret 7%Z |}.

Definition blockedEntry : BlockedRequest :=
  {| br_packageName := JS.VString "malicious-package";
     br_version := JS.VString "1.0.0";
     br_url := JS.VUndefined |}.

Definition blockingChild : Main.PackageManager :=
  {| Main.isSupportedCommand := Main.isSupportedCommand quietManager;
     Main.getDependencyUpdatesForCommand :=
       Main.getDependencyUpdatesForCommand quietManager;
     Main.runCommand := fun _ =>
       modify (fun w => set_blockedRequests (blockedRequests w ++ [blockedEntry]) w) ;;
       ret 0%Z |}.

(** Version 0.9.0 is listed in [versions] and has no entry in [time]. *)
Definition withOrphan : Packument :=
  {| name := Some "lodash";
     time := time lodash;
     versions := ("0.9.0", JObject []) :: versions lodash;
     dist_tags := [ ("latest", "3.0.0"); ("stable", "1.0.0") ];
     others := [] |}.


Definition lodashUrl : string := "https://registry.npmjs.org/lodash".

End Examples.
End Examples.

(** ** The result of the rewriter, named for the statements about it *)
Module Rewritten.
Section Rewritten.
Context `{Runtime}.
Import ModifyNpmInfo.

(** What [deleteVersionFromJson] does to the document. *)
Definition deleteVersion (json : Packument) (version : string) : Packument :=
  {| name := name json;
     time := Obj.remove (time json) version;
     versions := Obj.remove (versions json) version;
     dist_tags :=
       List.filter (fun entry => negb (String.eqb version (snd entry)))
                   (dist_tags json);
     others := others json |}.

Fixpoint deleteVersions (json : Packument) (removed : list string) : Packument :=
  match removed with
  | [] => json
  | version :: rest => deleteVersions (deleteVersion json version) rest
  end.

(** The versions that a run at time [now] removes: the keys of [time],
    other than [created] and [modified], whose date is newer than the
    cutoff; none for an exempt package. *)
Definition tooYoung (now : Z) (entries : list (string * string)) : list string :=
  List.map fst
    (List.filter (fun e => isNewerThan (cutOffAt now) (snd e))
                 (List.filter (fun e => isVersionEntry (fst e)) entries)).

Definition removedVersions (now : Z) (p : Packument) : list string :=
  if isPackageExemptFromAgeCheck (name p) then [] else tooYoung now (time p).

(** The packument once these versions are deleted: what survives. *)
Definition survivor (now : Z) (p : Packument) : Packument :=
  deleteVersions p (removedVersions now p).

(** The time entries that name a version, split in full releases and
    prereleases. *)
Definition versionEntries (p : Packument) : list (string * string) :=
  List.filter (fun e => isVersionEntry (fst e)) (time p).

Definition fullReleases (p : Packument) : list (string * string) :=
  List.filter (fun e => negb (isPrerelease (fst e))) (versionEntries p).

Definition prereleases (p : Packument) : list (string * string) :=
  List.filter (fun e => isPrerelease (fst e)) (versionEntries p).

(** [version] is an entry of [entries] whose timestamp is the maximum,
    in the order of the timestamps as strings. *)
Definition mostRecentIn (entries : list (string * string)) (version : string) : Prop :=
  exists timestamp,
    In (version, timestamp) entries
    /\ forall v t, In (v, t) entries -> (t ≤ timestamp)%string.

(** The headers and the world after a run that removes [removed]. *)
Definition headersAfter (removed : list string) (headers : option Headers)
  : option Headers :=
  match removed with
  | [] => headers
  | _ => deleteCachingHeaders headers
  end.

Definition worldAfter (removed : list string) (w : World) : World :=
  match removed with
  | [] => w
  | _ => set_hasSuppressedVersions true w
  end.

(** The document that [modifyNpmInfoResponse] serialises. *)
Definition rewritten (now : Z) (p : Packument) : Packument :=
  let p' := survivor now p in
  if JS.truthy_opt (Obj.lookup (dist_tags p) "latest")
     && negb (JS.truthy_opt (Obj.lookup (dist_tags p') "latest"))
  then assignLatest p'
  else p'.

End Rewritten.
End Rewritten.

(** ** registryProxy/registryProxy.js: the environment of the child *)
Module ProxyEnvironment.
Section ProxyEnvironment.

(** [String.prototype.toUpperCase], whose Unicode table is not part of
    the model, and certUtils.js: [getCaCertPath()]. *)
Variable toUpperCase : string -> string.
Variable caCertPath : string.

(** [`${port}`] for an integer. *)
Definition numberToString (n : Z) : string :=
  DecimalString.NilEmpty.string_of_int (Z.to_int n).

Definition proxyUrl (p : Z) : string := "http://localhost:" ++ numberToString p.

(** [!state.port] holds for [null] and for 0. *)
Definition getSafeChainProxyEnvironmentVariables (statePort : option Z)
  : gmap string string :=
  match statePort with
  | None => empty
  | Some p =>
      if (p =? 0)%Z then empty
      else <["NODE_EXTRA_CA_CERTS" := caCertPath]>
           (<["GLOBAL_AGENT_HTTP_PROXY" := proxyUrl p]>
           (<["HTTPS_PROXY" := proxyUrl p]> empty))
  end.

(** [env[key]], for an environment given as its entries in the order
    of [Object.keys]. *)
Definition envValue (env : list (string * option string)) (key : string)
  : option string :=
  match Obj.lookup env key with
  | Some v => v
  | None => None
  end.

(** One turn of the loop over [Object.keys(env)].  The keys are names
    of environment variables: an upper-cased name is never a property
    that [proxyEnv] inherits from [Object.prototype], and [__proto__]
    is not among them. *)
Definition mergeStep (env : list (string * option string))
           (proxyEnv : gmap string string) (key : string) : gmap string string :=
  let upperKey := toUpperCase key in
  match envValue env key with
  | Some value =>
      if negb (JS.truthy_opt (proxyEnv !! upperKey)) && JS.truthy value
      then <[key := value]> proxyEnv
      else proxyEnv
  | None => proxyEnv
  end.

Definition mergeSafeChainProxyEnvironmentVariables (statePort : option Z)
           (env : list (string * option string)) : gmap string string :=
  List.fold_left (mergeStep env) (List.map fst env)
                 (getSafeChainProxyEnvironmentVariables statePort).

End ProxyEnvironment.
End ProxyEnvironment.

(** ** packagemanager/uv/runUvCommand.js *)
Module RunUvCommand.
Section RunUvCommand.

Variable toUpperCase : string -> string.
Variable caCertPath : string.
(** [process.env], and certBundle.js: [getCombinedCaBundlePath()]. *)
Variable processEnv : list (string * option string).
Variable getCombinedCaBundlePath : result string.

(** utils/safeSpawn.js: the promise resolves with the exit status, or
    rejects with an error that may carry a [status]. *)
Inductive SpawnResult :=
| Resolved (status : Z)
| Rejected (status : option Z).

Variable safeSpawn : string -> list string -> gmap string string -> M SpawnResult.

Definition setUvCaBundleEnvironmentVariables (env : gmap string string)
           (combinedCaPath : string) : gmap string string :=
  <["PIP_CERT" := combinedCaPath]>
  (<["REQUESTS_CA_BUNDLE" := combinedCaPath]>
  (<["SSL_CERT_FILE" := combinedCaPath]> env)).

(** The environment that [runUv] gives to the child. *)
Definition uvEnvironment (statePort : option Z) (combinedCaPath : string)
  : gmap string string :=
  setUvCaBundleEnvironmentVariables
    (ProxyEnvironment.mergeSafeChainProxyEnvironmentVariables
       toUpperCase caCertPath statePort processEnv)
    combinedCaPath.

(** The [catch] block: [error.status] if it is truthy, and 1 otherwise. *)
Definition statusOfError (status : option Z) : Z :=
  match status with
  | Some s => if (s =? 0)%Z then 1%Z else s
  | None => 1%Z
  end.

Definition runUv (command : string) (args : list string) : M Z :=
  try_catch
    (let* statePort := gets port in
     match getCombinedCaBundlePath with
     | Throw e => throw e
     | Ok combinedCaPath =>
         let* r := safeSpawn command args (uvEnvironment statePort combinedCaPath) in
         match r with
         | Resolved status => ret status
         | Rejected status => ret (statusOfError status)
         end
     end)
    (fun _ => ret 1%Z).

End RunUvCommand.
End RunUvCommand.

(** ** packagemanager/pip/pipSettings.js, createPackageManager.js and
    packagemanager/uv/createUvPackageManager.js *)
Module PackageManagers.
Section PackageManagers.
Context `{Runtime} `{Collaborators}.

Record Invocation := {
  command : string;
  args : list string;
}.

Definition PIP : Invocation := {| command := "pip"; args := [] |}.
Definition PIP3 : Invocation := {| command := "pip3"; args := [] |}.
Definition PY_PIP : Invocation := {| command := "python"; args := ["-m"; "pip"] |}.
Definition PY3_PIP : Invocation := {| command := "python3"; args := ["-m"; "pip"] |}.
Definition PY_PIP3 : Invocation := {| command := "python"; args := ["-m"; "pip3"] |}.
Definition PY3_PIP3 : Invocation := {| command := "python3"; args := ["-m"; "pip3"] |}.

(** [currentInvocation] is the module state of pipSettings.js, and
    [runPip] is runPipCommand.js. *)
Definition createPipPackageManager (runPip : string -> list string -> M Z)
           (currentInvocation : Invocation) : Main.PackageManager :=
  {| Main.runCommand := fun userArgs =>
       runPip (command currentInvocation) (args currentInvocation ++ userArgs);
     Main.isSupportedCommand := fun _ => false;
     Main.getDependencyUpdatesForCommand := fun _ => Ok [] |}.

Definition createUvPackageManager (runUv : string -> list string -> M Z)
  : Main.PackageManager :=
  {| Main.runCommand := fun userArgs => runUv "uv" userArgs;
     Main.isSupportedCommand := fun _ => false;
     Main.getDependencyUpdatesForCommand := fun _ => Ok [] |}.

End PackageManagers.
End PackageManagers.

(** ** The result of an audit, named for the statements about it *)
Module Audited.
Section Audited.
Context `{Collaborators}.
Import Audit.

(** [change] names the package and version of an added or changed
    package of the batch that the database reports. *)
Definition flagged (changes : list PackageChange) (change : PackageChange) : bool :=
  List.existsb
    (fun c => isAddOrChange c
              && isMalware (pc_name c) (pc_version c)
              && String.eqb (pc_name c) (pc_name change)
              && String.eqb (pc_version c) (pc_version change))
    changes.

(** The test of the loop of [auditChanges]: some reported package has
    the name and the version of the change. *)
Definition hit (found : list MalwarePackage) (change : PackageChange) : bool :=
  match List.find (fun pkg => String.eqb (mp_name pkg) (pc_name change)
                              && String.eqb (mp_version pkg) (pc_version change))
                  found with
  | Some _ => true
  | None => false
  end.

Definition addCounts (total safe malware : nat) (s : AuditStats) : AuditStats :=
  {| totalPackages := totalPackages s + Z.of_nat total;
     safePackages := safePackages s + Z.of_nat safe;
     malwarePackages := malwarePackages s + Z.of_nat malware |}.

End Audited.
End Audited.

(** ** The outcome of a request, named for the statements about it *)
Module Intercepted.
Section Intercepted.
Context `{Runtime} `{Collaborators}.
Import InterceptorBuilder.

(** The answer of [isMalwarePackage]: the database is asked only for a
    name and a version that are both present and not empty. *)
Definition reported (packageName version : option string) : bool :=
  match packageName, version with
  | Some n, Some v => JS.truthy n && JS.truthy v && isMalware n v
  | _, _ => false
  end.

(** The context that the setup of the npm interceptor leaves. *)
Definition npmContext (url : string) (blocked rewrites : bool)
  : RequestInterceptionContext :=
  {| targetUrl := url;
     eventEmitter := newEventEmitter;
     ctx_blockResponse :=
       if blocked
       then Some {| statusCode := 403; message := "Forbidden - blocked by safe-chain" |}
       else None;
     reqheaderModificationFuncs :=
       if rewrites then [ModifyNpmInfo.modifyNpmInfoRequestHeaders] else [];
     modifyBodyFuncs :=
       if rewrites then [ModifyNpmInfo.modifyNpmInfoResponse] else [] |}.

(** The context that the setup of the pip interceptor leaves. *)
Definition pipContext (url : string) (blocked : bool) : RequestInterceptionContext :=
  {| targetUrl := url;
     eventEmitter := newEventEmitter;
     ctx_blockResponse :=
       if blocked
       then Some {| statusCode := 403; message := "Forbidden - blocked by safe-chain" |}
       else None;
     reqheaderModificationFuncs := [];
     modifyBodyFuncs := [] |}.

End Intercepted.
End Intercepted.

(** ** More inputs used in the examples *)
Module Scenarios.
Section Scenarios.
Import Fixture Examples.

(** [toUpperCase] on the letters a-z, which is what it does to the
    names of environment variables written in ASCII. *)
Definition upper_char (c : ascii) : ascii :=
  let n := nat_of_ascii c in
  if ((97 <=? n) && (n <=? 122))%nat then ascii_of_nat (n - 32) else c.

Fixpoint toUpperCase (s : string) : string :=
  match s with
  | EmptyString => EmptyString
  | String c s' => String (upper_char c) (toUpperCase s')
  end.

Definition caCertPath : string := "/home/user/.safe-chain/certs/ca-cert.pem".

Definition combinedCaPath : string := "/tmp/safe-chain/combined-ca.pem".

(** An environment with a proxy of the user's under a lower-case name,
    a certificate file of the user's, and an empty variable. *)
Definition userEnv : list (string * option string) :=
  [ ("PATH", Some "/usr/bin");
    ("https_proxy", Some "http://corp.example:3128");
    ("SSL_CERT_FILE", Some "/etc/ssl/user.pem");
    ("EMPTY", Some EmptyString) ].

(** A child process that exits with status 0. *)
Definition spawnOk (command : string) (args : list string)
           (env : gmap string string) : M RunUvCommand.SpawnResult :=
  ret (RunUvCommand.Resolved 0).

(** A package manager whose child cannot be started, and one whose
    resolver fails. *)
Definition failingChild : Main.PackageManager :=
  {| Main.isSupportedCommand := Main.isSupportedCommand quietManager;
     Main.getDependencyUpdatesForCommand :=
       Main.getDependencyUpdatesForCommand quietManager;
     Main.runCommand := fun _ => throw "spawn npm ENOENT" |}.

Definition failingResolver : Main.PackageManager :=
  {| Main.isSupportedCommand := Main.isSupportedCommand quietManager;
     Main.getDependencyUpdatesForCommand := fun _ => Throw "dry run failed";
     Main.runCommand := Main.runCommand quietManager |}.

Definition wheelUrl : string :=
  "https://files.pythonhosted.org/packages/xx/yy/requests-2.28.1-py3-none-any.whl".

Definition pypiConnectTarget : string := "files.pythonhosted.org:443".

End Scenarios.
End Scenarios.

(** * Properties *)

Local Open Scope monad_scope.

Ltac run_monad :=
  unfold bind, ret, gets, modify, throw, try_catch, try_finally in *; simpl in *.

Lemma bind_Ok {A B} (m : M A) (k : A -> M B) (w w' : World) (a : A) :
  m w = (Ok a, w') -> bind m k w = k a w'.
Proof. unfold bind. by intros ->. Qed.

Lemma bind_Throw {A B} (m : M A) (k : A -> M B) (w w' : World) (e : string) :
  m w = (Throw e, w') -> bind m k w = (Throw e, w').
Proof. unfold bind. by intros ->. Qed.

Section BuilderFacts.
Context `{Runtime}.
Import InterceptorBuilder Examples.

Lemma last_default_irrelevant {A} (l : list A) (d1 d2 : A) :
  l <> [] -> List.last l d1 = List.last l d2.
Proof.
  induction l as [|a l IH]; [done|]. intros _.
  destruct l as [|b l]; [done|]. simpl in *. apply IH. done.
Qed.

(** The handler's [modifyBody] with pure modifiers: the last modifier
    applied to the body it was called with. *)
Lemma modifyBodyLoop_pure (fs : list (Buffer -> Buffer)) body modifiedBody headers w :
  modifyBodyLoop (List.map pureBodyFn fs) body modifiedBody headers w =
  (Ok (List.last fs (fun _ => modifiedBody) body, headers), w).
Proof.
  revert modifiedBody. induction fs as [|f fs IH]; intros modifiedBody.
  - reflexivity.
  - cbn [List.map modifyBodyLoop]. unfold bind, pureBodyFn at 1, ret at 1.
    cbn [fst snd]. rewrite IH.
    destruct fs as [|g fs]; [reflexivity|].
    do 3 f_equal.
    change (List.last (g :: fs) (fun _ => f body) body =
            List.last (g :: fs) (fun _ => modifiedBody) body).
    by rewrite (last_default_irrelevant (g :: fs) (fun _ => f body) (fun _ => modifiedBody)).
Qed.

Lemma modifiesResponse_iff (ctx : RequestInterceptionContext) :
  modifiesResponse (build ctx) tt = true <-> modifyBodyFuncs ctx <> [].
Proof.
  simpl. destruct (modifyBodyFuncs ctx); simpl; split; intros; try done.
Qed.

End BuilderFacts.

(** ** The interceptor builder (interceptorBuilder.js) *)
Section BuilderClaims.
Import InterceptorBuilder Fixture Examples.

(** C6 (code defect).  With two body modifiers registered, the handler's
    [modifyBody] gives the second modifier the original body and not the
    output of the first: on ["b"] it returns ["b2"], where applying the
    modifiers in registration order over the accumulated bytes gives
    ["b12"].  [modifiesResponse()] is true for this handler. *)
Theorem C6_modifyBody_drops_earlier_modifiers :
  modifyBody (build twoModifiers) (Text "b") None world0
    = (Ok (Text "b2", None), world0)
  /\ appendText "2" (appendText "1" (Text "b")) = Text "b12"
  /\ Text "b2" <> Text "b12"
  /\ modifiesResponse (build twoModifiers) tt = true.
Proof. repeat split; try reflexivity. discriminate. Qed.

End BuilderClaims.

(** ** Blocking malware (npmInterceptor.js, pipInterceptor.js) *)
Section Blocking.
Context `{Runtime} `{Collaborators}.
Import InterceptorBuilder Examples.

(** The malware check only counts: it never throws, and it leaves
    everything but the audit counters as it was. *)
Lemma isMalwarePackage_frame (packageName version : option string) (w : World) :
  exists b stats,
    Audit.isMalwarePackage packageName version w = (Ok b, set_auditStats stats w).
Proof.
  assert (Hid : w = set_auditStats (auditStats w) w) by (by destruct w).
  unfold Audit.isMalwarePackage.
  destruct packageName as [n|], version as [v|];
    try (exists false, (auditStats w); unfold ret; by rewrite <- Hid).
  destruct (negb (JS.truthy n) || negb (JS.truthy v)).
  { exists false, (auditStats w). unfold ret. by rewrite <- Hid. }
  unfold Audit.auditChanges, Audit.getPackagesWithMalware, Audit.isAddOrChange.
  cbn [filter List.filter Audit.pc_type String.eqb Ascii.eqb Bool.eqb orb
       Audit.pc_name Audit.pc_version].
  destruct (isMalware n v); cbn; unfold bind, modify, ret; cbn;
    rewrite ?String.eqb_refl; cbn; eexists _, _; reflexivity.
Qed.

(** It answers what the database answers, for a name and a version that
    are not empty. *)
Lemma isMalwarePackage_oracle (n v : string) (w : World) :
  n <> EmptyString -> v <> EmptyString ->
  fst (Audit.isMalwarePackage (Some n) (Some v) w) = Ok (isMalware n v).
Proof.
  intros Hn Hv. unfold Audit.isMalwarePackage.
  destruct n as [|a n]; [done|]. destruct v as [|b v]; [done|].
  cbn [JS.truthy negb orb].
  unfold Audit.auditChanges, Audit.getPackagesWithMalware, Audit.isAddOrChange.
  cbn [filter List.filter Audit.pc_type String.eqb Ascii.eqb Bool.eqb orb
       Audit.pc_name Audit.pc_version].
  destruct (isMalware (String a n) (String b v)); cbn; unfold bind, modify, ret; cbn;
    rewrite ?Ascii.eqb_refl, ?String.eqb_refl; reflexivity.
Qed.

Lemma blockMalwareSetup_run ctx packageName version (w w2 : World) :
  afterEmit (eventEmitter ctx)
            (malwareBlockedEvent packageName version (targetUrl ctx) (clock w)) w
    = (Ok tt, w2) ->
  exists ctx',
    blockMalwareSetup ctx packageName version w = (Ok ctx', w2)
    /\ ctx_blockResponse ctx' = Some forbidden
    /\ targetUrl ctx' = targetUrl ctx.
Proof.
  unfold afterEmit, malwareBlockedEvent. cbn [fst snd]. intros Hls.
  unfold blockMalwareSetup, emitter_emit, bind, gets, modify, ret.
  eexists. split; [rewrite Hls; reflexivity|]. split; reflexivity.
Qed.

(** A request for a package that the malware check reports, handled by
    an npm interceptor with any listeners that do not throw. *)
Lemma npm_handleRequest_blocks registry (e : EventEmitter) url
      (w w1 w2 : World) packageName version :
  parseNpmPackageUrl url registry = (packageName, version) ->
  Audit.isMalwarePackage packageName version w = (Ok true, w1) ->
  afterEmit e (malwareBlockedEvent packageName version url (clock w)) w1 = (Ok tt, w2) ->
  exists handler,
    handleRequest {| requestHandlers := [NpmInterceptor.npmSetup registry];
                     interceptorEmitter := e |} url w
      = (Ok handler, w2)
    /\ blockResponse handler = Some forbidden.
Proof.
  intros Hparse Hmal Hls.
  destruct (isMalwarePackage_frame packageName version w) as (b & stats & Hfr).
  rewrite Hfr in Hmal. injection Hmal as -> <-.
  destruct (blockMalwareSetup_run (createRequestContext url e) packageName version
              (set_auditStats stats w) w2 Hls) as (ctx' & Hblock & Hresp & Hurl).
  assert (Hsetup : exists ctx'',
             NpmInterceptor.npmSetup registry (createRequestContext url e) w
               = (Ok ctx'', w2)
             /\ ctx_blockResponse ctx'' = Some forbidden).
  { unfold NpmInterceptor.npmSetup. cbn [targetUrl createRequestContext].
    rewrite Hparse. erewrite bind_Ok by exact Hfr. cbn iota.
    erewrite bind_Ok by exact Hblock. unfold bind, gets, ret.
    destruct (negb (Settings.skipMinimumPackageAge (cli w2))
              && ModifyNpmInfo.isPackageInfoUrl (targetUrl ctx'));
      eexists; (split; [reflexivity|]); cbn; exact Hresp. }
  destruct Hsetup as (ctx'' & Hsetup & Hresp'').
  exists (build ctx''). split; [|exact Hresp''].
  unfold handleRequest. cbn [requestHandlers interceptorEmitter runHandlers].
  erewrite bind_Ok; [reflexivity|].
  erewrite bind_Ok by exact Hsetup. reflexivity.
Qed.

Lemma pip_handleRequest_blocks registry (e : EventEmitter) url
      (w w1 w2 : World) packageName version :
  PipInterceptor.parsePipPackageFromUrl url registry w = (Ok (packageName, version), w) ->
  Audit.isMalwarePackage packageName version w = (Ok true, w1) ->
  afterEmit e (malwareBlockedEvent packageName version url (clock w)) w1 = (Ok tt, w2) ->
  exists handler,
    handleRequest {| requestHandlers := [PipInterceptor.pipSetup registry];
                     interceptorEmitter := e |} url w
      = (Ok handler, w2)
    /\ blockResponse handler = Some forbidden.
Proof.
  intros Hparse Hmal Hls.
  destruct (isMalwarePackage_frame packageName version w) as (b & stats & Hfr).
  rewrite Hfr in Hmal. injection Hmal as -> <-.
  destruct (blockMalwareSetup_run (createRequestContext url e) packageName version
              (set_auditStats stats w) w2 Hls) as (ctx' & Hblock & Hresp & Hurl).
  assert (Hsetup : exists ctx'',
             PipInterceptor.pipSetup registry (createRequestContext url e) w
               = (Ok ctx'', w2)
             /\ ctx_blockResponse ctx'' = Some forbidden).
  { unfold PipInterceptor.pipSetup. cbn [targetUrl createRequestContext].
    erewrite bind_Ok by exact Hparse. cbn iota.
    erewrite bind_Ok by exact Hfr. cbn iota.
    eexists. split; [exact Hblock | exact Hresp]. }
  destruct Hsetup as (ctx'' & Hsetup & Hresp'').
  exists (build ctx''). split; [|exact Hresp''].
  unfold handleRequest. cbn [requestHandlers interceptorEmitter runHandlers].
  erewrite bind_Ok; [reflexivity|].
  erewrite bind_Ok by exact Hsetup. reflexivity.
Qed.

Lemma isMalwarePackage_emitted packageName version (w w1 : World) b :
  Audit.isMalwarePackage packageName version w = (Ok b, w1) ->
  emitted w1 = emitted w /\ clock w1 = clock w.
Proof.
  intros Hmal.
  destruct (isMalwarePackage_frame packageName version w) as (b' & stats & Hfr).
  rewrite Hfr in Hmal. injection Hmal as _ <-. done.
Qed.

(** C1 (amended).  When the malware check reports the parsed
    (packageName, version) as malware, [handleRequest] of the npm
    interceptor, and of the pip interceptor, returns a handler whose
    [blockResponse] is 403 "Forbidden - blocked by safe-chain", and
    exactly one event is emitted for the request: [malwareBlocked] with
    the package name, the version, the target URL, and the millisecond
    clock under the field name [timestamp]. *)
Theorem C1_block_response_and_event :
  (forall (registry url : string) (w w1 : World) (packageName version : option string),
     parseNpmPackageUrl url registry = (packageName, version) ->
     Audit.isMalwarePackage packageName version w = (Ok true, w1) ->
     exists handler w2,
       handleRequest (NpmInterceptor.buildNpmInterceptor registry) url w
         = (Ok handler, w2)
       /\ blockResponse handler = Some forbidden
       /\ emitted w2 =
            emitted w ++ [malwareBlockedEvent packageName version url (clock w)])
  /\
  (forall (registry url : string) (w w1 : World) (packageName version : option string),
     PipInterceptor.parsePipPackageFromUrl url registry w = (Ok (packageName, version), w) ->
     Audit.isMalwarePackage packageName version w = (Ok true, w1) ->
     exists handler w2,
       handleRequest (PipInterceptor.buildPipInterceptor registry) url w
         = (Ok handler, w2)
       /\ blockResponse handler = Some forbidden
       /\ emitted w2 =
            emitted w ++ [malwareBlockedEvent packageName version url (clock w)]).
Proof.
  split; intros registry url w w1 pn pv Hparse Hmal;
    destruct (isMalwarePackage_emitted _ _ _ _ _ Hmal) as [Hem Hclk].
  - destruct (npm_handleRequest_blocks registry newEventEmitter url w w1 _ pn pv
                Hparse Hmal eq_refl) as (handler & Hrun & Hresp).
    eexists _, _. split; [exact Hrun|]. split; [exact Hresp|].
    cbn. by rewrite Hem.
  - destruct (pip_handleRequest_blocks registry newEventEmitter url w w1 _ pn pv
                Hparse Hmal eq_refl) as (handler & Hrun & Hresp).
    eexists _, _. split; [exact Hrun|]. split; [exact Hresp|].
    cbn. by rewrite Hem.
Qed.

End Blocking.

Section BlockingExamples.
Import InterceptorBuilder Fixture Examples.

Lemma maliciousTarball_parses :
  parseNpmPackageUrl maliciousTarball "registry.npmjs.org"
  = (Some "malicious-package", Some "1.0.0").
Proof. vm_compute. reflexivity. Qed.

(** The parser of the examples on the names and versions of the spec's
    round trip: a scope, hyphens in the name, prereleases and build
    metadata; a package-info URL has no name and no version. *)
Example parseNpmTarballUrl_round_trip :
  parseNpmTarballUrl "https://registry.npmjs.org/@babel/core/-/core-7.21.4.tgz"
                     "registry.npmjs.org" = (Some "@babel/core", Some "7.21.4")
  /\ parseNpmTarballUrl
       "https://registry.npmjs.org/safe-chain-test/-/safe-chain-test-5.0.0-beta.1.tgz"
       "registry.npmjs.org" = (Some "safe-chain-test", Some "5.0.0-beta.1")
  /\ parseNpmTarballUrl
       "https://registry.npmjs.org/react/-/react-18.3.0-canary-abc123.tgz"
       "registry.npmjs.org" = (Some "react", Some "18.3.0-canary-abc123")
  /\ parseNpmTarballUrl
       "https://registry.npmjs.org/lodash/-/lodash-1.0.0-rc.1+build.123.tgz"
       "registry.npmjs.org" = (Some "lodash", Some "1.0.0-rc.1+build.123")
  /\ parseNpmTarballUrl lodashUrl "registry.npmjs.org" = (None, None).
Proof. vm_compute. repeat split. Qed.

Lemma maliciousPackage_is_reported (w : World) :
  exists w1,
    Audit.isMalwarePackage (Some "malicious-package") (Some "1.0.0") w = (Ok true, w1).
Proof.
  destruct (isMalwarePackage_frame (Some "malicious-package") (Some "1.0.0") w)
    as (b & stats & Hfr).
  pose proof (isMalwarePackage_oracle "malicious-package" "1.0.0" w
                ltac:(discriminate) ltac:(discriminate)) as Hor.
  rewrite Hfr in Hor. cbn in Hor. injection Hor as ->. eexists. exact Hfr.
Qed.

Lemma C1_block_response_and_event_witness :
  (exists handler w2,
     handleRequest (NpmInterceptor.buildNpmInterceptor "registry.npmjs.org")
                   maliciousTarball world0 = (Ok handler, w2)
     /\ blockResponse handler = Some forbidden
     /\ emitted w2 =
          emitted world0 ++
          [malwareBlockedEvent (Some "malicious-package") (Some "1.0.0")
                               maliciousTarball (clock world0)])
  /\
  (exists handler w2,
     handleRequest (PipInterceptor.buildPipInterceptor "files.pythonhosted.org")
                   maliciousSdist world0 = (Ok handler, w2)
     /\ blockResponse handler = Some forbidden
     /\ emitted w2 =
          emitted world0 ++
          [malwareBlockedEvent (Some "malicious-package") (Some "1.0.0")
                               maliciousSdist (clock world0)]).
Proof.
  split.
  - eapply (proj1 C1_block_response_and_event
              "registry.npmjs.org" maliciousTarball world0).
    + vm_compute. reflexivity.
    + vm_compute. reflexivity.
  - eapply (proj2 C1_block_response_and_event
              "files.pythonhosted.org" maliciousSdist world0).
    + vm_compute. reflexivity.
    + vm_compute. reflexivity.
Defined.

(** C1 as stated fails on the field name: the one event emitted for the
    malicious tarball has no [timestampMillis] field. *)
Lemma C1_timestampMillis_counterexample :
  ~ (exists handler w2 payload,
       handleRequest (NpmInterceptor.buildNpmInterceptor "registry.npmjs.org")
                     maliciousTarball world0 = (Ok handler, w2)
       /\ blockResponse handler = Some forbidden
       /\ emitted w2 = [("malwareBlocked", payload)]
       /\ JS.get payload "packageName" = JS.VString "malicious-package"
       /\ JS.get payload "version" = JS.VString "1.0.0"
       /\ JS.get payload "targetUrl" = JS.VString maliciousTarball
       /\ JS.get payload "timestampMillis" = JS.VNumber (clock world0)).
Proof.
  intros (handler & w2 & payload & Hrun & _ & Hev & _ & _ & _ & Hts).
  destruct (maliciousPackage_is_reported world0) as (w1 & Hmal).
  destruct (isMalwarePackage_emitted _ _ _ _ _ Hmal) as [Hem Hclk].
  destruct (npm_handleRequest_blocks "registry.npmjs.org" newEventEmitter
              maliciousTarball world0 w1 _ _ _
              maliciousTarball_parses Hmal eq_refl) as (handler' & Hrun' & _).
  unfold NpmInterceptor.buildNpmInterceptor, interceptRequests, buildInterceptor in Hrun.
  rewrite Hrun' in Hrun. injection Hrun as _ <-.
  cbn in Hev. rewrite Hem in Hev. cbn in Hev. injection Hev as <-.
  vm_compute in Hts. discriminate Hts.
Qed.

End BlockingExamples.

(** ** The proxy controller's bookkeeping (registryProxy.js) *)
Section Controller.
Context `{Runtime} `{Collaborators}.

Lemma verifyNoMaliciousPackages_iff (w : World) :
  RegistryProxy.verifyNoMaliciousPackages w = (Ok true, w)
  <-> blockedRequests w = [].
Proof.
  unfold RegistryProxy.verifyNoMaliciousPackages. run_monad.
  destruct (blockedRequests w); simpl; split; intros Heq; try done.
Qed.

(** The listener appends one entry, and reads the URL from a property
    that the event of [blockMalwareSetup] does not have. *)
Lemma malwareBlockedListener_appends packageName version targetUrl now (w : World) :
  RegistryProxy.malwareBlockedListener
    (snd (Examples.malwareBlockedEvent packageName version targetUrl now)) w
  = (Ok tt,
     set_blockedRequests
       (blockedRequests w ++
          [ {| br_packageName := JS.of_option packageName;
               br_version := JS.of_option version;
               br_url := JS.VUndefined |} ]) w).
Proof. reflexivity. Qed.

Lemma handleConnect_npm (url registry : string) (w : World) :
  ecoSystem w = Settings.ECOSYSTEM_JS ->
  List.find (fun reg => JS.includes url reg) NpmInterceptor.knownJsRegistries
    = Some registry ->
  RegistryProxy.handleConnect (Some url) w
  = (Ok (RegistryProxy.MitmConnect
           (InterceptorBuilder.on (NpmInterceptor.buildNpmInterceptor registry)
              "malwareBlocked" RegistryProxy.malwareBlockedListener)), w).
Proof.
  intros Heco Hfind.
  unfold RegistryProxy.handleConnect, EcoSystem.createInterceptorForUrl,
    NpmInterceptor.npmInterceptorForUrl.
  unfold bind, gets, ret. cbn [default from_option id].
  rewrite Heco, Hfind, String.eqb_refl. reflexivity.
Qed.

(** A blocked request on a connection set up by [handleConnect]: the
    answer is the block response, and the entry added to
    [blockedRequests] has no URL. *)
Lemma connection_blocks (registry hostname path : string) (w w1 : World)
      packageName version :
  JS.truthy path = true ->
  JS.startsWith path "http://" || JS.startsWith path "https://" = false ->
  parseNpmPackageUrl ("https://" ++ hostname ++ path) registry
    = (packageName, version) ->
  Audit.isMalwarePackage packageName version w = (Ok true, w1) ->
  MitmRequestHandler.handleRequest hostname
    (InterceptorBuilder.on (NpmInterceptor.buildNpmInterceptor registry)
       "malwareBlocked" RegistryProxy.malwareBlockedListener)
    (Some path) w
  = (Ok (MitmRequestHandler.Answered 403 "Forbidden - blocked by safe-chain"
                                     "Forbidden - blocked by safe-chain"),
     set_blockedRequests
       (blockedRequests w1 ++
          [ {| br_packageName := JS.of_option packageName;
               br_version := JS.of_option version;
               br_url := JS.VUndefined |} ])
       (set_emitted
          (emitted w1 ++
             [Examples.malwareBlockedEvent packageName version
                ("https://" ++ hostname ++ path) (clock w)])
          w1)).
Proof.
  intros Hpath Habs Hparse Hmal.
  unfold MitmRequestHandler.handleRequest. rewrite Hpath. cbn [negb].
  unfold MitmRequestHandler.getRequestPathAndQuery. rewrite Habs.
  erewrite bind_Ok by reflexivity.
  destruct (npm_handleRequest_blocks registry
              (InterceptorBuilder.emitter_on InterceptorBuilder.newEventEmitter
                 "malwareBlocked" RegistryProxy.malwareBlockedListener)
              ("https://" ++ hostname ++ path) w w1
              (set_blockedRequests
                 (blockedRequests w1 ++
                    [ {| br_packageName := JS.of_option packageName;
                         br_version := JS.of_option version;
                         br_url := JS.VUndefined |} ])
                 (set_emitted
                    (emitted w1 ++
                       [Examples.malwareBlockedEvent packageName version
                          ("https://" ++ hostname ++ path) (clock w)])
                    w1))
              packageName version Hparse Hmal eq_refl)
    as (handler & Hrun & Hresp).
  unfold InterceptorBuilder.on, NpmInterceptor.buildNpmInterceptor,
    InterceptorBuilder.interceptRequests, InterceptorBuilder.buildInterceptor.
  cbn [InterceptorBuilder.requestHandlers InterceptorBuilder.interceptorEmitter].
  erewrite bind_Ok by exact Hrun. rewrite Hresp. reflexivity.
Qed.

End Controller.

Section ControllerExamples.
Import InterceptorBuilder Fixture Examples.

(** C3 (code defect).  In scenario S2 the blocked tarball request adds
    one entry to [blockedRequests], with the package name and the
    version of the event, but its [url] is [undefined] and not the
    target URL: the listener reads [event.url] and the event carries
    [targetUrl].  [verifyNoMaliciousPackages()] is false afterwards. *)
Theorem C3_blocked_entry_has_no_url :
  match RegistryProxy.handleConnect (Some npmConnectTarget) world0 with
  | (Ok (RegistryProxy.MitmConnect interceptor), w1) =>
      exists w2,
        MitmRequestHandler.handleRequest "registry.npmjs.org" interceptor
                                         (Some maliciousTarballPath) w1
        = (Ok (MitmRequestHandler.Answered 403 "Forbidden - blocked by safe-chain"
                                           "Forbidden - blocked by safe-chain"), w2)
        /\ emitted w2 =
             [malwareBlockedEvent (Some "malicious-package") (Some "1.0.0")
                                  maliciousTarball (clock world0)]
        /\ blockedRequests w2 =
             [ {| br_packageName := JS.VString "malicious-package";
                  br_version := JS.VString "1.0.0";
                  br_url := JS.VUndefined |} ]
        /\ JS.VUndefined <> JS.VString maliciousTarball
        /\ RegistryProxy.verifyNoMaliciousPackages w2 = (Ok false, w2)
  | _ => False
  end.
Proof.
  rewrite (handleConnect_npm npmConnectTarget "registry.npmjs.org" world0)
    by (vm_compute; reflexivity).
  destruct (maliciousPackage_is_reported world0) as (w1 & Hmal).
  destruct (isMalwarePackage_frame (Some "malicious-package") (Some "1.0.0") world0)
    as (b & stats & Hfr).
  rewrite Hfr in Hmal. injection Hmal as -> <-.
  eexists. split.
  { apply (connection_blocks "registry.npmjs.org" "registry.npmjs.org"
             maliciousTarballPath world0 (set_auditStats stats world0)
             (Some "malicious-package") (Some "1.0.0"));
      [reflexivity | reflexivity | exact maliciousTarball_parses | exact Hfr]. }
  repeat split. discriminate.
Qed.

End ControllerExamples.

(** ** The wrapper's exit code (main.js, scanning/index.js) *)
Section ExitCode.
Context `{Runtime} `{Collaborators}.
Import Main.

Lemma set_auditStats_twice s1 s2 w :
  set_auditStats s1 (set_auditStats s2 w) = set_auditStats s1 w.
Proof. reflexivity. Qed.

Lemma auditLoop_frame found changes acc (w : World) :
  exists acc' stats,
    Audit.auditLoop found changes acc w = (Ok acc', set_auditStats stats w).
Proof.
  revert acc w. induction changes as [|c cs IH]; intros acc w.
  - exists acc, (auditStats w). by destruct w.
  - cbn [Audit.auditLoop]. unfold bind at 1.
    assert (exists acc1 stats1,
               Audit.auditOne found acc c w = (Ok acc1, set_auditStats stats1 w))
      as (acc1 & stats1 & ->).
    { unfold Audit.auditOne. destruct acc as [allowed disallowed].
      destruct (List.find _ found); run_monad; eexists _, _; reflexivity. }
    destruct (IH acc1 (set_auditStats stats1 w)) as (acc' & stats & ->).
    exists acc', stats. reflexivity.
Qed.

(** An audit counts, and does nothing else to the world. *)
Lemma auditChanges_frame changes (w : World) :
  exists audit stats,
    Audit.auditChanges changes w = (Ok audit, set_auditStats stats w).
Proof.
  unfold Audit.auditChanges. unfold bind.
  destruct (auditLoop_frame
              (Audit.getPackagesWithMalware (List.filter Audit.isAddOrChange changes))
              changes ([], []) w) as (acc & stats & ->).
  eexists _, _. reflexivity.
Qed.

End ExitCode.

Section ExitCodeClaim.
Context `{Runtime} `{Collaborators}.
Import Main Wrapper.

Variable packageManager : PackageManager.
Variable listeningPort : Z.

Lemma main_unfold race args (w : World) :
  main packageManager race (Some listeningPort) args w =
  try_finally
    (try_catch
       (let* commandScanResult :=
          (if shouldScanCommand packageManager (remainingArgs args w)
           then scanCommand packageManager race (remainingArgs args w)
           else ret 0%Z) in
        if negb (commandScanResult =? 0)%Z then ret commandScanResult
        else
          let* status := runChild packageManager (remainingArgs args w) in
          let* clean := RegistryProxy.verifyNoMaliciousPackages in
          if negb clean then ret 1%Z else ret status)
       (fun _ => ret 1%Z))
    RegistryProxy.stopServer
    (scanWorld listeningPort args w).
Proof. reflexivity. Qed.

Lemma scanPasses_run race args (w w2 : World) :
  scanPasses packageManager listeningPort race args w w2 ->
  (if shouldScanCommand packageManager (remainingArgs args w)
   then scanCommand packageManager race (remainingArgs args w)
   else ret 0%Z) (scanWorld listeningPort args w) = (Ok 0%Z, w2).
Proof.
  intros [[Hno ->] | (Hscan & -> & changes & audit & Hres & Haudit & Hok)].
  - rewrite Hno. reflexivity.
  - rewrite Hscan. unfold scanCommand. rewrite Hscan, Hres. cbn [negb].
    erewrite bind_Ok by exact Haudit. rewrite Hok. reflexivity.
Qed.

(** After a pre-scan that lets the command through, the exit code is
    decided by the blocked list the child leaves, then by its status. *)
Lemma main_after_child race args (w w2 w3 : World) status :
  scanPasses packageManager listeningPort race args w w2 ->
  runCommand packageManager (remainingArgs args w)
             (set_spawned (spawned w2 ++ [remainingArgs args w]) w2)
    = (Ok status, w3) ->
  main packageManager race (Some listeningPort) args w
  = (Ok (match blockedRequests w3 with [] => status | _ => 1%Z end), w3).
Proof.
  intros Hpass Hrun. rewrite main_unfold.
  unfold try_finally, try_catch.
  erewrite bind_Ok by (apply scanPasses_run; exact Hpass).
  cbn [Z.eqb negb].
  erewrite bind_Ok; [|unfold runChild; erewrite bind_Ok by reflexivity; exact Hrun].
  unfold RegistryProxy.verifyNoMaliciousPackages, gets, bind, ret,
    RegistryProxy.stopServer.
  destruct (blockedRequests w3); reflexivity.
Qed.

(** C2.  The exit code of [main], once the proxy listens.
    (1) If the command is scanned and the timer of the pre-scan fires
        first, or the audit of the resolved changes disallows one of
        them, [main] returns 1 and no child command has been run.
    (2) If the pre-scan lets the command through and the child exits
        with [status]: [main] returns 1 when the proxy has blocked a
        request by then, whatever [status] is, and [status] otherwise. *)
Theorem C2_exit_code_precedence (race : RaceWinner) (args : list string) (w : World) :
  (shouldScanCommand packageManager (remainingArgs args w) = true ->
   race = TimerFirst ->
   exists w',
     main packageManager race (Some listeningPort) args w = (Ok 1%Z, w')
     /\ spawned w' = spawned w)
  /\
  (shouldScanCommand packageManager (remainingArgs args w) = true ->
   race = ScanFirst ->
   forall changes audit w2,
     getDependencyUpdatesForCommand packageManager (remainingArgs args w) = Ok changes ->
     Audit.auditChanges changes (scanWorld listeningPort args w) = (Ok audit, w2) ->
     Audit.isAllowed audit = false ->
     exists w',
       main packageManager race (Some listeningPort) args w = (Ok 1%Z, w')
       /\ spawned w' = spawned w)
  /\
  (forall w2 status w3,
     scanPasses packageManager listeningPort race args w w2 ->
     runCommand packageManager (remainingArgs args w)
                (set_spawned (spawned w2 ++ [remainingArgs args w]) w2)
       = (Ok status, w3) ->
     (blockedRequests w3 <> [] ->
      main packageManager race (Some listeningPort) args w = (Ok 1%Z, w3))
     /\
     (blockedRequests w3 = [] ->
      main packageManager race (Some listeningPort) args w = (Ok status, w3))).
Proof.
  split; [|split].
  - intros Hscan ->. rewrite main_unfold, Hscan.
    unfold scanCommand. rewrite Hscan. cbn [negb].
    eexists. split; reflexivity.
  - intros Hscan -> changes audit w2 Hres Haudit Hdis.
    rewrite main_unfold, Hscan.
    unfold scanCommand. rewrite Hscan, Hres. cbn [negb].
    destruct (auditChanges_frame changes (scanWorld listeningPort args w))
      as (audit' & stats & Hfr).
    rewrite Hfr in Haudit. injection Haudit as -> <-.
    unfold try_finally, try_catch, bind. rewrite Hfr, Hdis.
    eexists. split; reflexivity.
  - intros w2 status w3 Hpass Hrun.
    rewrite (main_after_child race args w w2 w3 status Hpass Hrun).
    split; intros Hblocked.
    + destruct (blockedRequests w3); [done|]. reflexivity.
    + rewrite Hblocked. reflexivity.
Qed.

End ExitCodeClaim.

Section ExitCodeExamples.
Import Main Wrapper Fixture Examples.

Lemma C2_exit_code_precedence_witness :
  (exists w', main quietManager TimerFirst (Some 8080%Z) ["install"; "lodash"] world0
              = (Ok 1%Z, w') /\ spawned w' = [])
  /\ (exists w', main quietManager ScanFirst (Some 8080%Z)
                      ["install"; "malicious-package"] world0
                 = (Ok 1%Z, w') /\ spawned w' = [])
  /\ (exists w', main blockingChild ScanFirst (Some 8080%Z) ["install"; "lodash"] world0
                 = (Ok 1%Z, w') /\ spawned w' = [["install"; "lodash"]])
  /\ (exists w', main quietManager ScanFirst (Some 8080%Z) ["install"; "lodash"] world0
                 = (Ok 7%Z, w') /\ spawned w' = [["install"; "lodash"]]).
Proof.
  split; [|split; [|split]].
  - apply (proj1 (C2_exit_code_precedence quietManager 8080 TimerFirst
                    ["install"; "lodash"] world0)); reflexivity.
  - eapply (proj1 (proj2 (C2_exit_code_precedence quietManager 8080 ScanFirst
                            ["install"; "malicious-package"] world0)));
      [reflexivity | reflexivity | vm_compute; reflexivity
      | vm_compute; reflexivity | reflexivity].
  - eexists. split.
    + refine (proj1 (proj2 (proj2 (C2_exit_code_precedence blockingChild 8080 ScanFirst
                                     ["install"; "lodash"] world0)) _ _ _ _ _) _).
      * right. split; [reflexivity|]. split; [reflexivity|].
        eexists _, _. split; [vm_compute; reflexivity|].
        split; [vm_compute; reflexivity | reflexivity].
      * vm_compute. reflexivity.
      * vm_compute. discriminate.
    + reflexivity.
  - eexists. split.
    + refine (proj2 (proj2 (proj2 (C2_exit_code_precedence quietManager 8080 ScanFirst
                                     ["install"; "lodash"] world0)) _ _ _ _ _) _).
      * right. split; [reflexivity|]. split; [reflexivity|].
        eexists _, _. split; [vm_compute; reflexivity|].
        split; [vm_compute; reflexivity | reflexivity].
      * vm_compute. reflexivity.
      * vm_compute. reflexivity.
    + reflexivity.
Defined.

End ExitCodeExamples.

(** ** Objects *)
Section ObjFacts.
Context {V : Type}.
Implicit Types (o : list (string * V)) (k : string).


Lemma lookup_remove o k k' :
  Obj.lookup (Obj.remove o k) k' =
  if String.eqb k k' then None else Obj.lookup o k'.
Proof.
  unfold Obj.remove. induction o as [|[k0 v0] o IH]; cbn.
  - by destruct (String.eqb k k').
  - destruct (String.eqb k0 k) eqn:E0; cbn.
    + apply String.eqb_eq in E0 as ->. rewrite IH.
      by destruct (String.eqb k k').
    + rewrite IH. destruct (String.eqb k0 k') eqn:E1; [|done].
      apply String.eqb_eq in E1 as ->. by rewrite String.eqb_sym, E0.
Qed.

(** A property found by [lookup] survives a filter that keeps it. *)
Lemma lookup_filter_keep o (f : string * V -> bool) k v :
  Obj.lookup o k = Some v -> f (k, v) = true ->
  Obj.lookup (List.filter f o) k = Some v.
Proof.
  intros Hl Hf. induction o as [|[k' v'] o IH]; cbn in *; [done|].
  destruct (String.eqb_spec k' k) as [->|Hne].
  - injection Hl as ->. rewrite Hf. cbn. by rewrite String.eqb_refl.
  - destruct (f (k', v')); cbn.
    + rewrite (proj2 (String.eqb_neq k' k) Hne). by apply IH.
    + by apply IH.
Qed.


Lemma lookup_set_ne o k k' v :
  k <> k' -> Obj.lookup (Obj.set o k v) k' = Obj.lookup o k'.
Proof.
  intros Hne. induction o as [|[k0 v0] o IH]; cbn.
  - by rewrite (proj2 (String.eqb_neq k k') Hne).
  - destruct (String.eqb_spec k0 k) as [->|Hne0]; cbn.
    + by rewrite (proj2 (String.eqb_neq k k') Hne).
    + by rewrite IH.
Qed.


Lemma In_lookup o k v : In (k, v) o -> exists v', Obj.lookup o k = Some v'.
Proof.
  induction o as [|[k' v'] o IH]; cbn; [done|].
  intros [[= -> ->]|Hin].
  - rewrite String.eqb_refl. by eexists.
  - destruct (String.eqb k' k); [by eexists | by apply IH].
Qed.

End ObjFacts.

(** ** The rewriter (modifyNpmInfo.js) *)
Section RewriterFacts.
Context `{Runtime}.
Import ModifyNpmInfo Rewritten.

Lemma deleteVersionFromJson_run json version (w : World) :
  deleteVersionFromJson json version w
  = (Ok (deleteVersion json version), set_hasSuppressedVersions true w).
Proof. reflexivity. Qed.

Lemma deleteCachingHeaders_twice (headers : option Headers) :
  deleteCachingHeaders (deleteCachingHeaders headers) = deleteCachingHeaders headers.
Proof.
  destruct headers as [h|]; [|done]. cbn. f_equal.
  set (h' := delete "cache-control" (delete "last-modified" (delete "etag" h))).
  assert (He : h' !! "etag" = None).
  { unfold h'. rewrite !lookup_delete_ne by done. apply lookup_delete_eq. }
  assert (Hl : h' !! "last-modified" = None).
  { unfold h'. rewrite lookup_delete_ne by done. apply lookup_delete_eq. }
  assert (Hc : h' !! "cache-control" = None).
  { unfold h'. apply lookup_delete_eq. }
  rewrite (delete_id h' "etag" He), (delete_id h' "last-modified" Hl).
  by rewrite (delete_id h' "cache-control" Hc).
Qed.

(** The loop of the rewriter, in one step: it deletes the entries of its
    list that are newer than the cutoff, in order. *)
Lemma removeTooYoung_run (isExempt : bool) (cutOff : Z)
      (versionList : list (string * string)) (p : Packument)
      (headers : option Headers) (w : World) :
  let removed :=
    if isExempt then []
    else List.map fst (List.filter (fun e => isNewerThan cutOff (snd e)) versionList) in
  removeTooYoung isExempt cutOff versionList p headers w
  = (Ok (deleteVersions p removed, headersAfter removed headers),
     worldAfter removed w).
Proof.
  cbv zeta. revert p headers w.
  induction versionList as [|[version timestamp] rest IH]; intros p headers w.
  - by destruct isExempt.
  - cbn [removeTooYoung]. destruct isExempt; cbn [negb andb].
    + apply (IH p headers w).
    + cbn [List.filter snd]. destruct (isNewerThan cutOff timestamp).
      * erewrite bind_Ok by apply deleteVersionFromJson_run.
        rewrite IH. cbn [List.map fst deleteVersions headersAfter worldAfter].
        destruct (List.map fst (List.filter _ rest)); cbn; [done|].
        by rewrite deleteCachingHeaders_twice.
      * apply IH.
Qed.

(** [rewritePackument] never throws, and computes [rewritten]. *)
Lemma rewritePackument_run (p : Packument) (headers : option Headers) (w : World) :
  rewritePackument p headers w
  = (Ok (rewritten (clock w) p, headersAfter (removedVersions (clock w) p) headers),
     worldAfter (removedVersions (clock w) p) w).
Proof.
  unfold rewritePackument. erewrite bind_Ok by reflexivity.
  erewrite bind_Ok by apply removeTooYoung_run.
  cbn [fst snd]. unfold rewritten, survivor, removedVersions, tooYoung.
  destruct (isPackageExemptFromAgeCheck (name p));
    match goal with |- (if ?c then _ else _) _ = _ => destruct c end; reflexivity.
Qed.

(** The three conditions under which the body is parsed and rewritten. *)
Lemma modifyNpmInfoResponse_run body (headers : option Headers) (p : Packument)
      (w : World) :
  hasJsonContentType headers = true ->
  byteLength body <> 0%Z ->
  JSON_parse body = Some (IsPackument p) ->
  modifyNpmInfoResponse body headers w
  = (Ok (JSON_stringify (rewritten (clock w) p),
         headersAfter (removedVersions (clock w) p) headers),
     worldAfter (removedVersions (clock w) p) w).
Proof.
  intros Hct Hlen Hparse. unfold modifyNpmInfoResponse.
  rewrite Hct, Hparse. cbn [negb].
  rewrite (proj2 (Z.eqb_neq _ _) Hlen).
  erewrite bind_Ok by apply rewritePackument_run. reflexivity.
Qed.

(** In every other case the body and the headers come back as they are. *)
Lemma modifyNpmInfoResponse_untouched body (headers : option Headers) (w : World) :
  hasJsonContentType headers = false
  \/ byteLength body = 0%Z
  \/ JSON_parse body = None
  \/ JSON_parse body = Some OtherJson ->
  modifyNpmInfoResponse body headers w = (Ok (body, headers), w).
Proof.
  unfold modifyNpmInfoResponse.
  intros [Hct | [Hlen | [Hparse | Hparse]]].
  - by rewrite Hct.
  - rewrite Hlen. by destruct (negb (hasJsonContentType headers)).
  - rewrite Hparse. destruct (negb (hasJsonContentType headers)); [done|].
    by destruct (byteLength body =? 0)%Z.
  - rewrite Hparse. destruct (negb (hasJsonContentType headers)); [done|].
    by destruct (byteLength body =? 0)%Z.
Qed.

Lemma In_tooYoung now entries version :
  In version (tooYoung now entries) <->
  exists timestamp,
    In (version, timestamp) entries
    /\ isVersionEntry version = true
    /\ isNewerThan (cutOffAt now) timestamp = true.
Proof.
  unfold tooYoung. rewrite List.in_map_iff. split.
  - intros ([v t] & <- & Hin). rewrite !List.filter_In in Hin. cbn in *.
    exists t. tauto.
  - intros (t & Hin & Hv & Hnew). exists (version, t).
    rewrite !List.filter_In. cbn. tauto.
Qed.

Lemma deleteVersions_name p removed : name (deleteVersions p removed) = name p.
Proof. revert p. induction removed as [|v r IH]; intros p; [done|]. cbn. by rewrite IH. Qed.


Lemma deleteVersions_time p removed version :
  ~ In version removed ->
  Obj.lookup (time (deleteVersions p removed)) version = Obj.lookup (time p) version.
Proof.
  revert p. induction removed as [|v r IH]; intros p Hnot; cbn [deleteVersions]; [done|].
  rewrite IH by (cbn in Hnot; tauto). cbn [time deleteVersion].
  rewrite lookup_remove.
  destruct (String.eqb_spec v version) as [->|]; [|done].
  exfalso. apply Hnot. by left.
Qed.

Lemma deleteVersions_versions p removed version :
  ~ In version removed ->
  Obj.lookup (versions (deleteVersions p removed)) version
  = Obj.lookup (versions p) version.
Proof.
  revert p. induction removed as [|v r IH]; intros p Hnot; cbn [deleteVersions]; [done|].
  rewrite IH by (cbn in Hnot; tauto). cbn [versions deleteVersion].
  rewrite lookup_remove.
  destruct (String.eqb_spec v version) as [->|]; [|done].
  exfalso. apply Hnot. by left.
Qed.

Lemma deleteVersions_dist_tags p removed tag version :
  Obj.lookup (dist_tags p) tag = Some version ->
  ~ In version removed ->
  Obj.lookup (dist_tags (deleteVersions p removed)) tag = Some version.
Proof.
  revert p. induction removed as [|v r IH]; intros p Hl Hnot; cbn [deleteVersions]; [done|].
  apply IH; [|cbn in Hnot; tauto]. cbn [dist_tags deleteVersion].
  apply lookup_filter_keep; [done|]. cbn.
  apply negb_true_iff, String.eqb_neq. intros ->. apply Hnot. by left.
Qed.

Lemma not_removed now (p : Packument) version :
  (forall timestamp,
     In (version, timestamp) (time p) ->
     isNewerThan (cutOffAt now) timestamp = false) ->
  ~ In version (removedVersions now p).
Proof.
  intros Hold. unfold removedVersions.
  destruct (isPackageExemptFromAgeCheck (name p)); [intros []|].
  rewrite In_tooYoung. intros (t & Hin & _ & Hnew).
  rewrite (Hold t Hin) in Hnew. discriminate Hnew.
Qed.

Lemma assignLatest_time p : time (assignLatest p) = time p.
Proof. unfold assignLatest. by destruct (calculateLatestTag (time p)). Qed.

Lemma assignLatest_versions p : versions (assignLatest p) = versions p.
Proof. unfold assignLatest. by destruct (calculateLatestTag (time p)). Qed.

Lemma rewritten_time now p : time (rewritten now p) = time (survivor now p).
Proof.
  unfold rewritten.
  destruct (_ && _); [apply assignLatest_time | done].
Qed.

Lemma rewritten_versions now p : versions (rewritten now p) = versions (survivor now p).
Proof.
  unfold rewritten.
  destruct (_ && _); [apply assignLatest_versions | done].
Qed.

(** A dist-tag that points at a version that is not removed is kept, and
    it is not recomputed. *)
Lemma rewritten_dist_tags_keep now p tag version :
  Obj.lookup (dist_tags p) tag = Some version ->
  ~ In version (removedVersions now p) ->
  Obj.lookup (dist_tags (rewritten now p)) tag = Some version.
Proof.
  intros Hl Hnot.
  pose proof (deleteVersions_dist_tags p _ tag version Hl Hnot) as Hl'.
  fold (survivor now p) in Hl'. unfold rewritten.
  destruct (String.eqb_spec tag "latest") as [->|Hne].
  - rewrite Hl, Hl'. destruct (JS.truthy_opt (Some version)); cbn [andb negb]; exact Hl'.
  - destruct (_ && _); [|done]. unfold assignLatest.
    destruct (calculateLatestTag (time (survivor now p))); [|done].
    cbn [dist_tags]. rewrite lookup_set_ne by done. exact Hl'.
Qed.

(** C10.  When the body is rewritten: a version listed in [versions]
    that has no entry in [time] is still in [versions] of the output,
    with its manifest; and a version none of whose [time] entries is
    newer than the cutoff is left as it was in [time], in [versions],
    and in every dist-tag that points at it. *)
Theorem C10_only_too_young_versions_are_deleted
        body (headers : option Headers) (p : Packument) (w : World) :
  hasJsonContentType headers = true ->
  byteLength body <> 0%Z ->
  JSON_parse body = Some (IsPackument p) ->
  exists out headers' w',
    modifyNpmInfoResponse body headers w = (Ok (JSON_stringify out, headers'), w')
    /\ (forall version manifest,
          Obj.lookup (versions p) version = Some manifest ->
          Obj.lookup (time p) version = None ->
          Obj.lookup (versions out) version = Some manifest)
    /\ (forall version,
          (forall timestamp,
             In (version, timestamp) (time p) ->
             isNewerThan (cutOffAt (clock w)) timestamp = false) ->
          Obj.lookup (time out) version = Obj.lookup (time p) version
          /\ Obj.lookup (versions out) version = Obj.lookup (versions p) version
          /\ forall tag,
               Obj.lookup (dist_tags p) tag = Some version ->
               Obj.lookup (dist_tags out) tag = Some version).
Proof.
  intros Hct Hlen Hparse.
  eexists _, _, _. split; [by apply modifyNpmInfoResponse_run|].
  assert (Hkeep : forall version,
            (forall timestamp,
               In (version, timestamp) (time p) ->
               isNewerThan (cutOffAt (clock w)) timestamp = false) ->
            Obj.lookup (time (rewritten (clock w) p)) version
              = Obj.lookup (time p) version
            /\ Obj.lookup (versions (rewritten (clock w) p)) version
                = Obj.lookup (versions p) version
            /\ forall tag,
                 Obj.lookup (dist_tags p) tag = Some version ->
                 Obj.lookup (dist_tags (rewritten (clock w) p)) tag = Some version).
  { intros version Hold. pose proof (not_removed _ p version Hold) as Hnot.
    rewrite rewritten_time, rewritten_versions. unfold survivor.
    rewrite deleteVersions_time, deleteVersions_versions by done.
    repeat split. intros tag Hl. by apply rewritten_dist_tags_keep. }
  split; [|exact Hkeep].
  intros version manifest Hv Ht.
  destruct (Hkeep version) as (_ & -> & _); [|exact Hv].
  intros timestamp Hin. apply In_lookup in Hin as (t' & Hin).
  rewrite Ht in Hin. discriminate Hin.
Qed.

End RewriterFacts.

Section RewriterExamples.
Import ModifyNpmInfo Rewritten Fixture Examples.

Lemma C10_only_too_young_versions_are_deleted_witness :
  exists out headers' w',
    modifyNpmInfoResponse (Serialized withOrphan) (Some jsonHeaders) world0
      = (Ok (JSON_stringify out, headers'), w')
    /\ (forall version manifest,
          Obj.lookup (versions withOrphan) version = Some manifest ->
          Obj.lookup (time withOrphan) version = None ->
          Obj.lookup (versions out) version = Some manifest)
    /\ (forall version,
          (forall timestamp,
             In (version, timestamp) (time withOrphan) ->
             isNewerThan (cutOffAt (clock world0)) timestamp = false) ->
          Obj.lookup (time out) version = Obj.lookup (time withOrphan) version
          /\ Obj.lookup (versions out) version = Obj.lookup (versions withOrphan) version
          /\ forall tag,
               Obj.lookup (dist_tags withOrphan) tag = Some version ->
               Obj.lookup (dist_tags out) tag = Some version).
Proof.
  apply (@C10_only_too_young_versions_are_deleted runtime
           (Serialized withOrphan) (Some jsonHeaders) withOrphan world0).
  - vm_compute. reflexivity.
  - vm_compute. discriminate.
  - reflexivity.
Defined.

(** The orphan of [withOrphan] is in the output, and the 2-hour-old
    version is not. *)
Example withOrphan_rewritten :
  List.map fst (versions (rewritten (clock world0) withOrphan))
  = ["0.9.0"; "1.0.0"; "2.0.0"]
  /\ dist_tags (rewritten (clock world0) withOrphan)
     = [("stable", "1.0.0"); ("latest", "2.0.0")].
Proof. vm_compute. split; reflexivity. Qed.

End RewriterExamples.

(** ** The response sent to the client (mitmRequestHandler.js) *)
Section Relay.
Context `{Runtime} `{Collaborators}.
Import InterceptorBuilder ModifyNpmInfo Rewritten MitmRequestHandler.

Lemma blockMalwareSetup_quiet url packageName version (w : World) :
  exists ctx' w',
    blockMalwareSetup (createRequestContext url newEventEmitter) packageName version w
      = (Ok ctx', w')
    /\ targetUrl ctx' = url
    /\ modifyBodyFuncs ctx' = [].
Proof.
  unfold blockMalwareSetup, emitter_emit, bind, gets, modify, ret. cbn.
  eexists _, _. repeat split.
Qed.

(** The handlers of the npm interceptor have at most one body modifier,
    the metadata rewriter. *)
Lemma npm_handler_modifiers registry url (w0 w1 : World) handler :
  InterceptorBuilder.handleRequest (NpmInterceptor.buildNpmInterceptor registry) url w0
    = (Ok handler, w1) ->
  exists ctx,
    handler = build ctx
    /\ (modifyBodyFuncs ctx = [] \/ modifyBodyFuncs ctx = [modifyNpmInfoResponse]).
Proof.
  unfold InterceptorBuilder.handleRequest, NpmInterceptor.buildNpmInterceptor,
    interceptRequests, buildInterceptor.
  cbn [requestHandlers interceptorEmitter runHandlers].
  destruct (NpmInterceptor.npmSetup registry (createRequestContext url newEventEmitter) w0)
    as [r w2] eqn:Hsetup.
  assert (Hshape : exists ctx,
             r = Ok ctx
             /\ (modifyBodyFuncs ctx = [] \/ modifyBodyFuncs ctx = [modifyNpmInfoResponse])).
  { unfold NpmInterceptor.npmSetup in Hsetup. cbn [targetUrl createRequestContext] in Hsetup.
    destruct (parseNpmPackageUrl url registry) as [packageName version].
    destruct (isMalwarePackage_frame packageName version w0) as (b & stats & Hfr).
    erewrite bind_Ok in Hsetup by exact Hfr.
    assert (Hctx : exists ctx1 w',
               (if b then blockMalwareSetup (createRequestContext url newEventEmitter)
                                            packageName version
                else ret (createRequestContext url newEventEmitter))
                 (set_auditStats stats w0) = (Ok ctx1, w')
               /\ targetUrl ctx1 = url /\ modifyBodyFuncs ctx1 = []).
    { destruct b; [apply blockMalwareSetup_quiet|].
      eexists _, _. repeat split. }
    destruct Hctx as (ctx1 & w' & Hctx & Hurl & Hfuncs).
    erewrite bind_Ok in Hsetup by exact Hctx.
    erewrite bind_Ok in Hsetup by reflexivity.
    unfold ret in Hsetup.
    destruct (negb (Settings.skipMinimumPackageAge (cli w'))
              && isPackageInfoUrl (targetUrl ctx1));
      cbv beta in Hsetup; injection Hsetup as Hr Hw; subst r w2;
      eexists; (split; [reflexivity|]).
    - right. cbn. by rewrite Hfuncs.
    - by left. }
  destruct Hshape as (ctx & -> & Hfuncs).
  unfold bind, ret. rewrite Hsetup. intros [= <- <-]. by exists ctx.
Qed.

(** What a handler that rewrites npm metadata sends for a packument. *)
Lemma relay_rewritten ctx statusCode (headers : Headers) body buffer
      (p : Packument) (w : World) :
  modifyBodyFuncs ctx = [modifyNpmInfoResponse] ->
  (if isGzip headers then gunzipSync body else Some body) = Some buffer ->
  hasJsonContentType (Some headers) = true ->
  byteLength buffer <> 0%Z ->
  JSON_parse buffer = Some (IsPackument p) ->
  let removed := removedVersions (clock w) p in
  let headers' := default headers (headersAfter removed (Some headers)) in
  relayResponse (build ctx)
    {| up_statusCode := Some statusCode; up_headers := headers; up_body := body |} w
  = (Ok (Relayed statusCode headers'
           (if isGzip headers' then gzipSync (JSON_stringify (rewritten (clock w) p))
            else JSON_stringify (rewritten (clock w) p))),
     worldAfter removed w).
Proof.
  intros Hfuncs Hgunzip Hct Hlen Hparse. cbv zeta.
  unfold relayResponse. cbn [up_statusCode up_headers up_body build modifiesResponse modifyBody].
  rewrite Hfuncs. change (0 <? Z.of_nat (List.length [modifyNpmInfoResponse]))%Z with true.
  cbv iota.
  erewrite bind_Ok with (a := buffer) (w' := w).
  2:{ destruct (isGzip headers); [rewrite Hgunzip|injection Hgunzip as ->]; reflexivity. }
  erewrite bind_Ok.
  2:{ cbn [modifyBodyLoop]. erewrite bind_Ok by (by apply modifyNpmInfoResponse_run).
      reflexivity. }
  reflexivity.
Qed.

(** C7.  For a response that the npm interceptor's handler rewrites and
    whose body is a packument: if the rewriter removes at least one
    version, the headers sent to the client are the upstream headers
    without [etag], [last-modified] and [cache-control]; if it removes
    none, and so for every exempt package whatever the age of its
    versions, they are the upstream headers. *)
Theorem C7_caching_headers
        registry url (w0 w1 : World) handler
        statusCode (headers : Headers) body buffer (p : Packument) (w : World) :
  InterceptorBuilder.handleRequest (NpmInterceptor.buildNpmInterceptor registry) url w0
    = (Ok handler, w1) ->
  modifiesResponse handler tt = true ->
  (if isGzip headers then gunzipSync body else Some body) = Some buffer ->
  hasJsonContentType (Some headers) = true ->
  byteLength buffer <> 0%Z ->
  JSON_parse buffer = Some (IsPackument p) ->
  exists headers' out w',
    relayResponse handler
      {| up_statusCode := Some statusCode; up_headers := headers; up_body := body |} w
    = (Ok (Relayed statusCode headers' out), w')
    /\ (removedVersions (clock w) p <> [] ->
        headers' = delete "cache-control" (delete "last-modified" (delete "etag" headers)))
    /\ (removedVersions (clock w) p = [] -> headers' = headers)
    /\ (isPackageExemptFromAgeCheck (name p) = true -> headers' = headers).
Proof.
  intros Hrun Hmod Hgunzip Hct Hlen Hparse.
  destruct (npm_handler_modifiers registry url w0 w1 handler Hrun)
    as (ctx & -> & [Hnone | Hone]).
  { cbn in Hmod. rewrite Hnone in Hmod. discriminate Hmod. }
  eexists _, _, _. split.
  { by apply (relay_rewritten ctx statusCode headers body buffer p w). }
  assert (Hintact : removedVersions (clock w) p = [] ->
                    default headers (headersAfter (removedVersions (clock w) p)
                                                  (Some headers)) = headers).
  { by intros ->. }
  split; [|split; [exact Hintact|]].
  - destruct (removedVersions (clock w) p); [done|]. reflexivity.
  - intros Hexempt. apply Hintact. unfold removedVersions. by rewrite Hexempt.
Qed.

End Relay.

Section RelayExamples.
Import InterceptorBuilder ModifyNpmInfo Rewritten MitmRequestHandler Fixture Examples.

Lemma lodash_request_is_rewritten :
  exists ctx w1,
    InterceptorBuilder.handleRequest
      (NpmInterceptor.buildNpmInterceptor "registry.npmjs.org") lodashUrl world0
    = (Ok (build ctx), w1)
    /\ modifyBodyFuncs ctx = [modifyNpmInfoResponse].
Proof.
  destruct (InterceptorBuilder.handleRequest
              (NpmInterceptor.buildNpmInterceptor "registry.npmjs.org") lodashUrl world0)
    as [r w1] eqn:Hrun.
  unfold InterceptorBuilder.handleRequest, NpmInterceptor.buildNpmInterceptor,
    interceptRequests, buildInterceptor in Hrun.
  cbn [requestHandlers interceptorEmitter runHandlers] in Hrun.
  unfold NpmInterceptor.npmSetup in Hrun.
  cbn [targetUrl createRequestContext] in Hrun.
  replace (parseNpmPackageUrl lodashUrl "registry.npmjs.org")
    with (@None string, @None string) in Hrun by (vm_compute; reflexivity).
  replace (isPackageInfoUrl lodashUrl) with true in Hrun by (vm_compute; reflexivity).
  cbn in Hrun. injection Hrun as <- <-.
  eexists _, _. split; reflexivity.
Qed.

Lemma C7_caching_headers_witness :
  exists handler w1,
    InterceptorBuilder.handleRequest
      (NpmInterceptor.buildNpmInterceptor "registry.npmjs.org") lodashUrl world0
    = (Ok handler, w1)
    /\ exists headers' out w',
         relayResponse handler
           {| up_statusCode := Some 200%Z; up_headers := jsonHeaders;
              up_body := Serialized lodash |} world0
         = (Ok (Relayed 200 headers' out), w')
         /\ (removedVersions (clock world0) lodash <> [] ->
             headers' = delete "cache-control"
                          (delete "last-modified" (delete "etag" jsonHeaders)))
         /\ (removedVersions (clock world0) lodash = [] -> headers' = jsonHeaders)
         /\ (isPackageExemptFromAgeCheck (name lodash) = true -> headers' = jsonHeaders).
Proof.
  destruct lodash_request_is_rewritten as (ctx & w1 & Hrun & Hfuncs).
  exists (build ctx), w1. split; [exact Hrun|].
  apply (@C7_caching_headers runtime collaborators "registry.npmjs.org" lodashUrl
           world0 w1 (build ctx) 200%Z jsonHeaders (Serialized lodash)
           (Serialized lodash) lodash world0 Hrun).
  - cbn. by rewrite Hfuncs.
  - reflexivity.
  - vm_compute. reflexivity.
  - vm_compute. discriminate.
  - reflexivity.
Defined.

End RelayExamples.

(** ** Strings *)
Section StringFacts.

Lemma app_cons (c : ascii) (a b : string) :
  (String c a ++ b)%string = String c (a ++ b).
Proof. reflexivity. Qed.

Lemma app_empty (b : string) : (EmptyString ++ b)%string = b.
Proof. reflexivity. Qed.

Lemma prefix_app (p s : string) : String.prefix p (p ++ s) = true.
Proof.
  induction p as [|c p IH]; [by destruct s|].
  rewrite app_cons. cbn. destruct (ascii_dec c c); [exact IH | done].
Qed.

Lemma prefix_spec (p s : string) :
  String.prefix p s = true <-> exists rest, s = (p ++ rest)%string.
Proof.
  split.
  - revert s. induction p as [|c p IH]; intros s.
    + intros _. by exists s.
    + destruct s as [|d s]; cbn; [done|].
      destruct (ascii_dec c d) as [->|]; [|done].
      intros Hp. destruct (IH s Hp) as (rest & ->). by exists rest.
  - intros (rest & ->). apply prefix_app.
Qed.

Lemma toLowerCase_app (a b : string) :
  JS.toLowerCase (a ++ b) = (JS.toLowerCase a ++ JS.toLowerCase b)%string.
Proof.
  induction a as [|c a IH]; [done|].
  rewrite app_cons. cbn. by rewrite IH.
Qed.

Lemma toLowerCase_length (s : string) :
  String.length (JS.toLowerCase s) = String.length s.
Proof. induction s as [|c s IH]; cbn; [done|]. by rewrite IH. Qed.

Lemma lower_char_idemp (c : ascii) : JS.lower_char (JS.lower_char c) = JS.lower_char c.
Proof. by destruct c as [[] [] [] [] [] [] [] []]. Qed.

Lemma toLowerCase_idemp (s : string) :
  JS.toLowerCase (JS.toLowerCase s) = JS.toLowerCase s.
Proof.
  induction s as [|c s IH]; cbn; [done|]. by rewrite lower_char_idemp, IH.
Qed.

Lemma substring_all (s : string) : String.substring 0 (String.length s) s = s.
Proof. induction s as [|c s IH]; cbn; [done|]. by rewrite IH. Qed.

Lemma substring_skip (p s : string) (n : nat) :
  String.substring (String.length p) n (p ++ s) = String.substring 0 n s.
Proof. induction p as [|c p IH]; [done|]. rewrite app_cons. cbn. exact IH. Qed.

Lemma substring_take (p s : string) :
  String.substring 0 (String.length p) (p ++ s) = p.
Proof.
  induction p as [|c p IH]; [by destruct s|].
  rewrite app_cons. cbn. by rewrite IH.
Qed.

Lemma length_app (a b : string) :
  String.length (a ++ b) = (String.length a + String.length b)%nat.
Proof. induction a as [|c a IH]; [done|]. rewrite app_cons. cbn. by rewrite IH. Qed.

(** [(p + s).substring(p.length)] is [s]. *)
Lemma slice_from_app (p s : string) : JS.slice_from (p ++ s) (JS.len p) = s.
Proof.
  unfold JS.slice_from, JS.slice, JS.clamp, JS.len.
  rewrite length_app.
  replace (Z.of_nat (String.length p) <? 0)%Z with false by (symmetry; apply Z.ltb_ge; lia).
  replace (Z.of_nat (String.length p + String.length s) <? 0)%Z
    with false by (symmetry; apply Z.ltb_ge; lia).
  rewrite Z.min_l, Z.min_l by lia. rewrite !Nat2Z.id.
  replace (String.length p + String.length s - String.length p)%nat
    with (String.length s) by lia.
  rewrite substring_skip. apply substring_all.
Qed.

End StringFacts.

(** ** The wrapper's flags (cliArguments.js, settings.js) *)
Section CliFacts.
Import CliArguments.

(** X1.  [initializeCliArguments] starts from a reset state: what it
    returns and the state it leaves do not depend on the state left by
    an earlier call. *)
Theorem initializeCliArguments_resets (args : list string) (st1 st2 : State) :
  initializeCliArguments args st1 = initializeCliArguments args st2.
Proof.
  unfold initializeCliArguments. f_equal.
  unfold setIncludePython, setMinimumPackageAgeHours, setSkipMinimumPackageAge,
    setLoggingLevel.
  repeat match goal with
         | |- context [match ?x with _ => _ end] => destruct x
         end; reflexivity.
Qed.

Lemma existsb_filter {A} (f g : A -> bool) (l : list A) :
  (forall a, f a = true -> g a = true) ->
  List.existsb f (List.filter g l) = List.existsb f l.
Proof.
  intros Himp. induction l as [|a l IH]; cbn; [done|].
  destruct (g a) eqn:Hg; cbn; rewrite IH; [done|].
  destruct (f a) eqn:Hf; [|done]. by rewrite (Himp a Hf) in Hg.
Qed.

Lemma skip_flag_is_wrapper_flag (a : string) :
  String.eqb (JS.toLowerCase a)
             (JS.toLowerCase (SAFE_CHAIN_ARG_PREFIX ++ "skip-minimum-package-age")) = true ->
  isSafeChainArg a = true.
Proof.
  intros Heq. apply String.eqb_eq in Heq. unfold isSafeChainArg. by rewrite Heq.
Qed.

Lemma setLoggingLevel_skip args st :
  skipMinimumPackageAge (setLoggingLevel args st) = skipMinimumPackageAge st.
Proof.
  unfold setLoggingLevel.
  destruct (getLastArgEqualsValue _ _) as [l|]; [|done]. by destruct (JS.truthy l).
Qed.

Lemma setMinimumPackageAgeHours_skip args st :
  skipMinimumPackageAge (setMinimumPackageAgeHours args st) = skipMinimumPackageAge st.
Proof. unfold setMinimumPackageAgeHours. by destruct (JS.truthy_opt _). Qed.

(** X2.  For arguments written in ASCII characters, the age filter is
    switched off exactly when some argument is
    [--safe-chain-skip-minimum-package-age], in any letter case. *)
Theorem skipMinimumPackageAge_iff_flag (args : list string) (st : State) :
  List.forallb JS.isAscii args = true ->
  Settings.skipMinimumPackageAge (snd (initializeCliArguments args st))
  = List.existsb
      (fun a => String.eqb (JS.toLowerCase a) "--safe-chain-skip-minimum-package-age")
      args.
Proof.
  intros _. unfold initializeCliArguments. cbn [snd].
  unfold Settings.skipMinimumPackageAge, getSkipMinimumPackageAge, setIncludePython.
  cbn [skipMinimumPackageAge].
  rewrite setMinimumPackageAgeHours_skip.
  unfold setSkipMinimumPackageAge, hasFlagArg.
  rewrite (existsb_filter _ isSafeChainArg args skip_flag_is_wrapper_flag).
  change (JS.toLowerCase (SAFE_CHAIN_ARG_PREFIX ++ "skip-minimum-package-age"))
    with "--safe-chain-skip-minimum-package-age".
  destruct (List.existsb _ args); cbn [skipMinimumPackageAge]; [done|].
  by rewrite setLoggingLevel_skip.
Qed.

Lemma skipMinimumPackageAge_iff_flag_witness :
  Settings.skipMinimumPackageAge
    (snd (initializeCliArguments
            ["install"; "--Safe-Chain-Skip-Minimum-Package-Age"; "lodash"] initial))
  = true.
Proof.
  rewrite (skipMinimumPackageAge_iff_flag
             ["install"; "--Safe-Chain-Skip-Minimum-Package-Age"; "lodash"] initial)
    by reflexivity.
  reflexivity.
Defined.

(** X3.  [--include-python] is recorded and, having no wrapper prefix,
    is still among the arguments forwarded to the child. *)
Theorem includePython_is_forwarded (args : list string) (st : State) (a : string) :
  In a args ->
  JS.toLowerCase a = "--include-python" ->
  includePython (snd (initializeCliArguments args st)) = true
  /\ In a (fst (initializeCliArguments args st)).
Proof.
  intros Hin Hlow. unfold initializeCliArguments. cbn [fst snd]. split.
  - unfold setIncludePython. cbn [includePython]. unfold hasFlagArg.
    apply List.existsb_exists. exists a. split; [exact Hin|].
    by rewrite Hlow.
  - apply List.filter_In. split; [exact Hin|].
    unfold isSafeChainArg. by rewrite Hlow.
Qed.

Lemma includePython_is_forwarded_witness :
  includePython (snd (initializeCliArguments ["setup-ci"; "--Include-Python"] initial)) = true
  /\ In "--Include-Python" (fst (initializeCliArguments ["setup-ci"; "--Include-Python"] initial)).
Proof.
  apply (includePython_is_forwarded ["setup-ci"; "--Include-Python"] initial
           "--Include-Python").
  - right. left. reflexivity.
  - reflexivity.
Defined.

Lemma setSkipMinimumPackageAge_logging args st :
  loggingLevel (setSkipMinimumPackageAge args st) = loggingLevel st.
Proof. unfold setSkipMinimumPackageAge. by destruct (hasFlagArg _ _). Qed.

Lemma setMinimumPackageAgeHours_logging args st :
  loggingLevel (setMinimumPackageAgeHours args st) = loggingLevel st.
Proof. unfold setMinimumPackageAgeHours. by destruct (JS.truthy_opt _). Qed.

(** The value of the last [prefix=value] argument, when the list ends
    with one. *)
Lemma getLastArgEqualsValue_last (args : list string) (prefix value : string) :
  JS.toLowerCase prefix = prefix ->
  getLastArgEqualsValue (args ++ [(prefix ++ value)%string]) prefix = Some value.
Proof.
  intros Hlow. unfold getLastArgEqualsValue.
  rewrite List.rev_app_distr. cbn [List.rev List.app List.find].
  unfold JS.startsWith. rewrite toLowerCase_app, Hlow, prefix_app.
  by rewrite slice_from_app.
Qed.

(** X4.  When the last argument is [--safe-chain-logging=<value>], with
    a [value] written in ASCII characters, the logging level is [value]
    in lower case, whatever the earlier arguments say; an empty [value]
    gives the default [silent], also when an earlier argument asked for
    another level.  settings.js then maps every level other than
    [silent] and [verbose] to [normal]. *)
Theorem logging_last_flag_wins (args : list string) (value : string) (st : State) :
  JS.isAscii value = true ->
  let st' :=
    snd (initializeCliArguments
           (args ++ [("--safe-chain-logging=" ++ value)%string]) st) in
  getLoggingLevel st'
    = Some (if JS.truthy value then JS.toLowerCase value else "silent")
  /\ Settings.getLoggingLevel st'
     = if JS.truthy value
       then if String.eqb (JS.toLowerCase value) "silent" then "silent"
            else if String.eqb (JS.toLowerCase value) "verbose" then "verbose"
            else "normal"
       else "silent".
Proof.
  intros _. cbv zeta.
  assert (Hlevel :
    getLoggingLevel
      (snd (initializeCliArguments
              (args ++ [("--safe-chain-logging=" ++ value)%string]) st))
    = Some (if JS.truthy value then JS.toLowerCase value else "silent")).
  { unfold initializeCliArguments, getLoggingLevel. cbn [snd].
    unfold setIncludePython. cbn [loggingLevel].
    rewrite setMinimumPackageAgeHours_logging, setSkipMinimumPackageAge_logging.
    rewrite List.filter_app. cbn [List.filter].
    assert (Hsafe : isSafeChainArg ("--safe-chain-logging=" ++ value) = true).
    { unfold isSafeChainArg, JS.startsWith. rewrite toLowerCase_app.
      change (JS.toLowerCase "--safe-chain-logging=" ++ JS.toLowerCase value)%string
        with (SAFE_CHAIN_ARG_PREFIX ++ ("logging=" ++ JS.toLowerCase value))%string.
      apply prefix_app. }
    rewrite Hsafe. unfold setLoggingLevel.
    change (SAFE_CHAIN_ARG_PREFIX ++ "logging=")%string with "--safe-chain-logging=".
    rewrite getLastArgEqualsValue_last by reflexivity.
    by destruct (JS.truthy value). }
  split; [exact Hlevel|].
  unfold Settings.getLoggingLevel. rewrite Hlevel.
  destruct (JS.truthy value); reflexivity.
Qed.

Lemma logging_last_flag_wins_witness :
  getLoggingLevel
    (snd (initializeCliArguments
            (["--safe-chain-logging=silent"; "install"]
               ++ [("--safe-chain-logging=" ++ "VERBOSE")%string]) initial))
  = Some "verbose".
Proof.
  exact (proj1 (logging_last_flag_wins ["--safe-chain-logging=silent"; "install"]
                  "VERBOSE" initial eq_refl)).
Defined.

End CliFacts.

(** ** Audits (scanning/audit/index.js) *)
Section AuditFacts.
Context `{Collaborators}.
Import Audit Audited.

Lemma set_auditStats_same (w : World) : set_auditStats (auditStats w) w = w.
Proof. by destruct w. Qed.

Lemma addCounts_zero s : addCounts 0 0 0 s = s.
Proof.
  destruct s. unfold addCounts.
  cbn [totalPackages safePackages malwarePackages Z.of_nat].
  by rewrite !Z.add_0_r.
Qed.

Lemma auditLoop_run found (changes : list PackageChange) allowed disallowed (w : World) :
  (forall pkg, In pkg found -> mp_status pkg = MALWARE_STATUS_MALWARE) ->
  auditLoop found changes (allowed, disallowed) w
  = (Ok (allowed ++ List.filter (fun c => negb (hit found c)) changes,
         disallowed ++ List.map (fun c => (c, MALWARE_STATUS_MALWARE))
                                (List.filter (hit found) changes)),
     set_auditStats
       (addCounts (List.length changes)
                  (List.length (List.filter (fun c => negb (hit found c)) changes))
                  (List.length (List.filter (hit found) changes))
                  (auditStats w)) w).
Proof.
  intros Hstatus. revert allowed disallowed w.
  induction changes as [|c cs IH]; intros allowed disallowed w.
  - cbn. rewrite !List.app_nil_r, addCounts_zero, set_auditStats_same. reflexivity.
  - cbn [auditLoop List.filter].
    destruct (hit found c) eqn:Hhit; unfold hit in Hhit;
      destruct (List.find _ found) as [pkg|] eqn:Hfind; try discriminate Hhit;
      cbn [negb List.map List.length].
    + pose proof (Hstatus pkg (proj1 (List.find_some _ _ Hfind))) as Hst.
      erewrite bind_Ok;
        [|unfold auditOne; rewrite Hfind; unfold bind, modify, ret; reflexivity].
      rewrite IH. rewrite <- !List.app_assoc. cbn [List.app]. rewrite Hst.
      f_equal. unfold set_auditStats, addCounts.
      cbn [auditStats totalPackages safePackages malwarePackages clock cli ecoSystem
           hasSuppressedVersions port blockedRequests emitted spawned].
      f_equal. f_equal; lia.
    + erewrite bind_Ok;
        [|unfold auditOne; rewrite Hfind; unfold bind, modify, ret; reflexivity].
      rewrite IH. rewrite <- !List.app_assoc. cbn [List.app].
      f_equal. unfold set_auditStats, addCounts.
      cbn [auditStats totalPackages safePackages malwarePackages clock cli ecoSystem
           hasSuppressedVersions port blockedRequests emitted spawned].
      f_equal. f_equal; lia.
Qed.

Lemma existsb_map {A B} (f : B -> bool) (g : A -> B) (l : list A) :
  List.existsb f (List.map g l) = List.existsb (fun a => f (g a)) l.
Proof. induction l as [|a l IH]; cbn; [done|]. by rewrite IH. Qed.

Lemma existsb_filter_and {A} (f p : A -> bool) (l : list A) :
  List.existsb f (List.filter p l) = List.existsb (fun a => p a && f a) l.
Proof.
  induction l as [|a l IH]; cbn; [done|].
  destruct (p a); cbn; by rewrite IH.
Qed.

Lemma hit_existsb found change :
  hit found change
  = List.existsb (fun pkg => String.eqb (mp_name pkg) (pc_name change)
                             && String.eqb (mp_version pkg) (pc_version change))
                 found.
Proof.
  unfold hit. induction found as [|pkg found IH]; cbn; [done|].
  destruct (_ && _); [done | exact IH].
Qed.

Lemma getPackagesWithMalware_map (changes : list PackageChange) :
  getPackagesWithMalware changes
  = List.map (fun c => {| mp_name := pc_name c; mp_version := pc_version c;
                          mp_status := MALWARE_STATUS_MALWARE |})
             (List.filter (fun c => isMalware (pc_name c) (pc_version c)) changes).
Proof. by destruct changes. Qed.

Lemma hit_flagged (changes : list PackageChange) (change : PackageChange) :
  hit (getPackagesWithMalware (List.filter isAddOrChange changes)) change
  = flagged changes change.
Proof.
  rewrite hit_existsb, getPackagesWithMalware_map, existsb_map.
  rewrite !existsb_filter_and. unfold flagged. cbn [mp_name mp_version].
  induction changes as [|c cs IH]; cbn; [done|]. rewrite IH. f_equal.
  by rewrite !andb_assoc.
Qed.

Lemma filter_ext_eq {A} (f g : A -> bool) (l : list A) :
  (forall a, f a = g a) -> List.filter f l = List.filter g l.
Proof. intros Heq. induction l as [|a l IH]; cbn; [done|]. by rewrite Heq, IH. Qed.

(** [auditChanges] in one step. *)
Lemma auditChanges_run (changes : list PackageChange) (w : World) :
  let allowed := List.filter (fun c => negb (flagged changes c)) changes in
  let disallowed := List.filter (flagged changes) changes in
  auditChanges changes w
  = (Ok {| allowedChanges := allowed;
           disallowedChanges :=
             List.map (fun c => (c, MALWARE_STATUS_MALWARE)) disallowed;
           isAllowed := (Z.of_nat (List.length disallowed) =? 0)%Z |},
     set_auditStats
       (addCounts (List.length changes) (List.length allowed)
                  (List.length disallowed) (auditStats w)) w).
Proof.
  cbv zeta. unfold auditChanges.
  erewrite bind_Ok.
  2:{ apply auditLoop_run. intros pkg Hin.
      rewrite getPackagesWithMalware_map in Hin.
      apply List.in_map_iff in Hin as (c & <- & _). reflexivity. }
  cbn [fst snd List.app].
  rewrite (filter_ext_eq _ (flagged changes) changes (hit_flagged changes)).
  rewrite (filter_ext_eq _ (fun c => negb (flagged changes c)) changes
             (fun c => f_equal negb (hit_flagged changes c))).
  by rewrite List.length_map.
Qed.

(** X5.  An audit that returns has changed nothing but the counters:
    [totalPackages] has grown by the number of changes, [safePackages]
    by the number of allowed and [malwarePackages] by the number of
    disallowed changes; every change is counted once, so the difference
    between the total and the two other counters stays what it was. *)
Theorem auditChanges_counters (changes : list PackageChange) (w w' : World)
        (audit : AuditResult) :
  auditChanges changes w = (Ok audit, w') ->
  exists stats,
    w' = set_auditStats stats w
    /\ totalPackages stats
       = (totalPackages (auditStats w) + Z.of_nat (List.length changes))%Z
    /\ safePackages stats
       = (safePackages (auditStats w)
          + Z.of_nat (List.length (allowedChanges audit)))%Z
    /\ malwarePackages stats
       = (malwarePackages (auditStats w)
          + Z.of_nat (List.length (disallowedChanges audit)))%Z
    /\ (List.length (allowedChanges audit) + List.length (disallowedChanges audit)
        = List.length changes)%nat
    /\ (totalPackages stats - safePackages stats - malwarePackages stats
        = totalPackages (auditStats w) - safePackages (auditStats w)
          - malwarePackages (auditStats w))%Z.
Proof.
  intros Hrun. rewrite auditChanges_run in Hrun. injection Hrun as <- <-.
  eexists. split; [reflexivity|].
  cbn [allowedChanges disallowedChanges addCounts totalPackages safePackages
       malwarePackages].
  rewrite List.length_map.
  assert (Hlen : (List.length (List.filter (fun c => negb (flagged changes c)) changes)
                  + List.length (List.filter (flagged changes) changes)
                  = List.length changes)%nat).
  { generalize (flagged changes). intros f.
    induction changes as [|c cs IH]; cbn; [done|].
    destruct (f c); cbn; lia. }
  repeat split; try reflexivity; [exact Hlen | lia].
Qed.

(** X6.  The disallowed changes are the changes, of any type, whose
    name and version are those of an added or changed package of the
    batch that the database reports, each with the reason [malware];
    all other changes are allowed, in their order; and [isAllowed]
    holds exactly when nothing is disallowed. *)
Theorem auditChanges_result (changes : list PackageChange) (w : World) :
  exists audit w',
    auditChanges changes w = (Ok audit, w')
    /\ allowedChanges audit = List.filter (fun c => negb (flagged changes c)) changes
    /\ disallowedChanges audit
       = List.map (fun c => (c, MALWARE_STATUS_MALWARE))
                  (List.filter (flagged changes) changes)
    /\ (isAllowed audit = true <-> disallowedChanges audit = []).
Proof.
  eexists _, _. split; [apply auditChanges_run|].
  cbn [allowedChanges disallowedChanges isAllowed].
  repeat split.
  - intros Hz. apply Z.eqb_eq in Hz.
    destruct (List.filter (flagged changes) changes); [done|]. cbn in Hz. lia.
  - intros Hnil. destruct (List.filter (flagged changes) changes); [done|].
    discriminate Hnil.
Qed.

(** X7.  A batch of removals is allowed whatever the database says:
    only added and changed packages are looked up. *)
Theorem auditChanges_removals_allowed (changes : list PackageChange) (w : World) :
  (forall c, In c changes -> isAddOrChange c = false) ->
  exists audit w',
    auditChanges changes w = (Ok audit, w')
    /\ isAllowed audit = true
    /\ allowedChanges audit = changes
    /\ disallowedChanges audit = [].
Proof.
  intros Hrem.
  assert (Hnone : forall c, flagged changes c = false).
  { intros c. unfold flagged. apply not_true_is_false. intros Hex.
    apply List.existsb_exists in Hex as (c' & Hin & Hc').
    rewrite (Hrem c' Hin) in Hc'. discriminate Hc'. }
  eexists _, _. split; [apply auditChanges_run|].
  cbn [allowedChanges disallowedChanges isAllowed].
  assert (Hd : List.filter (flagged changes) changes = []).
  { generalize changes at 2. intros l. induction l as [|c l IH]; cbn; [done|].
    by rewrite Hnone. }
  assert (Ha : List.filter (fun c => negb (flagged changes c)) changes = changes).
  { generalize changes at 2 3. intros l. induction l as [|c l IH]; cbn; [done|].
    by rewrite Hnone, IH. }
  rewrite Hd, Ha. repeat split.
Qed.

(** [isMalwarePackage] audits a batch of one added package. *)
Lemma isMalwarePackage_one (name version : option string) (w : World) :
  isMalwarePackage name version w
  = match name, version with
    | Some n, Some v =>
        if JS.truthy n && JS.truthy v
        then (Ok (isMalware n v),
              set_auditStats
                (addCounts 1 (if isMalware n v then 0 else 1)
                           (if isMalware n v then 1 else 0) (auditStats w)) w)
        else (Ok false, w)
    | _, _ => (Ok false, w)
    end.
Proof.
  unfold isMalwarePackage.
  destruct name as [n|], version as [v|]; try reflexivity.
  destruct (JS.truthy n), (JS.truthy v); cbn [negb orb andb]; try reflexivity.
  erewrite bind_Ok by apply auditChanges_run.
  unfold flagged, isAddOrChange.
  cbn [List.filter List.existsb pc_name pc_version pc_type isAllowed List.length].
  rewrite !String.eqb_refl.
  destruct (isMalware n v); reflexivity.
Qed.

(** X8.  The check of the proxy.  Without a name or a version, or with
    an empty one, it answers false and counts nothing, before anything
    is looked up.  Otherwise, when it returns, it answers what the
    database answers for this name and version and has counted one
    package, as safe or as malware. *)
Theorem isMalwarePackage_run (w : World) :
  (forall name version,
     JS.truthy_opt name && JS.truthy_opt version = false ->
     isMalwarePackage name version w = (Ok false, w))
  /\ (forall n v answer w',
        JS.truthy n && JS.truthy v = true ->
        isMalwarePackage (Some n) (Some v) w = (Ok answer, w') ->
        answer = isMalware n v
        /\ w' = set_auditStats
                  (addCounts 1 (if isMalware n v then 0 else 1)
                             (if isMalware n v then 1 else 0) (auditStats w)) w).
Proof.
  split.
  - intros name version Hguard. rewrite isMalwarePackage_one.
    destruct name as [n|], version as [v|]; try reflexivity.
    cbn [JS.truthy_opt] in Hguard. by rewrite Hguard.
  - intros n v answer w' Hguard Hrun.
    rewrite isMalwarePackage_one, Hguard in Hrun. by injection Hrun as <- <-.
Qed.

End AuditFacts.

Section AuditExamples.
Import Audit Audited Fixture Examples.

Lemma auditChanges_counters_witness :
  exists audit w',
    auditChanges [maliciousChange;
                  {| pc_name := "lodash"; pc_version := "4.17.21"; pc_type := "add" |}]
                 world0 = (Ok audit, w')
    /\ exists stats,
         w' = set_auditStats stats world0
         /\ totalPackages stats = (totalPackages (auditStats world0) + 2)%Z
         /\ safePackages stats
            = (safePackages (auditStats world0)
               + Z.of_nat (List.length (allowedChanges audit)))%Z
         /\ malwarePackages stats
            = (malwarePackages (auditStats world0)
               + Z.of_nat (List.length (disallowedChanges audit)))%Z
         /\ (List.length (allowedChanges audit)
             + List.length (disallowedChanges audit) = 2)%nat
         /\ (totalPackages stats - safePackages stats - malwarePackages stats
             = totalPackages (auditStats world0) - safePackages (auditStats world0)
               - malwarePackages (auditStats world0))%Z.
Proof.
  eexists _, _. split; [vm_compute; reflexivity|].
  eapply (auditChanges_counters
            [maliciousChange;
             {| pc_name := "lodash"; pc_version := "4.17.21"; pc_type := "add" |}]
            world0).
  vm_compute. reflexivity.
Defined.

Lemma isMalwarePackage_run_witness :
  isMalwarePackage (Some "lodash") None world0 = (Ok false, world0)
  /\ exists w',
       isMalwarePackage (Some "malicious-package") (Some "1.0.0") world0
         = (Ok true, w')
       /\ true = isMalware "malicious-package" "1.0.0"
       /\ w' = set_auditStats
                 (addCounts 1 (if isMalware "malicious-package" "1.0.0" then 0 else 1)
                            (if isMalware "malicious-package" "1.0.0" then 1 else 0)
                            (auditStats world0)) world0.
Proof.
  split.
  - apply (proj1 (isMalwarePackage_run world0) (Some "lodash") None). reflexivity.
  - eexists. split; [vm_compute; reflexivity|].
    apply (proj2 (isMalwarePackage_run world0) "malicious-package" "1.0.0" true _
             eq_refl).
    vm_compute. reflexivity.
Defined.

Lemma auditChanges_removals_allowed_witness :
  exists audit w',
    auditChanges
      [ {| pc_name := "malicious-package"; pc_version := "1.0.0"; pc_type := "remove" |} ]
      world0 = (Ok audit, w')
    /\ isAllowed audit = true
    /\ allowedChanges audit
       = [ {| pc_name := "malicious-package"; pc_version := "1.0.0"; pc_type := "remove" |} ]
    /\ disallowedChanges audit = [].
Proof.
  apply (auditChanges_removals_allowed
           [ {| pc_name := "malicious-package"; pc_version := "1.0.0";
                pc_type := "remove" |} ] world0).
  intros c [<-|[]]. reflexivity.
Defined.

End AuditExamples.

(** ** Requests that pass (interceptorBuilder.js and the interceptors) *)
Section PassingRequests.
Context `{Runtime} `{Collaborators}.
Import InterceptorBuilder Intercepted.

(** X9.  Request-header modifiers accumulate: each works in place on
    the headers object, so one registered later sees what the ones
    before it left.  Without headers nothing is applied and the result
    is [undefined]. *)
Theorem modifyRequestHeaders_accumulates (ctx : RequestInterceptionContext)
        (func : HeaderFn) (headers : Headers) :
  modifyRequestHeaders (build (ctx_modifyRequestHeaders ctx func)) (Some headers)
  = func <$> modifyRequestHeaders (build ctx) (Some headers)
  /\ modifyRequestHeaders (build (ctx_modifyRequestHeaders ctx func)) None = None.
Proof.
  split; [|reflexivity]. cbn. by rewrite List.fold_left_app.
Qed.

Lemma isMalwarePackage_reported packageName version (w : World) :
  exists stats,
    Audit.isMalwarePackage packageName version w
    = (Ok (reported packageName version), set_auditStats stats w).
Proof.
  rewrite isMalwarePackage_one. unfold reported.
  destruct packageName as [n|], version as [v|];
    try (exists (auditStats w); by rewrite set_auditStats_same).
  destruct (JS.truthy n && JS.truthy v); cbn [andb].
  - by eexists.
  - exists (auditStats w). by rewrite set_auditStats_same.
Qed.

(** The setup of the npm interceptor in one step. *)
Lemma npmSetup_run registry url (w : World) packageName version :
  parseNpmPackageUrl url registry = (packageName, version) ->
  exists stats,
    let w1 := set_auditStats stats w in
    NpmInterceptor.npmSetup registry (createRequestContext url newEventEmitter) w
    = (Ok (npmContext url (reported packageName version)
             (negb (Settings.skipMinimumPackageAge (cli w))
              && ModifyNpmInfo.isPackageInfoUrl url)),
       if reported packageName version
       then set_emitted
              (emitted w ++
                 [Examples.malwareBlockedEvent packageName version url (clock w)]) w1
       else w1).
Proof.
  intros Hparse.
  destruct (isMalwarePackage_reported packageName version w) as (stats & Hcheck).
  exists stats. cbv zeta.
  unfold NpmInterceptor.npmSetup. cbn [targetUrl createRequestContext].
  rewrite Hparse. erewrite bind_Ok by exact Hcheck.
  destruct (reported packageName version).
  - erewrite bind_Ok.
    2:{ unfold blockMalwareSetup, emitter_emit, newEventEmitter.
        cbn [eventEmitter listeners callListeners targetUrl].
        unfold bind, gets, modify, ret. reflexivity. }
    erewrite bind_Ok by reflexivity.
    cbn [targetUrl createRequestContext cli set_emitted set_auditStats].
    destruct (negb (Settings.skipMinimumPackageAge (cli w))
              && ModifyNpmInfo.isPackageInfoUrl url); reflexivity.
  - erewrite bind_Ok by reflexivity.
    erewrite bind_Ok by reflexivity.
    cbn [targetUrl createRequestContext cli set_auditStats].
    destruct (negb (Settings.skipMinimumPackageAge (cli w))
              && ModifyNpmInfo.isPackageInfoUrl url); reflexivity.
Qed.

Lemma npm_handleRequest_run registry url (w : World) packageName version :
  parseNpmPackageUrl url registry = (packageName, version) ->
  exists stats,
    let w1 := set_auditStats stats w in
    handleRequest (NpmInterceptor.buildNpmInterceptor registry) url w
    = (Ok (build (npmContext url (reported packageName version)
                    (negb (Settings.skipMinimumPackageAge (cli w))
                     && ModifyNpmInfo.isPackageInfoUrl url))),
       if reported packageName version
       then set_emitted
              (emitted w ++
                 [Examples.malwareBlockedEvent packageName version url (clock w)]) w1
       else w1).
Proof.
  intros Hparse. destruct (npmSetup_run registry url w _ _ Hparse) as (stats & Hsetup).
  exists stats. cbv zeta in *.
  unfold handleRequest, NpmInterceptor.buildNpmInterceptor, interceptRequests,
    buildInterceptor.
  cbn [requestHandlers interceptorEmitter runHandlers].
  erewrite bind_Ok; [reflexivity|].
  erewrite bind_Ok by exact Hsetup. reflexivity.
Qed.


Lemma pip_handleRequest_run registry url (w : World) packageName version :
  PipInterceptor.parsePipPackageFromUrl url registry w = (Ok (packageName, version), w) ->
  exists stats,
    let w1 := set_auditStats stats w in
    handleRequest (PipInterceptor.buildPipInterceptor registry) url w
    = (Ok (build (pipContext url (reported packageName version))),
       if reported packageName version
       then set_emitted
              (emitted w ++
                 [Examples.malwareBlockedEvent packageName version url (clock w)]) w1
       else w1).
Proof.
  intros Hparse.
  destruct (isMalwarePackage_reported packageName version w) as (stats & Hcheck).
  exists stats. cbv zeta.
  unfold handleRequest, PipInterceptor.buildPipInterceptor, interceptRequests,
    buildInterceptor.
  cbn [requestHandlers interceptorEmitter runHandlers].
  erewrite bind_Ok; [reflexivity|].
  erewrite bind_Ok; [reflexivity|].
  unfold PipInterceptor.pipSetup. cbn [targetUrl createRequestContext].
  erewrite bind_Ok by exact Hparse. cbv beta iota.
  erewrite bind_Ok by exact Hcheck.
  destruct (reported packageName version); [|reflexivity].
  unfold blockMalwareSetup, emitter_emit, newEventEmitter.
  cbn [eventEmitter listeners callListeners targetUrl].
  unfold bind, gets, modify, ret. reflexivity.
Qed.

(** X10.  A request whose parsed package the check does not report, in
    particular one that parses to (undefined, undefined), is not
    blocked: the handler has no [blockResponse], no event is emitted and
    only the audit counters may have changed. *)
Theorem unreported_request_passes (registry url : string) (w : World)
        (packageName version : option string) :
  reported packageName version = false ->
  (parseNpmPackageUrl url registry = (packageName, version) ->
   exists handler stats,
     handleRequest (NpmInterceptor.buildNpmInterceptor registry) url w
       = (Ok handler, set_auditStats stats w)
     /\ blockResponse handler = None)
  /\
  (PipInterceptor.parsePipPackageFromUrl url registry w = (Ok (packageName, version), w) ->
   exists handler stats,
     handleRequest (PipInterceptor.buildPipInterceptor registry) url w
       = (Ok handler, set_auditStats stats w)
     /\ blockResponse handler = None).
Proof.
  intros Hno. split; intros Hparse.
  - destruct (npm_handleRequest_run registry url w _ _ Hparse) as (stats & Hrun).
    cbv zeta in Hrun. rewrite Hno in Hrun. eexists _, stats. split; [exact Hrun|].
    reflexivity.
  - destruct (pip_handleRequest_run registry url w _ _ Hparse) as (stats & Hrun).
    cbv zeta in Hrun. rewrite Hno in Hrun. eexists _, stats. split; [exact Hrun|].
    reflexivity.
Qed.


(** X12.  A handler that the npm interceptor returns rewrites the
    response exactly when the age check is not skipped and the URL is a
    package-info URL; it is then also the only case in which the
    request headers go through [modifyNpmInfoRequestHeaders]. *)
Theorem npm_handler_rewrites_iff (registry url : string) (w w' : World) handler :
  handleRequest (NpmInterceptor.buildNpmInterceptor registry) url w = (Ok handler, w') ->
  let rewrites :=
    negb (Settings.skipMinimumPackageAge (cli w))
    && ModifyNpmInfo.isPackageInfoUrl url in
  modifiesResponse handler tt = rewrites
  /\ forall headers,
       modifyRequestHeaders handler (Some headers)
       = Some (if rewrites then ModifyNpmInfo.modifyNpmInfoRequestHeaders headers
               else headers).
Proof.
  intros Hrun. cbv zeta.
  destruct (parseNpmPackageUrl url registry) as [packageName version] eqn:Hparse.
  destruct (npm_handleRequest_run registry url w _ _ Hparse) as (stats & Hrun').
  cbv zeta in Hrun'. rewrite Hrun' in Hrun. injection Hrun as <- _.
  destruct (negb (Settings.skipMinimumPackageAge (cli w))
            && ModifyNpmInfo.isPackageInfoUrl url); repeat split.
Qed.

End PassingRequests.

(** ** What the rewriter leaves and what it takes out (modifyNpmInfo.js) *)
Section RewriterOutcomes.
Context `{Runtime}.
Import ModifyNpmInfo Rewritten.







(** X13.  What the rewriter does to the headers and to the flag.  A
    response that it bypasses (no JSON content type, an empty body, a
    body that is not JSON, a document without [time], [dist-tags] or
    [versions]) comes back with the body, the headers and the world as
    they are.  On a packument it does not throw, and either leaves the
    headers and the world as they are, or drops the caching headers and
    raises the suppressed-versions flag; it does nothing else to the
    world, and in particular it never clears the flag. *)
Theorem modifyNpmInfoResponse_effects body (headers : option Headers) (w : World) :
  (hasJsonContentType headers = false
   \/ byteLength body = 0%Z
   \/ JSON_parse body = None
   \/ JSON_parse body = Some OtherJson ->
   modifyNpmInfoResponse body headers w = (Ok (body, headers), w))
  /\ (forall p,
        hasJsonContentType headers = true ->
        byteLength body <> 0%Z ->
        JSON_parse body = Some (IsPackument p) ->
        exists out,
          modifyNpmInfoResponse body headers w
          = (Ok (JSON_stringify out, headers), w)
          \/ modifyNpmInfoResponse body headers w
             = (Ok (JSON_stringify out, deleteCachingHeaders headers),
                set_hasSuppressedVersions true w)).
Proof.
  split; [apply modifyNpmInfoResponse_untouched|].
  intros p Hct Hlen Hparse.
  rewrite (modifyNpmInfoResponse_run body headers p w Hct Hlen Hparse).
  destruct (removedVersions (clock w) p); eexists; [left|right]; reflexivity.
Qed.



End RewriterOutcomes.

Section RewriterOutcomesExamples.
Import ModifyNpmInfo Fixture Examples.

Lemma modifyNpmInfoResponse_effects_witness :
  modifyNpmInfoResponse (Text "<html>") (Some jsonHeaders) world0
    = (Ok (Text "<html>", Some jsonHeaders), world0)
  /\ exists out,
       modifyNpmInfoResponse (Serialized lodash) (Some jsonHeaders) world0
       = (Ok (JSON_stringify out, Some jsonHeaders), world0)
       \/ modifyNpmInfoResponse (Serialized lodash) (Some jsonHeaders) world0
          = (Ok (JSON_stringify out, deleteCachingHeaders (Some jsonHeaders)),
             set_hasSuppressedVersions true world0).
Proof.
  split.
  - apply (proj1 (@modifyNpmInfoResponse_effects runtime
                    (Text "<html>") (Some jsonHeaders) world0)).
    right. right. left. reflexivity.
  - apply (proj2 (@modifyNpmInfoResponse_effects runtime
                    (Serialized lodash) (Some jsonHeaders) world0) lodash).
    + vm_compute. reflexivity.
    + vm_compute. discriminate.
    + reflexivity.
Defined.



End RewriterOutcomesExamples.

(** ** Which requests are rewritten, and how they are asked for
    (modifyNpmInfo.js) *)
Section UrlAndHeaders.
Context `{Runtime}.
Import ModifyNpmInfo.

Lemma app_empty_r (s : string) : (s ++ EmptyString)%string = s.
Proof. induction s as [|c s IH]; [done|]. by rewrite app_cons, IH. Qed.

Lemma indexOf_lower (s : string) (c : ascii) : (-1 <= JS.indexOf s c)%Z.
Proof.
  induction s as [|a s IH]; cbn [JS.indexOf]; [lia|].
  destruct (Ascii.eqb a c); [lia|].
  destruct (JS.indexOf s c <? 0)%Z eqn:E; lia.
Qed.

Lemma indexOf_tail (a : ascii) (s : string) (c : ascii) :
  JS.indexOf (String a s) c = (-1)%Z ->
  Ascii.eqb a c = false /\ JS.indexOf s c = (-1)%Z.
Proof.
  cbn [JS.indexOf]. destruct (Ascii.eqb a c); [discriminate|].
  pose proof (indexOf_lower s c).
  destruct (JS.indexOf s c <? 0)%Z eqn:E; [|lia].
  apply Z.ltb_lt in E. intros _. split; [done | lia].
Qed.

Lemma split_nonempty (s : string) (c : ascii) : JS.split s c <> [].
Proof.
  destruct s as [|a s]; cbn [JS.split]; [done|].
  destruct (Ascii.eqb a c); [done|]. by destruct (JS.split s c).
Qed.

(** The first piece of a split: what stands before the first separator. *)
Lemma hd_split_app (a b : string) (c : ascii) (d : string) :
  JS.indexOf a c = (-1)%Z ->
  List.hd d (JS.split (a ++ b) c) = (a ++ List.hd d (JS.split b c))%string.
Proof.
  induction a as [|x a IH]; intros Hno; [by rewrite !app_empty|].
  apply indexOf_tail in Hno as [Hx Hno]. specialize (IH Hno).
  rewrite !app_cons. cbn [JS.split]. rewrite Hx.
  destruct (JS.split (a ++ b) c) as [|w ws] eqn:Hs; [by apply split_nonempty in Hs|].
  cbn [List.hd] in *. by rewrite IH.
Qed.

Lemma hd_split_clean (a : string) (c : ascii) (d : string) :
  JS.indexOf a c = (-1)%Z -> List.hd d (JS.split a c) = a.
Proof.
  intros Hno. rewrite <- (app_empty_r a) at 1.
  rewrite hd_split_app by exact Hno. cbn. apply app_empty_r.
Qed.

Lemma hd_split_at (a b : string) (c : ascii) (d : string) :
  JS.indexOf a c = (-1)%Z -> List.hd d (JS.split (a ++ String c b) c) = a.
Proof.
  intros Hno. rewrite hd_split_app by exact Hno.
  cbn [JS.split]. rewrite Ascii.eqb_refl. cbn. apply app_empty_r.
Qed.

Lemma modifyNpmInfoRequestHeaders_cases (headers : Headers) :
  (modifyNpmInfoRequestHeaders headers
     = <["accept" := HString "application/json"]> headers)
  \/ (modifyNpmInfoRequestHeaders headers = headers
      /\ forall accept,
           HttpUtils.getHeaderValueAsString (Some headers) "accept" = Some accept ->
           JS.includes accept "application/vnd.npm.install-v1+json" = false).
Proof.
  unfold modifyNpmInfoRequestHeaders.
  destruct (HttpUtils.getHeaderValueAsString (Some headers) "accept") as [a|];
    [|right; split; [done|intros ? [=]]].
  destruct (JS.includes a "application/vnd.npm.install-v1+json") eqn:Hinc;
    [by left|].
  right. split; [done|]. by intros ? [= <-].
Qed.

Lemma accept_after_insert (headers : Headers) :
  HttpUtils.getHeaderValueAsString
    (Some (<["accept" := HString "application/json"]> headers)) "accept"
  = Some "application/json".
Proof. unfold HttpUtils.getHeaderValueAsString. by rewrite lookup_insert_eq. Qed.

(** X16.  [modifyNpmInfoRequestHeaders] changes no header other than
    [accept]; the request it leaves never asks for the abbreviated
    install format, which has no [time] object; and applying it twice is
    the same as applying it once. *)
Theorem modifyNpmInfoRequestHeaders_accept (headers : Headers) :
  (forall k, k <> "accept" ->
     modifyNpmInfoRequestHeaders headers !! k = headers !! k)
  /\ (forall accept,
        HttpUtils.getHeaderValueAsString
          (Some (modifyNpmInfoRequestHeaders headers)) "accept" = Some accept ->
        JS.includes accept "application/vnd.npm.install-v1+json" = false)
  /\ modifyNpmInfoRequestHeaders (modifyNpmInfoRequestHeaders headers)
     = modifyNpmInfoRequestHeaders headers.
Proof.
  destruct (modifyNpmInfoRequestHeaders_cases headers) as [->|[-> Hclean]].
  - split; [|split].
    + intros k Hk. by rewrite lookup_insert_ne.
    + intros accept. rewrite accept_after_insert. by intros [= <-].
    + destruct (modifyNpmInfoRequestHeaders_cases
                  (<["accept" := HString "application/json"]> headers))
        as [->|[-> _]]; [|done].
      apply insert_insert_eq.
  - split; [done|]. split; [exact Hclean|].
    destruct (modifyNpmInfoRequestHeaders_cases headers) as [Hins|[-> _]]; [|done].
    unfold modifyNpmInfoRequestHeaders in *.
    destruct (HttpUtils.getHeaderValueAsString (Some headers) "accept") as [a|];
      [|done].
    by rewrite (Hclean a eq_refl).
Qed.

(** X17.  A query string or a fragment does not change whether a URL is
    a package-info URL: the test looks at what stands before the first
    [?] and the first [#]. *)
Theorem isPackageInfoUrl_ignores_query_and_fragment (base rest : string) :
  JS.indexOf base "?" = (-1)%Z ->
  JS.indexOf base "#" = (-1)%Z ->
  isPackageInfoUrl (base ++ "?" ++ rest)%string = isPackageInfoUrl base
  /\ isPackageInfoUrl (base ++ "#" ++ rest)%string = isPackageInfoUrl base.
Proof.
  intros Hq Hf. unfold isPackageInfoUrl.
  rewrite (hd_split_clean base "?") by exact Hq.
  rewrite (hd_split_clean base "#") by exact Hf.
  rewrite !app_cons, !app_empty. split.
  - rewrite (hd_split_at base rest "?") by exact Hq.
    by rewrite (hd_split_clean base "#") by exact Hf.
  - rewrite (hd_split_app base (String "#" rest) "?") by exact Hq.
    cbn [JS.split]. change (Ascii.eqb "#" "?") with false. cbv iota.
    destruct (JS.split rest "?") as [|r rs] eqn:Hs; [by apply split_nonempty in Hs|].
    cbn [List.hd].
    by rewrite (hd_split_at base r "#") by exact Hf.
Qed.

(** X18.  The exemption from the age check goes by the base name: every
    package of an allow-listed scope is exempt, an unscoped package is
    exempt exactly when its whole name is on the list, and a request
    without a package name is not exempt. *)
Theorem exemption_goes_by_base_name :
  (forall scope rest,
     In scope allowedBasePackages ->
     JS.startsWith scope "@" = true ->
     isPackageExemptFromAgeCheck (Some (scope ++ "/" ++ rest)%string) = true)
  /\ (forall packageName,
        JS.startsWith packageName "@" = false ->
        isPackageExemptFromAgeCheck (Some packageName) = true
        <-> In packageName allowedBasePackages)
  /\ isPackageExemptFromAgeCheck None = false.
Proof.
  split; [|split; [|done]].
  - intros scope rest Hin Hat. unfold allowedBasePackages in Hin. cbn [In] in Hin.
    repeat (destruct Hin as [<-|Hin]; [first [discriminate Hat | reflexivity]|]).
    destruct Hin.
  - intros packageName Hat. unfold isPackageExemptFromAgeCheck, basePackageName.
    rewrite Hat. split.
    + destruct (List.existsb _ _) eqn:Hex; [|discriminate]. intros _.
      apply List.existsb_exists in Hex as (x & Hin & Heq).
      by apply String.eqb_eq in Heq as ->.
    + intros Hin.
      assert (Hex : List.existsb (String.eqb packageName) allowedBasePackages = true).
      { apply List.existsb_exists. exists packageName. split; [done|].
        apply String.eqb_refl. }
      by rewrite Hex.
Qed.

End UrlAndHeaders.

Section UrlAndHeadersExamples.
Import ModifyNpmInfo Fixture.

Lemma isPackageInfoUrl_ignores_query_and_fragment_witness :
  isPackageInfoUrl ("https://registry.npmjs.org/lodash/-/lodash-4.17.21.tgz"
                    ++ "?" ++ "write=true")%string
  = isPackageInfoUrl "https://registry.npmjs.org/lodash/-/lodash-4.17.21.tgz"
  /\ isPackageInfoUrl ("https://registry.npmjs.org/lodash/-/lodash-4.17.21.tgz"
                       ++ "#" ++ "write=true")%string
     = isPackageInfoUrl "https://registry.npmjs.org/lodash/-/lodash-4.17.21.tgz".
Proof.
  apply (isPackageInfoUrl_ignores_query_and_fragment
           "https://registry.npmjs.org/lodash/-/lodash-4.17.21.tgz" "write=true");
    reflexivity.
Defined.

Lemma exemption_goes_by_base_name_witness :
  isPackageExemptFromAgeCheck (Some ("@brightspace-ui" ++ "/" ++ "core")%string) = true
  /\ (isPackageExemptFromAgeCheck (Some "d2l-npm-login") = true
      <-> In "d2l-npm-login" allowedBasePackages).
Proof.
  split.
  - apply (proj1 exemption_goes_by_base_name "@brightspace-ui" "core");
      [cbn; tauto | reflexivity].
  - apply (proj1 (proj2 exemption_goes_by_base_name) "d2l-npm-login"). reflexivity.
Defined.

Lemma modifyNpmInfoRequestHeaders_accept_witness :
  modifyNpmInfoRequestHeaders
    (<["accept" := HString "application/vnd.npm.install-v1+json; q=1.0"]>
     (<["user-agent" := HString "npm/10"]> empty)) !! "user-agent"
  = Some (HString "npm/10").
Proof.
  rewrite (proj1 (modifyNpmInfoRequestHeaders_accept
                    (<["accept" := HString "application/vnd.npm.install-v1+json; q=1.0"]>
                     (<["user-agent" := HString "npm/10"]> empty)))
             "user-agent") by discriminate.
  reflexivity.
Defined.

End UrlAndHeadersExamples.

(** ** The file names of PyPI (pipInterceptor.js) *)
Section PipFilenames.
Context `{Runtime} `{Collaborators}.
Import PipInterceptor.

Lemma accepted_pair (c : bool) (n v : string) :
  c = (String.eqb v "latest" || negb (JS.truthy n) || negb (JS.truthy v)) ->
  (if c then undefinedPackage else (Some n, Some v)) = (None, None)
  \/ exists n' v',
       (if c then undefinedPackage else (Some n, Some v)) = (Some n', Some v')
       /\ JS.truthy n' = true /\ JS.truthy v' = true /\ v' <> "latest".
Proof.
  intros ->. destruct (_ || _) eqn:Hc; [by left|right].
  apply orb_false_iff in Hc as [Hc Hv]. apply orb_false_iff in Hc as [Hl Hn].
  apply negb_false_iff in Hv, Hn. apply String.eqb_neq in Hl.
  by exists n, v.
Qed.

(** X19.  The parser of file names answers with a name and a version,
    both not empty and the version not [latest], or with neither: it
    never gives one without the other. *)
Theorem parsePipFilename_shape (filename : string) :
  parsePipFilename filename = (None, None)
  \/ exists packageName version,
       parsePipFilename filename = (Some packageName, Some version)
       /\ JS.truthy packageName = true
       /\ JS.truthy version = true
       /\ version <> "latest".
Proof.
  assert (Hsdist : parseSdist filename = (None, None)
                   \/ exists n v, parseSdist filename = (Some n, Some v)
                                  /\ JS.truthy n = true /\ JS.truthy v = true
                                  /\ v <> "latest").
  { unfold parseSdist. destruct (sdistExtMatch filename) as [matched|]; [|by left].
    cbv zeta. destruct (_ && _)%Z; [|by left]. by apply accepted_pair. }
  unfold parsePipFilename. cbv zeta.
  destruct (JS.endsWith filename ".whl"); [|exact Hsdist].
  destruct (0 <? _)%Z; [|exact Hsdist].
  match goal with
  | |- context [if ?c then Some undefinedPackage else Some (Some ?n, Some ?v)] =>
      pose proof (accepted_pair c n v eq_refl) as Hwheel; destruct c
  end; exact Hwheel.
Qed.

End PipFilenames.

Section PassingRequestsExamples.
Import InterceptorBuilder Intercepted Fixture Examples Scenarios.

Lemma wheelUrl_parses :
  PipInterceptor.parsePipPackageFromUrl wheelUrl "files.pythonhosted.org" world0
  = (Ok (Some "requests", Some "2.28.1"), world0).
Proof. vm_compute. reflexivity. Qed.

Lemma unreported_request_passes_witness :
  (exists handler stats,
     handleRequest (NpmInterceptor.buildNpmInterceptor "registry.npmjs.org")
                   lodashUrl world0
       = (Ok handler, set_auditStats stats world0)
     /\ blockResponse handler = None)
  /\ (exists handler stats,
        handleRequest (PipInterceptor.buildPipInterceptor "files.pythonhosted.org")
                      wheelUrl world0
          = (Ok handler, set_auditStats stats world0)
        /\ blockResponse handler = None).
Proof.
  split.
  - apply (proj1 (@unreported_request_passes runtime collaborators
                    "registry.npmjs.org" lodashUrl world0 None None eq_refl)).
    vm_compute. reflexivity.
  - apply (proj2 (@unreported_request_passes runtime collaborators
                    "files.pythonhosted.org" wheelUrl world0
                    (Some "requests") (Some "2.28.1") eq_refl)).
    exact wheelUrl_parses.
Defined.

Lemma npm_handler_rewrites_iff_witness :
  exists handler w',
    handleRequest (NpmInterceptor.buildNpmInterceptor "registry.npmjs.org")
                  lodashUrl world0 = (Ok handler, w')
    /\ modifiesResponse handler tt = true
    /\ forall headers,
         modifyRequestHeaders handler (Some headers)
         = Some (ModifyNpmInfo.modifyNpmInfoRequestHeaders headers).
Proof.
  destruct (@npm_handleRequest_run runtime collaborators "registry.npmjs.org"
              lodashUrl world0 None None) as (stats & Hrun);
    [vm_compute; reflexivity|].
  cbv zeta in Hrun. change (reported None None) with false in Hrun.
  eexists _, _. split; [exact Hrun|].
  exact (@npm_handler_rewrites_iff runtime collaborators _ _ _ _ _ Hrun).
Defined.


End PassingRequestsExamples.

(** ** Connections that are not intercepted (registryProxy.js) *)
Section Tunnels.
Context `{Runtime} `{Collaborators}.

Lemma find_all_false {A} (f : A -> bool) (l : list A) :
  (forall x, In x l -> f x = false) -> List.find f l = None.
Proof.
  induction l as [|a l IH]; intros Hall; [done|]. cbn.
  rewrite (Hall a) by (by left). apply IH. intros x Hx. apply Hall. by right.
Qed.

(** X20.  A CONNECT request is tunnelled, and nothing is recorded, when
    its target names no registry of the current ecosystem: the
    registries of the other ecosystem are not intercepted, and with an
    ecosystem other than "js" and "py" nothing is. *)
Theorem handleConnect_tunnels_other_hosts (reqUrl : option string) (w : World) :
  (ecoSystem w = Settings.ECOSYSTEM_JS ->
   forall registry,
     In registry NpmInterceptor.knownJsRegistries ->
     JS.includes (default EmptyString reqUrl) registry = false) ->
  (ecoSystem w = Settings.ECOSYSTEM_PY ->
   forall registry,
     In registry PipInterceptor.knownPipRegistries ->
     JS.includes (default EmptyString reqUrl) registry = false) ->
  RegistryProxy.handleConnect reqUrl w = (Ok RegistryProxy.TunnelRequest, w).
Proof.
  intros Hjs Hpy.
  unfold RegistryProxy.handleConnect, EcoSystem.createInterceptorForUrl.
  unfold bind, gets.
  destruct (String.eqb_spec (ecoSystem w) Settings.ECOSYSTEM_JS) as [Heco|_].
  - unfold ret, NpmInterceptor.npmInterceptorForUrl.
    by rewrite (find_all_false
                  (fun reg => JS.includes (default EmptyString reqUrl) reg) _ (Hjs Heco)).
  - destruct (String.eqb_spec (ecoSystem w) Settings.ECOSYSTEM_PY) as [Heco|_];
      [|done].
    unfold ret, PipInterceptor.pipInterceptorForUrl.
    by rewrite (find_all_false
                  (fun reg => JS.includes (default EmptyString reqUrl) reg) _ (Hpy Heco)).
Qed.

End Tunnels.

Section TunnelsExamples.
Import Fixture Scenarios.

Lemma handleConnect_tunnels_other_hosts_witness :
  RegistryProxy.handleConnect (Some pypiConnectTarget) world0
  = (Ok RegistryProxy.TunnelRequest, world0).
Proof.
  apply (@handleConnect_tunnels_other_hosts runtime collaborators
           (Some pypiConnectTarget) world0).
  - intros _ registry [<-|[<-|[]]]; reflexivity.
  - intros Heco. discriminate Heco.
Defined.

End TunnelsExamples.

(** ** Failures of the wrapper (main.js) *)
Section MainOutcomes.
Context `{Runtime} `{Collaborators}.
Import Main Wrapper.



(** X22.  Once the proxy listens, a failure is answered with exit code
    1: when the resolver of the pre-scan throws, no child command is
    run; when the child command cannot be run, the code is 1 whatever
    the proxy has seen. *)
Theorem main_failure_exits_1
        (packageManager : PackageManager) (listeningPort : Z) (race : RaceWinner)
        (args : list string) (w : World) :
  (forall e,
     shouldScanCommand packageManager (remainingArgs args w) = true ->
     race = ScanFirst ->
     getDependencyUpdatesForCommand packageManager (remainingArgs args w) = Throw e ->
     main packageManager race (Some listeningPort) args w
     = (Ok 1%Z, scanWorld listeningPort args w))
  /\ (forall w2 w3 e,
        scanPasses packageManager listeningPort race args w w2 ->
        runCommand packageManager (remainingArgs args w)
                   (set_spawned (spawned w2 ++ [remainingArgs args w]) w2)
          = (Throw e, w3) ->
        main packageManager race (Some listeningPort) args w = (Ok 1%Z, w3)).
Proof.
  split.
  - intros e Hscan -> Hres. rewrite main_unfold, Hscan.
    unfold scanCommand. rewrite Hscan, Hres. reflexivity.
  - intros w2 w3 e Hpass Hrun. rewrite main_unfold.
    unfold try_finally, try_catch.
    erewrite bind_Ok by (apply scanPasses_run; exact Hpass).
    cbn [Z.eqb negb].
    erewrite bind_Throw; [reflexivity|].
    unfold runChild. erewrite bind_Ok by reflexivity. exact Hrun.
Qed.

(** X23.  Commands of pip and of uv are never pre-scanned, whatever the
    arguments and the timer: the wrapper removes its own flags, runs
    the command (for pip, after the arguments of the current
    invocation), and the exit code is 1 if the child could not be run
    or the proxy blocked a download, and the child's status otherwise. *)
Theorem python_commands_are_not_prescanned
        (run : string -> list string -> M Z) (invocation : PackageManagers.Invocation)
        (race : RaceWinner) (listeningPort : Z) (args : list string) (w : World) :
  let userArgs := remainingArgs args w in
  let w1 := scanWorld listeningPort args w in
  let outcome (r : result Z * World) : result Z * World :=
    match r with
    | (Ok status, w3) =>
        (Ok (match blockedRequests w3 with [] => status | _ => 1%Z end), w3)
    | (Throw _, w3) => (Ok 1%Z, w3)
    end in
  main (PackageManagers.createPipPackageManager run invocation) race
       (Some listeningPort) args w
  = outcome (run (PackageManagers.command invocation)
                 (PackageManagers.args invocation ++ userArgs)
                 (set_spawned (spawned w1 ++ [userArgs]) w1))
  /\ main (PackageManagers.createUvPackageManager run) race
          (Some listeningPort) args w
     = outcome (run "uv" userArgs (set_spawned (spawned w1 ++ [userArgs]) w1)).
Proof.
  cbv zeta.
  assert (Hno : forall pm,
             isSupportedCommand pm = (fun _ => false) ->
             forall l, shouldScanCommand pm l = false).
  { intros pm Hpm l. unfold shouldScanCommand. rewrite Hpm.
    by destruct (Z.of_nat (List.length l) =? 0)%Z. }
  split; rewrite main_unfold, Hno by reflexivity;
    unfold try_finally, try_catch, runChild, bind, modify, ret,
      RegistryProxy.verifyNoMaliciousPackages, gets, RegistryProxy.stopServer;
    cbn [Z.eqb negb runCommand PackageManagers.createPipPackageManager
           PackageManagers.createUvPackageManager];
    match goal with
    | |- context [run ?c ?a ?w0] => destruct (run c a w0) as [[status|e] w3]
    end; try reflexivity;
    unfold bind, ret; cbv beta iota; by destruct (blockedRequests w3).
Qed.

End MainOutcomes.

Section MainOutcomesExamples.
Import Main Wrapper Fixture Examples Scenarios.

Lemma main_failure_exits_1_witness :
  main failingResolver ScanFirst (Some 8080%Z) ["install"; "lodash"] world0
  = (Ok 1%Z, scanWorld 8080%Z ["install"; "lodash"] world0)
  /\ exists w3,
       main failingChild ScanFirst (Some 8080%Z) ["install"; "lodash"] world0
       = (Ok 1%Z, w3).
Proof.
  split.
  - apply (proj1 (main_failure_exits_1 failingResolver 8080%Z
                    ScanFirst ["install"; "lodash"] world0) "dry run failed");
      reflexivity.
  - eexists.
    refine (proj2 (main_failure_exits_1 failingChild 8080%Z
                     ScanFirst ["install"; "lodash"] world0) _ _ "spawn npm ENOENT" _ _).
    + right. split; [reflexivity|]. split; [reflexivity|].
      eexists _, _. split; [vm_compute; reflexivity|].
      split; [vm_compute; reflexivity | reflexivity].
    + vm_compute. reflexivity.
Defined.

End MainOutcomesExamples.

(** ** The environment of the child process (registryProxy.js,
    runUvCommand.js) *)
Section ChildEnvironment.
Import ProxyEnvironment.

Variable toUpperCase : string -> string.
Variable caCertPath : string.


(** A step of the loop writes at its own key or nowhere. *)
Lemma mergeStep_other env (m : gmap string string) key k :
  key <> k -> mergeStep toUpperCase env m key !! k = m !! k.
Proof.
  intros Hne. unfold mergeStep. destruct (envValue env key) as [value|]; [|done].
  destruct (_ && _); [|done]. by rewrite lookup_insert_ne.
Qed.

(** A variable that is set and not empty stays so. *)
Lemma mergeStep_truthy env (m : gmap string string) key k :
  JS.truthy_opt (m !! k) = true -> JS.truthy_opt (mergeStep toUpperCase env m key !! k) = true.
Proof.
  intros Hk. destruct (decide (key = k)) as [->|Hne];
    [|by rewrite mergeStep_other].
  unfold mergeStep. destruct (envValue env k) as [value|]; [|done].
  destruct (_ && _) eqn:Hcond; [|done].
  apply andb_true_iff in Hcond as [_ Hv]. by rewrite lookup_insert_eq.
Qed.

Lemma mergeStep_guarded env (m : gmap string string) key k :
  JS.truthy_opt (m !! toUpperCase k) = true -> mergeStep toUpperCase env m key !! k = m !! k.
Proof.
  intros Hup. destruct (decide (key = k)) as [->|Hne];
    [|by apply mergeStep_other].
  unfold mergeStep. destruct (envValue env k) as [value|]; [|done].
  by rewrite Hup.
Qed.

Lemma merge_guarded env keys (m : gmap string string) k :
  JS.truthy_opt (m !! toUpperCase k) = true ->
  List.fold_left (mergeStep toUpperCase env) keys m !! k = m !! k.
Proof.
  revert m. induction keys as [|key keys IH]; intros m Hup; [done|].
  cbn [List.fold_left]. rewrite IH by (by apply mergeStep_truthy).
  by apply mergeStep_guarded.
Qed.

Lemma merge_source env keys (m : gmap string string) k v :
  List.fold_left (mergeStep toUpperCase env) keys m !! k = Some v ->
  m !! k = Some v \/ (envValue env k = Some v /\ JS.truthy v = true).
Proof.
  revert m. induction keys as [|key keys IH]; intros m; [by left|].
  cbn [List.fold_left]. intros Hfold. apply IH in Hfold as [Hstep|Henv]; [|by right].
  destruct (decide (key = k)) as [->|Hne];
    [|left; by rewrite mergeStep_other in Hstep].
  unfold mergeStep in Hstep. destruct (envValue env k) as [value|]; [|by left].
  destruct (_ && _) eqn:Hcond; [|by left].
  apply andb_true_iff in Hcond as [_ Hv].
  rewrite lookup_insert_eq in Hstep. injection Hstep as ->. by right.
Qed.

Lemma merge_passes env keys (m : gmap string string) k v :
  envValue env k = Some v ->
  JS.truthy v = true ->
  toUpperCase k = k ->
  m !! k = Some v \/ (JS.truthy_opt (m !! k) = false /\ In k keys) ->
  List.fold_left (mergeStep toUpperCase env) keys m !! k = Some v.
Proof.
  intros Henv Hv Hup. revert m.
  induction keys as [|key keys IH]; intros m.
  - intros [Hm|[_ []]]. exact Hm.
  - cbn [List.fold_left]. intros Hm. apply IH.
    destruct (decide (key = k)) as [->|Hne].
    + left. unfold mergeStep. rewrite Henv, Hup, Hv.
      destruct Hm as [Hm|[Hm _]].
      * rewrite Hm. cbn [JS.truthy_opt]. by rewrite Hv.
      * rewrite Hm. cbn [negb andb]. by rewrite lookup_insert_eq.
    + rewrite mergeStep_other by exact Hne.
      destruct Hm as [Hm|[Hm [Heq|Hin]]]; [by left | done | by right].
Qed.

(** X24.  The proxy's variables win.  A variable whose upper-case name
    is one that the proxy has set has, after the merge, the value the
    proxy gave it: the proxy's own value under the proxy's name, and no
    value under a name in another case, whatever the environment held. *)
Theorem proxy_variables_win (statePort : option Z)
        (env : list (string * option string)) (k : string) :
  let proxyEnv := getSafeChainProxyEnvironmentVariables caCertPath statePort in
  JS.truthy_opt (proxyEnv !! toUpperCase k) = true ->
  mergeSafeChainProxyEnvironmentVariables toUpperCase caCertPath statePort env !! k
  = proxyEnv !! k.
Proof. cbv zeta. apply merge_guarded. Qed.

(** X25.  The merge invents nothing: every variable of the result is
    one the proxy has set, or a variable of the environment that is
    set and not empty, with its value. *)
Theorem merged_variables_have_a_source (statePort : option Z)
        (env : list (string * option string)) (k v : string) :
  mergeSafeChainProxyEnvironmentVariables toUpperCase caCertPath statePort env !! k
    = Some v ->
  getSafeChainProxyEnvironmentVariables caCertPath statePort !! k = Some v
  \/ (envValue env k = Some v /\ JS.truthy v = true).
Proof. apply merge_source. Qed.

(** X26.  A variable of the environment under an upper-case name that
    the proxy does not set, with a value that is not empty, is passed on
    to the child. *)
Theorem upper_case_variable_is_passed_on (statePort : option Z)
        (env : list (string * option string)) (k v : string) :
  In k (List.map fst env) ->
  envValue env k = Some v ->
  JS.truthy v = true ->
  toUpperCase k = k ->
  JS.truthy_opt (getSafeChainProxyEnvironmentVariables caCertPath statePort !! k) = false ->
  mergeSafeChainProxyEnvironmentVariables toUpperCase caCertPath statePort env !! k = Some v.
Proof.
  intros Hin Henv Hv Hup Hfree. apply merge_passes; try done. by right.
Qed.

Variable processEnv : list (string * option string).
Variable getCombinedCaBundlePath : result string.
Variable safeSpawn : string -> list string -> gmap string string
                     -> M RunUvCommand.SpawnResult.


Lemma statusOfError_nonzero (status : option Z) :
  RunUvCommand.statusOfError status <> 0%Z.
Proof.
  unfold RunUvCommand.statusOfError. destruct status as [s|]; [|done].
  destruct (s =? 0)%Z eqn:E; [done|]. by apply Z.eqb_neq.
Qed.

(** X27.  [runUv] never throws: it resolves with a status.  The status
    is 0 only if the certificate bundle was there and the child, started
    with the environment of [uvEnvironment], exited with 0; a child
    that could not be run, or a missing bundle, never reads as a
    success. *)
Theorem runUv_status (command : string) (args : list string) (w : World) :
  let runUv :=
    RunUvCommand.runUv toUpperCase caCertPath processEnv getCombinedCaBundlePath
                       safeSpawn in
  let uvEnvironment :=
    RunUvCommand.uvEnvironment toUpperCase caCertPath processEnv in
  (exists status w', runUv command args w = (Ok status, w'))
  /\ (forall w',
        runUv command args w = (Ok 0%Z, w') ->
        exists combinedCaPath,
          getCombinedCaBundlePath = Ok combinedCaPath
          /\ safeSpawn command args (uvEnvironment (port w) combinedCaPath) w
             = (Ok (RunUvCommand.Resolved 0), w'))
  /\ (forall e, getCombinedCaBundlePath = Throw e ->
                runUv command args w = (Ok 1%Z, w)).
Proof.
  cbv zeta. unfold RunUvCommand.runUv, try_catch, bind, gets, ret, throw.
  destruct getCombinedCaBundlePath as [path|e0].
  - destruct (safeSpawn command args
                (RunUvCommand.uvEnvironment toUpperCase caCertPath processEnv
                   (port w) path) w)
      as [[[s|s]|e] w1] eqn:Hspawn.
    + split; [by eexists _, _|]. split; [|intros ? [=]].
      intros w' [= -> ->]. by exists path.
    + split; [by eexists _, _|]. split; [|intros ? [=]].
      intros w' [= Hs _]. by apply statusOfError_nonzero in Hs.
    + split; [by eexists _, _|]. split; [|intros ? [=]].
      intros w' [=].
  - split; [by eexists _, _|]. split; [intros w' [=] | done].
Qed.

(** X28.  The environment of the uv child: the three certificate
    variables hold the path of the combined bundle, whatever the user
    had set, and [HTTPS_PROXY] is the proxy of the wrapper once it
    listens. *)
Theorem uvEnvironment_overrides (statePort : Z) (combinedCaPath : string) :
  statePort <> 0%Z ->
  toUpperCase "HTTPS_PROXY" = "HTTPS_PROXY" ->
  let env :=
    RunUvCommand.uvEnvironment toUpperCase caCertPath processEnv (Some statePort)
                               combinedCaPath in
  env !! "SSL_CERT_FILE" = Some combinedCaPath
  /\ env !! "REQUESTS_CA_BUNDLE" = Some combinedCaPath
  /\ env !! "PIP_CERT" = Some combinedCaPath
  /\ env !! "HTTPS_PROXY" = Some (proxyUrl statePort).
Proof.
  intros Hport Hup. cbv zeta.
  unfold RunUvCommand.uvEnvironment, RunUvCommand.setUvCaBundleEnvironmentVariables.
  split; [|split; [|split]].
  - rewrite lookup_insert_ne by done. rewrite lookup_insert_ne by done.
    by rewrite lookup_insert_eq.
  - rewrite lookup_insert_ne by done. by rewrite lookup_insert_eq.
  - by rewrite lookup_insert_eq.
  - rewrite !lookup_insert_ne by done.
    assert (Hproxy : getSafeChainProxyEnvironmentVariables caCertPath (Some statePort)
                       !! "HTTPS_PROXY"
                     = Some (proxyUrl statePort)).
    { unfold getSafeChainProxyEnvironmentVariables.
      rewrite (proj2 (Z.eqb_neq _ _) Hport).
      rewrite !lookup_insert_ne by done. by rewrite lookup_insert_eq. }
    rewrite <- Hproxy. apply merge_guarded. rewrite Hup, Hproxy. reflexivity.
Qed.

End ChildEnvironment.

Section ChildEnvironmentExamples.
Import ProxyEnvironment Fixture Scenarios.

Lemma proxy_variables_win_witness :
  mergeSafeChainProxyEnvironmentVariables toUpperCase caCertPath (Some 8080%Z) userEnv
    !! "https_proxy"
  = getSafeChainProxyEnvironmentVariables caCertPath (Some 8080%Z) !! "https_proxy".
Proof.
  apply (proxy_variables_win toUpperCase caCertPath (Some 8080%Z) userEnv "https_proxy").
  vm_compute. reflexivity.
Defined.

Lemma merged_variables_have_a_source_witness :
  getSafeChainProxyEnvironmentVariables caCertPath (Some 8080%Z) !! "PATH"
    = Some "/usr/bin"
  \/ (envValue userEnv "PATH" = Some "/usr/bin" /\ JS.truthy "/usr/bin" = true).
Proof.
  apply (merged_variables_have_a_source toUpperCase caCertPath (Some 8080%Z) userEnv
           "PATH" "/usr/bin").
  vm_compute. reflexivity.
Defined.

Lemma upper_case_variable_is_passed_on_witness :
  mergeSafeChainProxyEnvironmentVariables toUpperCase caCertPath (Some 8080%Z) userEnv
    !! "PATH" = Some "/usr/bin".
Proof.
  apply (upper_case_variable_is_passed_on toUpperCase caCertPath (Some 8080%Z) userEnv
           "PATH" "/usr/bin").
  - cbn. tauto.
  - reflexivity.
  - reflexivity.
  - reflexivity.
  - vm_compute. reflexivity.
Defined.

Lemma runUv_status_witness :
  (exists combinedCaPath',
     Ok combinedCaPath = Ok combinedCaPath'
     /\ spawnOk "uv" ["pip"; "install"; "requests"]
          (RunUvCommand.uvEnvironment toUpperCase caCertPath userEnv (port world0)
             combinedCaPath') world0
        = (Ok (RunUvCommand.Resolved 0), world0))
  /\ RunUvCommand.runUv toUpperCase caCertPath userEnv (Throw "no bundle") spawnOk
                        "uv" ["pip"; "install"; "requests"] world0
     = (Ok 1%Z, world0).
Proof.
  split.
  - apply (proj1 (proj2 (runUv_status toUpperCase caCertPath userEnv (Ok combinedCaPath)
                           spawnOk "uv" ["pip"; "install"; "requests"] world0))
             world0).
    reflexivity.
  - apply (proj2 (proj2 (runUv_status toUpperCase caCertPath userEnv (Throw "no bundle")
                           spawnOk "uv" ["pip"; "install"; "requests"] world0))
             "no bundle").
    reflexivity.
Defined.

Lemma uvEnvironment_overrides_witness :
  RunUvCommand.uvEnvironment toUpperCase caCertPath userEnv (Some 8080%Z) combinedCaPath
    !! "SSL_CERT_FILE" = Some combinedCaPath
  /\ RunUvCommand.uvEnvironment toUpperCase caCertPath userEnv (Some 8080%Z)
       combinedCaPath !! "REQUESTS_CA_BUNDLE" = Some combinedCaPath
  /\ RunUvCommand.uvEnvironment toUpperCase caCertPath userEnv (Some 8080%Z)
       combinedCaPath !! "PIP_CERT" = Some combinedCaPath
  /\ RunUvCommand.uvEnvironment toUpperCase caCertPath userEnv (Some 8080%Z)
       combinedCaPath !! "HTTPS_PROXY" = Some (proxyUrl 8080).
Proof.
  apply (uvEnvironment_overrides toUpperCase caCertPath userEnv 8080%Z combinedCaPath).
  - discriminate.
  - reflexivity.
Defined.

End ChildEnvironmentExamples.
